(** * arxiv-mcp-server: retrieval, analysis and export pipeline

    A shallow embedding of [arxiv_mcp/models.py], [arxiv_mcp/api.py],
    [arxiv_mcp/analyzers.py], [arxiv_mcp/exporters.py], of the query
    builder and the id validation of [arxiv_mcp/utils.py] and of the
    handlers of [arxiv_mcp/server.py], followed by the properties of the
    specification that concern them and by further properties of the code.

    Conventions of the embedding.
    - A Python [str] is a Rocq [string], one [ascii] per code point: the
      model covers the code points below 256, on which slicing, [len],
      [lower], [strip] and [split] are written out as Python defines them.
    - A Python [int] is a [Z]; a [float] is a primitive binary64 [float].
    - A [dict] whose order is observable is an association list kept in
      insertion order.
    - Code that may raise lives in the [result] monad, whose exceptions are
      the instances of [Exception], which are what the handlers of the
      source catch; code that performs HTTP requests lives in [IO], which
      also records the requested URLs.  Logging is left out. *)

From Stdlib Require Import ZArith List String Ascii Bool Lia.
From Stdlib Require Import Permutation Sorted DecimalString.
From Stdlib Require Import Uint63 PrimFloat SpecFloat FloatOps.
Import ListNotations.

Local Open Scope string_scope.
Local Open Scope Z_scope.

(* ================================================================== *)
(** * Python strings *)
(* ================================================================== *)

Module PyStr.

Definition chr (n : nat) : ascii := ascii_of_nat n.
Definition ord (c : ascii) : nat := nat_of_ascii c.
Definition str1 (c : ascii) : string := String c "".

Definition LF : ascii := chr 10.
Definition CR : ascii := chr 13.
Definition TAB : ascii := chr 9.
Definition DQUOTE : ascii := chr 34.
Definition SQUOTE : ascii := chr 39.
Definition BACKSLASH : ascii := chr 92.

(** The string made of one line feed, written [nl] where the source has
    an escaped or literal newline. *)
Definition nl : string := str1 LF.

Definition between (lo hi n : nat) : bool := Nat.leb lo n && Nat.leb n hi.

(** [str.isspace] on one character: TAB..CR, FS..US and space, NEL, NBSP. *)
Definition isspace (c : ascii) : bool :=
  let n := ord c in
  between 9 13 n || between 28 32 n || Nat.eqb n 133 || Nat.eqb n 160.

Definition isdigit (c : ascii) : bool := between 48 57 (ord c).

(** [str.lower] on one character (A..Z, and the Latin-1 capitals but the
    multiplication sign). *)
Definition lower_char (c : ascii) : ascii :=
  let n := ord c in
  if between 65 90 n then chr (n + 32)
  else if between 192 222 n && negb (Nat.eqb n 215) then chr (n + 32)
  else c.

Fixpoint lower (s : string) : string :=
  match s with
  | EmptyString => EmptyString
  | String c s' => String (lower_char c) (lower s')
  end.

(** [bool(s)]: a string is true when it is not empty. *)
Definition truthy (s : string) : bool :=
  match s with EmptyString => false | String _ _ => true end.

(** [s[:n]] for a literal [n >= 0]. *)
Fixpoint take (n : nat) (s : string) : string :=
  match n, s with
  | S n', String c s' => String c (take n' s')
  | _, _ => EmptyString
  end.

(** [s] without the characters of its head, and of its end, that satisfy
    [blank]. *)
Fixpoint lstrip (blank : ascii -> bool) (s : string) : string :=
  match s with
  | EmptyString => EmptyString
  | String c s' => if blank c then lstrip blank s' else s
  end.

Fixpoint rstrip (blank : ascii -> bool) (s : string) : string :=
  match s with
  | EmptyString => EmptyString
  | String c s' =>
      match rstrip blank s' with
      | EmptyString => if blank c then EmptyString else str1 c
      | r => String c r
      end
  end.

(** [s.strip()] *)
Definition strip (s : string) : string := lstrip isspace (rstrip isspace s).

(** [s.split()]: the maximal runs of characters that are not whitespace.
    [word] is the run being read. *)
Fixpoint split_ws_from (word : string) (s : string) : list string :=
  match s with
  | EmptyString => if truthy word then [word] else []
  | String c s' =>
      if isspace c
      then (if truthy word then word :: split_ws_from "" s' else split_ws_from "" s')
      else split_ws_from (word ++ str1 c) s'
  end.

Definition split_ws (s : string) : list string := split_ws_from "" s.

(** [s.split(sep)] for a one-character separator: never the empty list. *)
Fixpoint split_on_from (sep : ascii) (word : string) (s : string) : list string :=
  match s with
  | EmptyString => [word]
  | String c s' =>
      if Ascii.eqb c sep then word :: split_on_from sep "" s'
      else split_on_from sep (word ++ str1 c) s'
  end.

Definition split_on (sep : ascii) (s : string) : list string :=
  split_on_from sep "" s.

(** [s.replace(old, new)] for a non-empty [old]: the occurrences are found
    from the left and do not overlap.  [skip] counts the characters of the
    occurrence just replaced that are still to be dropped. *)
Fixpoint replace_from (old new : string) (skip : nat) (s : string) : string :=
  match s with
  | EmptyString => EmptyString
  | String c s' =>
      match skip with
      | S k => replace_from old new k s'
      | O =>
          if prefix old s
          then new ++ replace_from old new (String.length old - 1) s'
          else String c (replace_from old new 0 s')
      end
  end.

(** With an empty [old], Python puts [new] before every character and at
    the end. *)
Fixpoint intersperse (new : string) (s : string) : string :=
  match s with
  | EmptyString => new
  | String c s' => new ++ String c (intersperse new s')
  end.

Definition replace (old new : string) (s : string) : string :=
  match old with
  | EmptyString => intersperse new s
  | String _ _ => replace_from old new 0 s
  end.

(** [old in s] *)
Fixpoint occurs (old s : string) : bool :=
  prefix old s
  || match s with
     | EmptyString => false
     | String _ s' => occurs old s'
     end.

(** [sep.join(l)] *)
Definition join (sep : string) (l : list string) : string := String.concat sep l.

(** [x in l] for a list or set of strings. *)
Definition mem (x : string) (l : list string) : bool :=
  existsb (String.eqb x) l.

(** [str(n)] and [f"{n}"] for an [int]. *)
Definition str_of_Z (n : Z) : string := NilEmpty.string_of_int (Z.to_int n).

(** Number of occurrences of a character. *)
Fixpoint count (a : ascii) (s : string) : nat :=
  match s with
  | EmptyString => O
  | String c s' => (if Ascii.eqb c a then 1 else 0) + count a s'
  end.

Definition hex_digit (upper : bool) (n : nat) : ascii :=
  if Nat.ltb n 10 then chr (48 + n)
  else chr ((if upper then 55 else 87) + n).

(** Two hexadecimal digits of a byte. *)
Definition hex2 (upper : bool) (n : nat) : string :=
  String (hex_digit upper (Nat.div n 16)) (str1 (hex_digit upper (Nat.modulo n 16))).

Definition contains_char (a : ascii) (s : string) : bool :=
  negb (Nat.eqb (count a s) 0).

(** [str.isprintable] on one character of the Latin-1 range. *)
Definition isprintable (c : ascii) : bool :=
  let n := ord c in
  between 32 126 n || (between 161 255 n && negb (Nat.eqb n 173)).

Definition repr_char (q : ascii) (c : ascii) : string :=
  if Ascii.eqb c BACKSLASH then String BACKSLASH (str1 BACKSLASH)
  else if Ascii.eqb c q then String BACKSLASH (str1 q)
  else if Ascii.eqb c TAB then String BACKSLASH "t"
  else if Ascii.eqb c LF then String BACKSLASH "n"
  else if Ascii.eqb c CR then String BACKSLASH "r"
  else if isprintable c then str1 c
  else String BACKSLASH ("x" ++ hex2 false (ord c)).

Fixpoint repr_body (q : ascii) (s : string) : string :=
  match s with
  | EmptyString => EmptyString
  | String c s' => repr_char q c ++ repr_body q s'
  end.

(** [repr(s)] *)
Definition repr (s : string) : string :=
  let q := if contains_char SQUOTE s && negb (contains_char DQUOTE s)
           then DQUOTE else SQUOTE in
  str1 q ++ repr_body q s ++ str1 q.

End PyStr.

Import PyStr.

(* ================================================================== *)
(** * Exceptions, results and the request monad *)
(* ================================================================== *)

(** A raised exception: its class name and [str(e)]. *)
Record exn : Type := Exception { exn_class : string; exn_str : string }.

Inductive result (A : Type) : Type :=
| Ok (a : A)
| Raise (e : exn).
Arguments Ok {A} a.
Arguments Raise {A} e.

Definition rbind {A B} (m : result A) (k : A -> result B) : result B :=
  match m with
  | Ok a => k a
  | Raise e => Raise e
  end.

(** [try: body  except Exception as e: handler e] around pure code. *)
Definition try_except {A} (body : result A) (handler : exn -> A) : A :=
  match body with
  | Ok a => a
  | Raise e => handler e
  end.

(** The URLs requested so far, oldest first. *)
Definition trace := list string.

(** Code that awaits the HTTP client: it may raise, and it extends the
    trace of requests. *)
Definition IO (A : Type) : Type := trace -> result A * trace.

Definition ret {A} (a : A) : IO A := fun t => (Ok a, t).
Definition raise {A} (e : exn) : IO A := fun t => (Raise e, t).
Definition lift {A} (r : result A) : IO A := fun t => (r, t).

Definition bind {A B} (m : IO A) (k : A -> IO B) : IO B :=
  fun t =>
    match m t with
    | (Ok a, t') => k a t'
    | (Raise e, t') => (Raise e, t')
    end.

(** [try: body  except Exception as e: handler e] around awaiting code. *)
Definition try_catch {A} (body : IO A) (handler : exn -> IO A) : IO A :=
  fun t =>
    match body t with
    | (Ok a, t') => (Ok a, t')
    | (Raise e, t') => handler e t'
    end.

Declare Scope io_scope.
Delimit Scope io_scope with io.
Notation "x <- m ;; k" := (bind m (fun x => k))
  (at level 61, m at next level, right associativity) : io_scope.
Notation "m ;;; k" := (bind m (fun _ => k))
  (at level 61, right associativity) : io_scope.

Declare Scope result_scope.
Delimit Scope result_scope with res.
Notation "x <- m ;; k" := (rbind m (fun x => k))
  (at level 61, m at next level, right associativity) : result_scope.

(** The value and the trace of a run that started with no request made. *)
Definition run {A} (m : IO A) : result A * trace := m [].

(* ================================================================== *)
(** * models.py *)
(* ================================================================== *)

(** [Paper].  [arxiv_url] is annotated [str], but the entry parser stores
    [None] there when the entry's [id] element has no text
    (api.py, line 108), hence the [option]. *)
Record Paper : Type := mkPaper {
  id : string;
  title : string;
  authors : list string;
  abstract : string;
  published : string;
  categories : list string;
  arxiv_url : option string;
  pdf_url : string
}.

Record SearchResult : Type := mkSearchResult {
  query : string;
  total_results : Z;
  papers : list Paper;
  error : option string
}.

Record CitationInfo : Type := mkCitationInfo {
  arxiv_id : string;
  ci_title : string;
  estimated_citations : Z;
  citations_per_year : float;
  h_index_contribution : Z;
  note : string
}.

Record ExportConfig : Type := mkExportConfig {
  format : string;
  include_abstract : bool;
  include_categories : bool;
  include_urls : bool
}.

(* ================================================================== *)
(** * xml.etree.ElementTree, as far as api.py uses it *)
(* ================================================================== *)

Module ET.

(** An element: its tag in Clark notation ([{namespace}local]), its
    attributes, its text ([None] when the element has none) and its
    children in document order. *)
#[local] Unset Elimination Schemes.
Inductive Element : Type :=
| mkElement (tag : string) (attrib : list (string * string))
            (text : option string) (children : list Element).
#[local] Set Elimination Schemes.

Definition tag (e : Element) : string :=
  match e with mkElement t _ _ _ => t end.
Definition attrib (e : Element) : list (string * string) :=
  match e with mkElement _ a _ _ => a end.
Definition text (e : Element) : option string :=
  match e with mkElement _ _ x _ => x end.
Definition children (e : Element) : list Element :=
  match e with mkElement _ _ _ c => c end.

Fixpoint lookup (key : string) (a : list (string * string)) : option string :=
  match a with
  | [] => None
  | (k, v) :: a' => if String.eqb k key then Some v else lookup key a'
  end.

(** [e.get(key)] *)
Definition get (e : Element) (key : string) : option string :=
  lookup key (attrib e).

Definition has_tag (t : string) (e : Element) : bool := String.eqb (tag e) t.

(** [e.find(t)]: the first child with that tag. *)
Definition find (t : string) (e : Element) : option Element :=
  List.find (has_tag t) (children e).

(** [e.findall(t)]: the children with that tag. *)
Definition findall (t : string) (e : Element) : list Element :=
  filter (has_tag t) (children e).

(** [e.iter()]: the element and its descendants, in document order. *)
Fixpoint iter (e : Element) : list Element :=
  match e with
  | mkElement _ _ _ cs =>
      e :: (fix iter_all (l : list Element) : list Element :=
              match l with
              | [] => []
              | c :: l' => (iter c ++ iter_all l')%list
              end) cs
  end.

(** [e.findall('.//' + t)]: the proper descendants with that tag. *)
Definition findall_descendants (t : string) (e : Element) : list Element :=
  filter (has_tag t) (flat_map iter (children e)).

End ET.

(* ================================================================== *)
(** * api.py *)
(* ================================================================== *)

Record Response : Type := mkResponse {
  status_code : Z;
  content : string
}.

Definition base_url : string := "https://export.arxiv.org/api/query".

(** ** urllib.parse.quote_plus

    Every string of the model can be encoded as UTF-8, so that
    [quote_plus] returns on all of them.  The strings on which the library
    raises [UnicodeEncodeError], those that hold a lone surrogate, are
    outside the model: on them [search] raises inside its [try], before
    any request, and returns the error. *)

Definition always_safe (c : ascii) : bool :=
  let n := ord c in
  between 65 90 n || between 97 122 n || between 48 57 n
  || Nat.eqb n 95 || Nat.eqb n 46 || Nat.eqb n 45 || Nat.eqb n 126.

(** The UTF-8 encoding of a code point below 256. *)
Definition utf8_bytes (c : ascii) : list nat :=
  let n := ord c in
  if Nat.ltb n 128 then [n]
  else [(192 + Nat.div n 64)%nat; (128 + Nat.modulo n 64)%nat].

Definition percent (b : nat) : string := "%" ++ hex2 true b.

Definition quote_plus_char (c : ascii) : string :=
  if always_safe c then str1 c
  else if Ascii.eqb c " " then "+"
  else String.concat "" (map percent (utf8_bytes c)).

Fixpoint quote_plus (s : string) : string :=
  match s with
  | EmptyString => EmptyString
  | String c s' => quote_plus_char c ++ quote_plus s'
  end.

(** ** _parse_paper_entry *)

Definition atom (local : string) : string :=
  "{http://www.w3.org/2005/Atom}" ++ local.

Definition no_attribute_strip : exn :=
  Exception "AttributeError" "'NoneType' object has no attribute 'strip'".
Definition not_subscriptable : exn :=
  Exception "TypeError" "'NoneType' object is not subscriptable".

(** [elem.text.strip()], which raises when [elem.text] is [None]. *)
Definition text_strip (elem : ET.Element) : result string :=
  match ET.text elem with
  | Some s => Ok (strip s)
  | None => Raise no_attribute_strip
  end.

(** [elem.text.strip().replace('\n', ' ') if elem is not None else default] *)
Definition one_line_or (default : string) (elem : option ET.Element)
  : result string :=
  match elem with
  | Some e => rbind (text_strip e) (fun s => Ok (replace nl " " s))
  | None => Ok default
  end.

(** The loop over the [author] elements (lines 96-100). *)
Fixpoint author_names (l : list ET.Element) : result (list string) :=
  match l with
  | [] => Ok []
  | author :: l' =>
      match ET.find (atom "name") author with
      | Some name_elem =>
          rbind (text_strip name_elem) (fun n =>
          rbind (author_names l') (fun ns => Ok (n :: ns)))
      | None => author_names l'
      end
  end.

(** The loop over the [category] elements (lines 116-120). *)
Fixpoint category_terms (l : list ET.Element) : list string :=
  match l with
  | [] => []
  | category :: l' =>
      match ET.get category "term" with
      | Some term => if truthy term then term :: category_terms l'
                     else category_terms l'
      | None => category_terms l'
      end
  end.

(** The loop over the [link] elements (lines 123-127). *)
Fixpoint pdf_link (l : list ET.Element) : string :=
  match l with
  | [] => ""
  | link :: l' =>
      match ET.get link "type" with
      | Some ty =>
          if String.eqb ty "application/pdf"
          then match ET.get link "href" with Some h => h | None => "" end
          else pdf_link l'
      | None => pdf_link l'
      end
  end.

(** The body of the [try] of [_parse_paper_entry].  The dictionary it
    returns always holds the eight keys that [Paper.from_dict] reads, so
    the model builds the [Paper] at once. *)
Definition parse_entry_body (entry : ET.Element) : result Paper :=
  (title <- one_line_or "Unknown Title" (ET.find (atom "title") entry) ;;
   authors <- author_names (ET.findall (atom "author") entry) ;;
   abstract <- one_line_or "" (ET.find (atom "summary") entry) ;;
   let arxiv_url :=
     match ET.find (atom "id") entry with
     | Some id_elem => ET.text id_elem
     | None => Some ""
     end in
   let arxiv_id :=
     match arxiv_url with
     | Some u => if truthy u then last (split_on "/" u) "" else ""
     | None => ""
     end in
   published <-
     match ET.find (atom "published") entry with
     | Some published_elem =>
         match ET.text published_elem with
         | Some s => Ok (take 10 s)
         | None => Raise not_subscriptable
         end
     | None => Ok ""
     end ;;
   let categories := category_terms (ET.findall (atom "category") entry) in
   let pdf_url := pdf_link (ET.findall (atom "link") entry) in
   Ok {| id := arxiv_id; title := title; authors := authors;
         abstract := abstract; published := published;
         categories := categories; arxiv_url := arxiv_url;
         pdf_url := pdf_url |})%res.

Definition _parse_paper_entry (entry : ET.Element) : option Paper :=
  try_except (rbind (parse_entry_body entry) (fun d => Ok (Some d)))
             (fun _ => None).

(** The loop of [_parse_response] (lines 75-78). *)
Definition collect_papers (entries : list ET.Element) : list Paper :=
  fold_left
    (fun papers entry =>
       match _parse_paper_entry entry with
       | Some paper_data => (papers ++ [paper_data])%list
       | None => papers
       end)
    entries [].

Section Api.

(** [ET.fromstring]: the XML parser of the standard library. *)
Variable fromstring : string -> result ET.Element.

(** What [await self.http_client.get(url)] gives for each URL: a response,
    or the exception of a transport failure such as a timeout. *)
Variable http : string -> result Response.

(** The message of the error that [raise_for_status] raises. *)
Variable status_error_text : Response -> string.

Definition http_client_get (url : string) : IO Response :=
  fun t => (http url, (t ++ [url])%list).

(** [response.raise_for_status()]: raises unless the status is 2xx. *)
Definition raise_for_status (r : Response) : result unit :=
  if (200 <=? status_code r) && (status_code r <? 300) then Ok tt
  else Raise (Exception "HTTPStatusError" (status_error_text r)).

Definition _parse_response (content : string) : list Paper :=
  try_except
    (rbind (fromstring content) (fun root =>
       Ok (collect_papers
             (ET.findall_descendants (atom "entry") root))))
    (fun _ => []).

Definition search_url (query : string) (max_results : Z) (sort_by : string)
  : string :=
  let encoded_query := quote_plus query in
  let sort_order :=
    if negb (String.eqb sort_by "relevance") then "descending"
    else "ascending" in
  base_url ++ "?search_query=" ++ encoded_query ++ "&start=0&max_results="
    ++ str_of_Z max_results ++ "&sortBy=" ++ sort_by
    ++ "&sortOrder=" ++ sort_order.

(** The body of the [try] of [search] (lines 28-42). *)
Definition search_attempt (query : string) (max_results : Z) (sort_by : string)
  : IO SearchResult :=
  (let url := search_url query max_results sort_by in
   response <- http_client_get url ;;
   lift (raise_for_status response) ;;;
   let papers := _parse_response (content response) in
   ret {| query := query;
          total_results := Z.of_nat (List.length papers);
          papers := papers;
          error := None |})%io.

(** What the [except] clause of [search] returns (lines 46-51). *)
Definition search_failed (query : string) (e : exn) : SearchResult :=
  {| query := query;
     total_results := 0;
     papers := [];
     error := Some (exn_str e) |}.

Definition search (query : string) (max_results : Z) (sort_by : string)
  : IO SearchResult :=
  try_catch (search_attempt query max_results sort_by)
            (fun e => ret (search_failed query e)).

(** What the body of [search] makes of the outcome of its one request. *)
Definition search_outcome (query : string) (outcome : result Response)
  : result SearchResult :=
  match outcome with
  | Raise e => Raise e
  | Ok response =>
      match raise_for_status response with
      | Raise e => Raise e
      | Ok _ =>
          Ok {| query := query;
                total_results :=
                  Z.of_nat (List.length (_parse_response (content response)));
                papers := _parse_response (content response);
                error := None |}
      end
  end.

(** The id sent by [get_paper] (line 56). *)
Definition clean_id (arxiv_id : string) : string :=
  replace "v3" "" (replace "v2" "" (replace "v1" "" (replace "arXiv:" "" arxiv_id))).

Definition get_paper (arxiv_id : string) : IO (option Paper) :=
  try_catch
    (let clean_id := clean_id arxiv_id in
     let url := base_url ++ "?id_list=" ++ clean_id in
     response <- http_client_get url ;;
     lift (raise_for_status response) ;;;
     let papers := _parse_response (content response) in
     ret (match papers with
          | p :: _ => Some p
          | [] => None
          end))%io
    (fun e => ret None).

End Api.

(* ================================================================== *)
(** * Python values used by analyzers.py *)
(* ================================================================== *)

(** A [dict] with string keys, in insertion order. *)
Definition dict (V : Type) : Type := list (string * V).

Fixpoint dict_lookup {V} (key : string) (d : dict V) : option V :=
  match d with
  | [] => None
  | (k, v) :: d' => if String.eqb k key then Some v else dict_lookup key d'
  end.

(** [d.get(key, default)] *)
Definition dict_get {V} (d : dict V) (key : string) (default : V) : V :=
  match dict_lookup key d with
  | Some v => v
  | None => default
  end.

(** [d[key] = v]: an existing key keeps its place, a new one goes last. *)
Fixpoint dict_set {V} (key : string) (v : V) (d : dict V) : dict V :=
  match d with
  | [] => [(key, v)]
  | (k, w) :: d' =>
      if String.eqb k key then (k, v) :: d'
      else (k, w) :: dict_set key v d'
  end.

(** [d.pop(key, None)] *)
Fixpoint dict_pop {V} (key : string) (d : dict V) : dict V :=
  match d with
  | [] => []
  | (k, w) :: d' =>
      if String.eqb k key then d' else (k, w) :: dict_pop key d'
  end.

(** [dict(items)] *)
Definition dict_of_items {V} (items : list (string * V)) : dict V :=
  fold_left (fun d kv => dict_set (fst kv) (snd kv) d) items [].

Definition keys {V} (d : dict V) : list string := map fst d.

(** [a < b] on strings: by code points, a proper prefix first. *)
Definition str_ltb (a b : string) : bool :=
  match String.compare a b with Lt => true | _ => false end.

(** [a < b] on the tuples [(key, count)]. *)
Definition item_ltb (a b : string * Z) : bool :=
  match String.compare (fst a) (fst b) with
  | Lt => true
  | Eq => snd a <? snd b
  | Gt => false
  end.

(** [sorted(items)]: a stable sort that only uses [<]. *)
Fixpoint insert_item (x : string * Z) (l : list (string * Z))
  : list (string * Z) :=
  match l with
  | [] => [x]
  | y :: l' => if item_ltb y x then y :: insert_item x l' else x :: l
  end.

Definition sorted_items (l : list (string * Z)) : list (string * Z) :=
  fold_right insert_item [] l.

(** [l[:n]] for any integer [n]: a negative [n] counts from the end. *)
Definition slice_to {A} (n : Z) (l : list A) : list A :=
  if 0 <=? n then firstn (Z.to_nat n) l
  else firstn (List.length l - Z.to_nat (- n)) l.

(** ** int() and the float operations of estimate_citations *)

Definition digit_val (c : ascii) : Z := Z.of_nat (ord c) - 48.

(** The digits of an integer literal, where single underscores may stand
    between digits.  [after_digit] tells whether the last character read
    was a digit. *)
Fixpoint int_digits (acc : Z) (after_digit : bool) (s : string) : option Z :=
  match s with
  | EmptyString => if after_digit then Some acc else None
  | String c s' =>
      if isdigit c then int_digits (10 * acc + digit_val c) true s'
      else if Ascii.eqb c "_" && after_digit then int_digits acc false s'
      else None
  end.

(** The blanks that [int] skips at both ends of its argument: the ASCII
    ones of C ([TAB]..[CR] and the space) and the blanks above 127. *)
Definition int_blank (c : ascii) : bool :=
  let n := ord c in
  between 9 13 n || Nat.eqb n 32 || Nat.eqb n 133 || Nat.eqb n 160.

(** [int(s)] in base 10. *)
Definition py_int (s : string) : result Z :=
  let t := lstrip int_blank (rstrip int_blank s) in
  let parsed :=
    match t with
    | String "-" r => option_map Z.opp (int_digits 0 false r)
    | String "+" r => int_digits 0 false r
    | _ => int_digits 0 false t
    end in
  match parsed with
  | Some n => Ok n
  | None =>
      Raise (Exception "ValueError"
               ("invalid literal for int() with base 10: " ++ repr s))
  end.

(** [float(n)] for [0 <= n < 2^63]; exact below [2^53]. *)
Definition float_of_Z (n : Z) : float := PrimFloat.of_uint63 (Uint63.of_Z n).

(** [a / b] on integers that are exact as floats. *)
Definition py_truediv (a b : Z) : float :=
  PrimFloat.div (float_of_Z a) (float_of_Z b).

(** [int(x)]: truncation towards zero; raises on infinities and NaN. *)
Definition int_of_float (x : float) : result Z :=
  match Prim2SF x with
  | S754_zero _ => Ok 0
  | S754_finite s m e =>
      let a := match e with
               | Z.neg p => Z.pos m / 2 ^ Z.pos p
               | _ => Z.pos m * 2 ^ e
               end in
      Ok (if s then - a else a)
  | S754_infinity _ =>
      Raise (Exception "OverflowError" "cannot convert float infinity to integer")
  | S754_nan =>
      Raise (Exception "ValueError" "cannot convert float NaN to integer")
  end.

(** The integer nearest to [num / den], ties to even. *)
Definition round_half_even (num den : Z) : Z :=
  let q := num / den in
  let r := num mod den in
  match 2 * r ?= den with
  | Lt => q
  | Gt => q + 1
  | Eq => if Z.even q then q else q + 1
  end.

(** [round(x, 1)]: the exact value of [x] is rounded to one decimal, ties
    to even, and the float nearest to that decimal is returned.  Exact
    while [10 * |x| < 2^53]. *)
Definition py_round1 (x : float) : float :=
  match Prim2SF x with
  | S754_finite s m e =>
      let n := match e with
               | Z.neg p => round_half_even (10 * Z.pos m) (2 ^ Z.pos p)
               | _ => 10 * Z.pos m * 2 ^ e
               end in
      let r := PrimFloat.div (float_of_Z n) (float_of_Z 10) in
      if s then PrimFloat.opp r else r
  | _ => x
  end.

(* ================================================================== *)
(** * analyzers.py *)
(* ================================================================== *)

(** ** TrendAnalyzer._analyze_publication_count *)

(** One turn of the loop (lines 90-93). *)
Definition count_month (monthly_counts : dict Z) (paper : Paper) : dict Z :=
  if truthy (published paper) then
    let month_key := take 7 (published paper) in
    dict_set month_key (dict_get monthly_counts month_key 0 + 1) monthly_counts
  else monthly_counts.

Definition monthly_counts_of (papers : list Paper) : dict Z :=
  fold_left count_month papers [].

Definition _analyze_publication_count (papers : list Paper) : dict (dict Z) :=
  [("monthly_counts", dict_of_items (sorted_items (monthly_counts_of papers)))].

(** ** CitationAnalyzer.estimate_citations *)

Definition popular_categories : list string :=
  ["cs.AI"; "cs.LG"; "cs.CV"; "cs.CL"].

Definition simulated_note : string :=
  "Citation data is estimated/simulated as arXiv doesn't track citations directly".

Section Citations.

(** The state of the [random] module and [random.randint(a, b)]. *)
Variable rng : Type.
Variable randint : Z -> Z -> rng -> Z * rng.

(** What the [except] clause returns (lines 179-186). *)
Definition estimate_failed (paper : Paper) (e : exn) : CitationInfo :=
  {| arxiv_id := id paper;
     ci_title := title paper;
     estimated_citations := 0;
     citations_per_year := 0%float;
     h_index_contribution := 0;
     note := "Error estimating citations: " ++ exn_str e |}.

(** [current_year] is [datetime.now().year]. *)
Definition estimate_citations (current_year : Z) (paper : Paper) (g : rng)
  : CitationInfo * rng :=
  if negb (truthy (published paper)) then
    ({| arxiv_id := id paper;
        ci_title := title paper;
        estimated_citations := 0;
        citations_per_year := 0%float;
        h_index_contribution := 0;
        note := "Could not determine publication date" |}, g)
  else
    match py_int (take 4 (published paper)) with
    | Raise e => (estimate_failed paper e, g)
    | Ok pub_year =>
        let age_years := Z.max 1 (current_year - pub_year) in
        let '(u1, g1) := randint 5 25 g in
        let '(u2, g2) := randint 0 20 g1 in
        let base_citations := Z.max 0 (age_years * u1 - u2) in
        let adjusted :=
          if existsb (fun cat => mem cat popular_categories) (categories paper)
          then int_of_float (PrimFloat.mul (float_of_Z base_citations) 1.5%float)
          else Ok base_citations in
        match adjusted with
        | Raise e => (estimate_failed paper e, g2)
        | Ok base_citations =>
            let citations_per_year := py_round1 (py_truediv base_citations age_years) in
            let h_index_contribution := Z.min base_citations 10 in
            ({| arxiv_id := id paper;
                ci_title := title paper;
                estimated_citations := base_citations;
                citations_per_year := citations_per_year;
                h_index_contribution := h_index_contribution;
                note := simulated_note |}, g2)
        end
    end.

End Citations.

(** ** RelatedPaperFinder.find_related_papers *)

Definition stop_words : list string :=
  ["the"; "a"; "an"; "and"; "or"; "but"; "in"; "on"; "at";
   "to"; "for"; "of"; "with"; "by"; "via"; "using"].

(** The [cat:] clauses (lines 210-211). *)
Definition category_clauses (paper : Paper) : list string :=
  map (fun cat => "cat:" ++ cat) (firstn 2 (categories paper)).

(** [key_words] (lines 218-221). *)
Definition key_words (paper : Paper) : list string :=
  let title_words := split_ws (lower (title paper)) in
  firstn 3
    (filter (fun word => Nat.ltb 3 (String.length word)
                         && negb (mem word stop_words))
            title_words).

(** [search_terms] once both loops have run (lines 207-224). *)
Definition search_terms (paper : Paper) : list string :=
  (category_clauses paper
   ++ map (fun word => (str1 DQUOTE ++ word ++ str1 DQUOTE)%string)
          (key_words paper))%list.

(** [query] (lines 227-229). *)
Definition related_query (paper : Paper) : string :=
  match search_terms paper with
  | _ :: _ => join " OR " (search_terms paper)
  | [] => match categories paper with
          | c :: _ => c
          | [] => "cs.AI"
          end
  end.

Section Related.

Variable fromstring : string -> result ET.Element.
Variable http : string -> result Response.
Variable status_error_text : Response -> string.

Definition find_related_papers (paper : Paper) (max_results : Z)
  : IO (list Paper) :=
  try_catch
    (results <- search fromstring http status_error_text
                  (related_query paper) (max_results + 5) "relevance" ;;
     let related_papers :=
       slice_to max_results
         (filter (fun p => negb (String.eqb (id p) (id paper)))
                 (papers results)) in
     ret related_papers)%io
    (fun e => ret []).

End Related.

(* ================================================================== *)
(** * The json module, as far as exporters.py and its readers use it *)
(* ================================================================== *)

#[local] Unset Elimination Schemes.
Inductive json : Type :=
| JNull
| JBool (b : bool)
| JInt (n : Z)
| JStr (s : string)
| JArr (items : list json)
| JObj (members : list (string * json)).
#[local] Set Elimination Schemes.

Module Json.

(** ** json.dumps(value, indent=2), with the default [ensure_ascii] *)

Definition escape_char (c : ascii) : string :=
  if Ascii.eqb c DQUOTE then String BACKSLASH (str1 DQUOTE)
  else if Ascii.eqb c BACKSLASH then String BACKSLASH (str1 BACKSLASH)
  else if Ascii.eqb c LF then String BACKSLASH "n"
  else if Ascii.eqb c CR then String BACKSLASH "r"
  else if Ascii.eqb c TAB then String BACKSLASH "t"
  else if Ascii.eqb c (chr 8) then String BACKSLASH "b"
  else if Ascii.eqb c (chr 12) then String BACKSLASH "f"
  else if between 32 126 (ord c) then str1 c
  else String BACKSLASH ("u00" ++ hex2 false (ord c)).

Fixpoint escape (s : string) : string :=
  match s with
  | EmptyString => EmptyString
  | String c s' => escape_char c ++ escape s'
  end.

Definition encode_string (s : string) : string :=
  String DQUOTE (escape s ++ str1 DQUOTE).

Fixpoint spaces (n : nat) : string :=
  match n with
  | O => EmptyString
  | S n' => String " " (spaces n')
  end.

(** A line feed and the indentation of nesting level [level]. *)
Definition newline_indent (level : nat) : string :=
  String LF (spaces (2 * level)).

(** The items of a list after the first, each behind its separator, and
    the closing bracket. *)
Definition more_items (dump_item : json -> string) (level : nat)
  : list json -> string :=
  fix more (l : list json) : string :=
    match l with
    | [] => newline_indent level ++ "]"
    | y :: l' => "," ++ newline_indent (S level) ++ dump_item y ++ more l'
    end.

(** The same for the members of a dictionary. *)
Definition more_members (dump_item : json -> string) (level : nat)
  : list (string * json) -> string :=
  fix more (l : list (string * json)) : string :=
    match l with
    | [] => newline_indent level ++ "}"
    | (k, y) :: l' =>
        "," ++ newline_indent (S level) ++ encode_string k ++ ": "
        ++ dump_item y ++ more l'
    end.

Fixpoint dump (level : nat) (v : json) : string :=
  match v with
  | JNull => "null"
  | JBool true => "true"
  | JBool false => "false"
  | JInt n => str_of_Z n
  | JStr s => encode_string s
  | JArr [] => "[]"
  | JArr (x :: xs) =>
      "[" ++ newline_indent (S level) ++ dump (S level) x
      ++ more_items (dump (S level)) level xs
  | JObj [] => "{}"
  | JObj ((k, x) :: kvs) =>
      "{" ++ newline_indent (S level) ++ encode_string k ++ ": "
      ++ dump (S level) x
      ++ more_members (dump (S level)) level kvs
  end.

Definition dumps (v : json) : string := dump 0 v.

(** ** json.loads

    [None] stands for a [JSONDecodeError] and for the documents that hold
    what this model has no value for: floats, and escapes of code points
    from 256 on. *)

Definition is_ws (c : ascii) : bool :=
  Ascii.eqb c " " || Ascii.eqb c TAB || Ascii.eqb c LF || Ascii.eqb c CR.

Fixpoint skip_ws (s : string) : string :=
  match s with
  | EmptyString => EmptyString
  | String c r => if is_ws c then skip_ws r else s
  end.

Definition hex_val (c : ascii) : option nat :=
  let n := ord c in
  if between 48 57 n then Some (n - 48)%nat
  else if between 97 102 n then Some (n - 87)%nat
  else if between 65 70 n then Some (n - 55)%nat
  else None.

Definition hex4 (a b c d : ascii) : option nat :=
  match hex_val a, hex_val b, hex_val c, hex_val d with
  | Some x, Some y, Some z, Some w =>
      Some (((x * 16 + y) * 16 + z) * 16 + w)%nat
  | _, _, _, _ => None
  end.

(** The character that stands after a backslash, but for [u]. *)
Definition unescape (e : ascii) : option ascii :=
  if Ascii.eqb e DQUOTE then Some DQUOTE
  else if Ascii.eqb e BACKSLASH then Some BACKSLASH
  else if Ascii.eqb e "/" then Some "/"%char
  else if Ascii.eqb e "b" then Some (chr 8)
  else if Ascii.eqb e "f" then Some (chr 12)
  else if Ascii.eqb e "n" then Some LF
  else if Ascii.eqb e "r" then Some CR
  else if Ascii.eqb e "t" then Some TAB
  else None.

Definition prepend (c : ascii) (r : option (string * string))
  : option (string * string) :=
  match r with
  | Some (t, rest) => Some (String c t, rest)
  | None => None
  end.

(** The string that ends at the next unescaped quote, and what follows. *)
Fixpoint scanstring (s : string) : option (string * string) :=
  match s with
  | EmptyString => None
  | String c r =>
      if Ascii.eqb c DQUOTE then Some (EmptyString, r)
      else if Ascii.eqb c BACKSLASH then
        match r with
        | EmptyString => None
        | String e r1 =>
            if Ascii.eqb e "u" then
              match r1 with
              | String h1 (String h2 (String h3 (String h4 r2))) =>
                  match hex4 h1 h2 h3 h4 with
                  | Some n =>
                      if Nat.ltb n 256 then prepend (chr n) (scanstring r2)
                      else None
                  | None => None
                  end
              | _ => None
              end
            else
              match unescape e with
              | Some ch => prepend ch (scanstring r1)
              | None => None
              end
        end
      else if Nat.ltb (ord c) 32 then None
      else prepend c (scanstring r)
  end.

Fixpoint drop (n : nat) (s : string) : string :=
  match n, s with
  | S n', String _ s' => drop n' s'
  | _, _ => s
  end.

(** The digits at the head of [s], read into [acc], and what follows. *)
Fixpoint scan_digits (acc : Z) (s : string) : Z * string :=
  match s with
  | String c r =>
      if isdigit c then scan_digits (10 * acc + digit_val c) r else (acc, s)
  | EmptyString => (acc, s)
  end.

(** An integer literal; a fraction or an exponent makes a float. *)
Definition scan_int (s : string) : option (Z * string) :=
  let (negative, body) :=
    match s with
    | String "-" r => (true, r)
    | _ => (false, s)
    end in
  match body with
  | EmptyString => None
  | String c r =>
      if isdigit c then
        let (n, rest) :=
          if Ascii.eqb c "0" then (0, r) else scan_digits 0 body in
        match rest with
        | String d _ =>
            if Ascii.eqb d "." || Ascii.eqb d "e" || Ascii.eqb d "E" then None
            else Some (if negative then - n else n, rest)
        | EmptyString => Some (if negative then - n else n, rest)
        end
      else None
  end.

Fixpoint parse_value (fuel : nat) (s : string) {struct fuel}
  : option (json * string) :=
  match fuel with
  | O => None
  | S f =>
      match s with
      | EmptyString => None
      | String c r =>
          if Ascii.eqb c DQUOTE then
            match scanstring r with
            | Some (t, r') => Some (JStr t, r')
            | None => None
            end
          else if Ascii.eqb c "[" then
            match skip_ws r with
            | EmptyString => None
            | String c' r' =>
                if Ascii.eqb c' "]" then Some (JArr [], r')
                else parse_elements f [] (String c' r')
            end
          else if Ascii.eqb c "{" then
            match skip_ws r with
            | EmptyString => None
            | String c' r' =>
                if Ascii.eqb c' "}" then Some (JObj [], r')
                else parse_members f [] (String c' r')
            end
          else if prefix "null" s then Some (JNull, drop 4 s)
          else if prefix "true" s then Some (JBool true, drop 4 s)
          else if prefix "false" s then Some (JBool false, drop 5 s)
          else
            match scan_int s with
            | Some (n, r') => Some (JInt n, r')
            | None => None
            end
      end
  end

with parse_elements (fuel : nat) (acc : list json) (s : string) {struct fuel}
  : option (json * string) :=
  match fuel with
  | O => None
  | S f =>
      match parse_value f s with
      | None => None
      | Some (v, r) =>
          match skip_ws r with
          | EmptyString => None
          | String c r' =>
              if Ascii.eqb c "," then
                parse_elements f (acc ++ [v])%list (skip_ws r')
              else if Ascii.eqb c "]" then Some (JArr (acc ++ [v])%list, r')
              else None
          end
      end
  end

with parse_members (fuel : nat) (acc : dict json) (s : string) {struct fuel}
  : option (json * string) :=
  match fuel with
  | O => None
  | S f =>
      match s with
      | EmptyString => None
      | String q r =>
          if Ascii.eqb q DQUOTE then
            match scanstring r with
            | None => None
            | Some (key, r1) =>
                match skip_ws r1 with
                | EmptyString => None
                | String c1 r2 =>
                    if Ascii.eqb c1 ":" then
                      match parse_value f (skip_ws r2) with
                      | None => None
                      | Some (v, r3) =>
                          match skip_ws r3 with
                          | EmptyString => None
                          | String c2 r4 =>
                              if Ascii.eqb c2 "," then
                                parse_members f (dict_set key v acc) (skip_ws r4)
                              else if Ascii.eqb c2 "}" then
                                Some (JObj (dict_set key v acc), r4)
                              else None
                          end
                      end
                    else None
                end
            end
          else None
      end
  end.

Definition loads (s : string) : option json :=
  match parse_value (S (String.length s)) (skip_ws s) with
  | Some (v, r) =>
      match skip_ws r with
      | EmptyString => Some v
      | String _ _ => None
      end
  | None => None
  end.

End Json.

(* ================================================================== *)
(** * exporters.py *)
(* ================================================================== *)

(** ** _export_bibtex *)

(** The entry built by one turn of the loop (lines 35-57). *)
Definition bibtex_entry (config : ExportConfig) (paper : Paper) : string :=
  let arxiv_id := replace "/" "_" (replace "." "_" (id paper)) in
  let title := replace "}" "\}" (replace "{" "\{" (title paper)) in
  let authors := join " and " (authors paper) in
  let year := if truthy (published paper) then take 4 (published paper)
              else "" in
  let entry :=
    "@article{" ++ arxiv_id ++ "," ++ nl
    ++ "  title={" ++ title ++ "}," ++ nl
    ++ "  author={" ++ authors ++ "}," ++ nl
    ++ "  journal={arXiv preprint arXiv:" ++ id paper ++ "}," ++ nl
    ++ "  year={" ++ year ++ "}" in
  let entry :=
    if include_urls config
    then entry ++ "," ++ nl ++ "  url={https://export.arxiv.org/abs/"
         ++ id paper ++ "}"
    else entry in
  let entry :=
    if include_abstract config && include_abstract config
    then
      let abstract := replace "}" "\}" (replace "{" "\{" (abstract paper)) in
      entry ++ "," ++ nl ++ "  abstract={" ++ abstract ++ "}"
    else entry in
  let entry :=
    if include_categories config
       && match categories paper with [] => false | _ :: _ => true end
    then
      let categories := join ", " (categories paper) in
      entry ++ "," ++ nl ++ "  note={Categories: " ++ categories ++ "}"
    else entry in
  entry ++ nl ++ "}".

Definition _export_bibtex (papers : list Paper) (config : ExportConfig)
  : string :=
  join (nl ++ nl) (map (bibtex_entry config) papers).

(** ** _export_json *)

Definition json_strings (l : list string) : json := JArr (map JStr l).

(** [Paper.to_dict] *)
Definition to_dict (p : Paper) : dict json :=
  [("id", JStr (id p));
   ("title", JStr (title p));
   ("authors", json_strings (authors p));
   ("abstract", JStr (abstract p));
   ("published", JStr (published p));
   ("categories", json_strings (categories p));
   ("arxiv_url", match arxiv_url p with Some u => JStr u | None => JNull end);
   ("pdf_url", JStr (pdf_url p))].

(** The dictionary appended by one turn of the loop (lines 66-76). *)
Definition json_record (config : ExportConfig) (paper : Paper) : dict json :=
  let paper_dict := to_dict paper in
  let paper_dict :=
    if negb (include_abstract config) then dict_pop "abstract" paper_dict
    else paper_dict in
  let paper_dict :=
    if negb (include_categories config) then dict_pop "categories" paper_dict
    else paper_dict in
  let paper_dict :=
    if negb (include_urls config)
    then dict_pop "pdf_url" (dict_pop "arxiv_url" paper_dict)
    else paper_dict in
  paper_dict.

Definition _export_json (papers : list Paper) (config : ExportConfig)
  : string :=
  Json.dumps (JArr (map (fun paper => JObj (json_record config paper)) papers)).

(** ** _export_csv *)

(** The csv module's default dialect: a field is quoted when it holds a
    comma, a quote, a carriage return or a line feed, and its quotes are
    doubled. *)
Definition csv_special (c : ascii) : bool :=
  Ascii.eqb c "," || Ascii.eqb c DQUOTE || Ascii.eqb c CR || Ascii.eqb c LF.

Fixpoint csv_needs_quotes (s : string) : bool :=
  match s with
  | EmptyString => false
  | String c s' => csv_special c || csv_needs_quotes s'
  end.

Fixpoint csv_double_quotes (s : string) : string :=
  match s with
  | EmptyString => EmptyString
  | String c s' =>
      if Ascii.eqb c DQUOTE then String c (String c (csv_double_quotes s'))
      else String c (csv_double_quotes s')
  end.

Definition csv_field (s : string) : string :=
  if csv_needs_quotes s
  then String DQUOTE (csv_double_quotes s ++ str1 DQUOTE)
  else s.

(** [writer.writerow(fields)] for a row of two fields or more. *)
Definition csv_row (fields : list string) : string :=
  join "," (map csv_field fields) ++ String CR (str1 LF).

Definition csv_fieldnames (config : ExportConfig) : list string :=
  (["id"; "title"; "authors"; "published"]
   ++ (if include_categories config then ["categories"] else [])
   ++ (if include_urls config then ["arxiv_url"; "pdf_url"] else [])
   ++ (if include_abstract config then ["abstract"] else []))%list.

(** The values of a row in the order of [fieldnames]; the writer prints
    [None] as the empty string. *)
Definition csv_values (config : ExportConfig) (paper : Paper) : list string :=
  ([id paper; title paper; join "; " (authors paper); published paper]
   ++ (if include_categories config then [join "; " (categories paper)] else [])
   ++ (if include_urls config
       then [match arxiv_url paper with Some u => u | None => "" end;
             pdf_url paper]
       else [])
   ++ (if include_abstract config then [abstract paper] else []))%list.

Definition _export_csv (papers : list Paper) (config : ExportConfig)
  : string :=
  fold_left (fun output paper => output ++ csv_row (csv_values config paper))
            papers (csv_row (csv_fieldnames config)).

(** ** _export_markdown *)

(** What one turn of the loop appends, [i] being the number of the paper. *)
Definition markdown_section (config : ExportConfig) (i : Z) (paper : Paper)
  : string :=
  "## " ++ str_of_Z i ++ ". " ++ title paper ++ nl ++ nl
  ++ "**Authors:** " ++ join ", " (authors paper) ++ "  " ++ nl
  ++ "**arXiv ID:** [" ++ id paper ++ "](https://exportarxiv.org/abs/"
  ++ id paper ++ ")  " ++ nl
  ++ "**Published:** " ++ published paper ++ "  " ++ nl
  ++ (if include_categories config
         && match categories paper with [] => false | _ :: _ => true end
      then "**Categories:** " ++ join ", " (categories paper) ++ "  " ++ nl
      else "")
  ++ (if include_urls config
      then "**PDF:** [Download](https://export.arxiv.org/pdf/" ++ id paper
           ++ ".pdf)  " ++ nl
      else "")
  ++ nl
  ++ (if include_abstract config
      then "**Abstract:**  " ++ nl ++ abstract paper ++ nl ++ nl
      else "")
  ++ "---" ++ nl ++ nl.

(** The loop over [enumerate(papers, i)]. *)
Fixpoint markdown_sections (config : ExportConfig) (i : Z)
  (papers : list Paper) (markdown_content : string) : string :=
  match papers with
  | [] => markdown_content
  | paper :: rest =>
      markdown_sections config (i + 1) rest
        (markdown_content ++ markdown_section config i paper)
  end.

Definition _export_markdown (papers : list Paper) (config : ExportConfig)
  : string :=
  markdown_sections config 1 papers ("# arXiv Papers Export" ++ nl ++ nl).

(** ** export_papers *)

Definition export_papers (papers : list Paper) (config : ExportConfig)
  : result string :=
  if String.eqb (format config) "bibtex" then Ok (_export_bibtex papers config)
  else if String.eqb (format config) "json" then Ok (_export_json papers config)
  else if String.eqb (format config) "csv" then Ok (_export_csv papers config)
  else if String.eqb (format config) "markdown"
  then Ok (_export_markdown papers config)
  else Raise (Exception "ValueError" ("Unsupported format: " ++ format config)).

(* ================================================================== *)
(** * models.py: Paper.from_dict and TrendAnalysis *)
(* ================================================================== *)

(** The strings of a list of [str]; [None] when a value is no list of
    strings. *)
Fixpoint strings_of_items (l : list json) : option (list string) :=
  match l with
  | [] => Some []
  | JStr s :: l' => option_map (cons s) (strings_of_items l')
  | _ :: _ => None
  end.

(** [data.get(key, '')] for a field that holds a string. *)
Definition get_str (data : dict json) (key : string) : option string :=
  match dict_lookup key data with
  | None => Some ""
  | Some (JStr s) => Some s
  | Some _ => None
  end.

(** [data.get(key, [])] for a field that holds a list of strings. *)
Definition get_strs (data : dict json) (key : string) : option (list string) :=
  match dict_lookup key data with
  | None => Some []
  | Some (JArr l) => strings_of_items l
  | Some _ => None
  end.

(** [data.get('arxiv_url', '')]: a string, or the [None] that the entry
    parser may have stored. *)
Definition get_url (data : dict json) (key : string) : option (option string) :=
  match dict_lookup key data with
  | None => Some (Some "")
  | Some (JStr s) => Some (Some s)
  | Some JNull => Some None
  | Some _ => None
  end.

(** [Paper.from_dict].  The source stores whatever values the dictionary
    holds; the model covers the dictionaries whose values have the types
    of the fields of [Paper], and answers [None] on the others. *)
Definition from_dict (data : dict json) : option Paper :=
  match get_str data "id", get_str data "title", get_strs data "authors",
        get_str data "abstract", get_str data "published",
        get_strs data "categories", get_url data "arxiv_url",
        get_str data "pdf_url" with
  | Some id, Some title, Some authors, Some abstract, Some published,
    Some categories, Some arxiv_url, Some pdf_url =>
      Some {| id := id; title := title; authors := authors;
              abstract := abstract; published := published;
              categories := categories; arxiv_url := arxiv_url;
              pdf_url := pdf_url |}
  | _, _, _, _, _, _, _, _ => None
  end.

Record TrendAnalysis : Type := mkTrendAnalysis {
  category : string;
  time_period : string;
  analysis_type : string;
  total_papers : Z;
  data : dict json;
  trend_error : option string
}.

(* ================================================================== *)
(** * analyzers.py: the other analyses of TrendAnalyzer *)
(* ================================================================== *)

(** [counts[key] = counts.get(key, 0) + 1] *)
Definition count_key (counts : dict Z) (key : string) : dict Z :=
  dict_set key (dict_get counts key 0 + 1) counts.

(** [sorted(items, key=lambda x: x[1], reverse=True)]: by decreasing
    count; the sort being stable, items of equal count keep their order. *)
Fixpoint insert_by_count (x : string * Z) (l : list (string * Z))
  : list (string * Z) :=
  match l with
  | [] => [x]
  | y :: l' => if snd x <? snd y then y :: insert_by_count x l' else x :: l
  end.

Definition sorted_by_count (l : list (string * Z)) : list (string * Z) :=
  fold_right insert_by_count [] l.

(** ** _analyze_top_authors *)

(** [author_counts] after the two loops (lines 99-102). *)
Definition author_counts_of (papers : list Paper) : dict Z :=
  fold_left
    (fun author_counts paper =>
       fold_left count_key (authors paper) author_counts)
    papers [].

(** [top_authors] (line 104). *)
Definition top_authors_of (papers : list Paper) : list (string * Z) :=
  firstn 10 (sorted_by_count (author_counts_of papers)).

Definition _analyze_top_authors (papers : list Paper) : dict json :=
  [("top_authors",
    JArr (map (fun item => JObj [("author", JStr (fst item));
                                 ("paper_count", JInt (snd item))])
              (top_authors_of papers)))].

(** ** _analyze_keyword_frequency *)

Fixpoint all_chars (p : ascii -> bool) (s : string) : bool :=
  match s with
  | EmptyString => true
  | String c s' => p c && all_chars p s'
  end.

(** [\w] on one character of the Latin-1 range: the letters, the digits
    and the other numeric characters, and the underscore. *)
Definition word_char (c : ascii) : bool :=
  let n := ord c in
  between 48 57 n || between 65 90 n || Nat.eqb n 95 || between 97 122 n
  || Nat.eqb n 170 || Nat.eqb n 178 || Nat.eqb n 179 || Nat.eqb n 181
  || Nat.eqb n 185 || Nat.eqb n 186 || between 188 190 n
  || (between 192 255 n && negb (Nat.eqb n 215) && negb (Nat.eqb n 247)).

(** [[a-zA-Z]] *)
Definition ascii_letter (c : ascii) : bool :=
  between 65 90 (ord c) || between 97 122 (ord c).

(** What [\b[a-zA-Z]{4,}\b] matches: a maximal run of word characters
    (there is a [\b] at both of its ends and nowhere inside) that consists
    of four ASCII letters or more. *)
Definition is_long_word (run : string) : bool :=
  Nat.leb 4 (String.length run) && all_chars ascii_letter run.

(** [re.findall(r'\b[a-zA-Z]{4,}\b', s)]: the matches from left to right.
    [run] is the run of word characters being read. *)
Fixpoint findall_words_from (run : string) (s : string) : list string :=
  match s with
  | EmptyString => if is_long_word run then [run] else []
  | String c s' =>
      if word_char c then findall_words_from (run ++ str1 c) s'
      else if is_long_word run then run :: findall_words_from "" s'
      else findall_words_from "" s'
  end.

Definition findall_words (s : string) : list string :=
  findall_words_from "" s.

(** The [stop_words] of [_analyze_keyword_frequency] (lines 115-118). *)
Definition keyword_stop_words : list string :=
  ["the"; "a"; "an"; "and"; "or"; "but"; "in"; "on"; "at";
   "to"; "for"; "of"; "with"; "by"; "via"; "using"].

(** [filtered_words] for one paper (lines 121-123). *)
Definition filtered_words (paper : Paper) : list string :=
  let title := lower (title paper) in
  let words := findall_words title in
  filter (fun word => negb (mem word keyword_stop_words)) words.

(** [all_words] after the loop. *)
Definition all_words_of (papers : list Paper) : list string :=
  fold_left (fun all_words paper => (all_words ++ filtered_words paper)%list)
            papers [].

(** [Counter(l)]: the counts, in the order of the first occurrences. *)
Definition Counter (l : list string) : dict Z := fold_left count_key l [].

(** [counter.most_common(n)]: the [n] largest counts, those that are equal
    in the order of the counter. *)
Definition most_common (n : nat) (counter : dict Z) : list (string * Z) :=
  firstn n (sorted_by_count counter).

(** [word_freq] (line 126). *)
Definition word_freq_of (papers : list Paper) : list (string * Z) :=
  most_common 20 (Counter (all_words_of papers)).

Definition _analyze_keyword_frequency (papers : list Paper) : dict json :=
  [("top_keywords",
    JArr (map (fun item => JObj [("keyword", JStr (fst item));
                                 ("frequency", JInt (snd item))])
              (word_freq_of papers)))].

(** ** analyze_trends *)

Definition period_days : dict Z :=
  [("1_month", 30); ("3_months", 90); ("6_months", 180); ("1_year", 365)].

(** [bool(x)] for an optional string. *)
Definition truthy_opt (x : option string) : bool :=
  match x with
  | Some s => truthy s
  | None => false
  end.

(** The dictionary of [_analyze_publication_count] as a JSON value. *)
Definition counts_data (d : dict (dict Z)) : dict json :=
  map (fun kv => (fst kv, JObj (map (fun mc => (fst mc, JInt (snd mc))) (snd kv))))
      d.

Section Trends.

Variable fromstring : string -> result ET.Element.
Variable http : string -> result Response.
Variable status_error_text : Response -> string.

(** [datetime]: the clock, [d - timedelta(days=n)] for the periods of
    [period_days], on which it does not overflow, and
    [d.strftime("%Y%m%d")]. *)
Variable datetime : Type.
Variable now : datetime.
Variable minus_days : datetime -> Z -> datetime.
Variable strftime_Ymd : datetime -> string.

(** The [query] of [analyze_trends] (lines 36-43). *)
Definition trend_query (category time_period : string) : string :=
  let days := dict_get period_days time_period 90 in
  let end_date := now in
  let start_date := minus_days end_date days in
  let start_str := strftime_Ymd start_date in
  let end_str := strftime_Ymd end_date in
  "cat:" ++ category ++ " AND submittedDate:[" ++ start_str ++ " TO "
  ++ end_str ++ "]".

Definition analyze_trends (category time_period analysis_type : string)
  : IO TrendAnalysis :=
  try_catch
    (let query := trend_query category time_period in
     results <- search fromstring http status_error_text
                  query 100 "submittedDate" ;;
     if truthy_opt (error results) then
       ret {| category := category;
              time_period := time_period;
              analysis_type := analysis_type;
              total_papers := 0;
              data := [];
              trend_error := error results |}
     else
       let data :=
         if String.eqb analysis_type "publication_count"
         then counts_data (_analyze_publication_count (papers results))
         else if String.eqb analysis_type "top_authors"
         then _analyze_top_authors (papers results)
         else if String.eqb analysis_type "keyword_frequency"
         then _analyze_keyword_frequency (papers results)
         else [] in
       ret {| category := category;
              time_period := time_period;
              analysis_type := analysis_type;
              total_papers := Z.of_nat (List.length (papers results));
              data := data;
              trend_error := None |})%io
    (fun e =>
       ret {| category := category;
              time_period := time_period;
              analysis_type := analysis_type;
              total_papers := 0;
              data := [];
              trend_error := Some (exn_str e) |}).

End Trends.

(* ================================================================== *)
(** * utils.py *)
(* ================================================================== *)

(** ** SearchQueryBuilder *)

Definition build_author_query (author_name : string) : string :=
  "au:" ++ str1 DQUOTE ++ author_name ++ str1 DQUOTE.

Definition build_category_query (category : string) : string :=
  "cat:" ++ category.

Section DateRange.

(** [datetime] and [d.strftime("%Y%m%d")]. *)
Variable datetime : Type.
Variable strftime_Ymd : datetime -> string.

Definition build_date_range_query (start_date end_date : datetime)
  (date_type : string) : string :=
  let start_str := strftime_Ymd start_date in
  let end_str := strftime_Ymd end_date in
  date_type ++ ":[" ++ start_str ++ " TO " ++ end_str ++ "]".

End DateRange.

Definition combine_queries (queries : list string) (operator : string)
  : string :=
  join (" " ++ operator ++ " ") (map (fun q => "(" ++ q ++ ")") queries).

(** ** validate_arxiv_id *)

(** The regular expressions of [validate_arxiv_id], and [re.match]. *)
Module Re.

Inductive regex : Type :=
| Class (p : ascii -> bool)                (* one character of a class *)
| Times (lo hi : nat) (p : ascii -> bool)  (* [p{lo,hi}] *)
| Plus (p : ascii -> bool)                 (* [p+] *)
| Then (r1 r2 : regex)
| Maybe (r : regex)                        (* [(r)?] *)
| Dollar.                                  (* [$] *)

(** The matchers take the rest of the subject and the continuation [k] of
    the match; the longer alternative is tried first, as [re] does. *)
Fixpoint exactly (p : ascii -> bool) (n : nat) (s : string)
  (k : string -> bool) : bool :=
  match n with
  | O => k s
  | S n' =>
      match s with
      | String c s' => p c && exactly p n' s' k
      | EmptyString => false
      end
  end.

Fixpoint at_most (p : ascii -> bool) (n : nat) (s : string)
  (k : string -> bool) : bool :=
  match n with
  | O => k s
  | S n' =>
      match s with
      | String c s' => (p c && at_most p n' s' k) || k s
      | EmptyString => k s
      end
  end.

Fixpoint many (p : ascii -> bool) (s : string) (k : string -> bool) : bool :=
  match s with
  | String c s' => (p c && many p s' k) || k s
  | EmptyString => k s
  end.

(** [$] holds at the end of the subject and before a line feed that ends
    it. *)
Definition at_end (s : string) : bool :=
  match s with
  | EmptyString => true
  | String c EmptyString => Ascii.eqb c LF
  | _ => false
  end.

Fixpoint matches (r : regex) (s : string) (k : string -> bool) : bool :=
  match r with
  | Class p => exactly p 1 s k
  | Times lo hi p => exactly p lo s (fun s' => at_most p (hi - lo) s' k)
  | Plus p => exactly p 1 s (fun s' => many p s' k)
  | Then r1 r2 => matches r1 s (fun s' => matches r2 s' k)
  | Maybe r => matches r s k || k s
  | Dollar => at_end s && k s
  end.

(** [bool(re.match(r, s))]: a match that starts at the head of [s]; the
    [^] that opens both patterns holds there. *)
Definition re_match (r : regex) (s : string) : bool :=
  matches r s (fun _ => true).

End Re.

(** [[a-z-]] and [[A-Z]] *)
Definition lower_or_hyphen (c : ascii) : bool :=
  between 97 122 (ord c) || Ascii.eqb c "-".
Definition upper_letter (c : ascii) : bool := between 65 90 (ord c).

(** [^\d{4}\.\d{4,5}(v\d+)?$] *)
Definition modern_pattern : Re.regex :=
  Re.Then (Re.Times 4 4 isdigit)
    (Re.Then (Re.Class (Ascii.eqb "."))
       (Re.Then (Re.Times 4 5 isdigit)
          (Re.Then (Re.Maybe (Re.Then (Re.Class (Ascii.eqb "v"))
                                      (Re.Plus isdigit)))
                   Re.Dollar))).

(** [^[a-z-]+(\.[A-Z]{2})?/\d{7}$] *)
Definition old_pattern : Re.regex :=
  Re.Then (Re.Plus lower_or_hyphen)
    (Re.Then (Re.Maybe (Re.Then (Re.Class (Ascii.eqb "."))
                                (Re.Times 2 2 upper_letter)))
       (Re.Then (Re.Class (Ascii.eqb "/"))
          (Re.Then (Re.Times 7 7 isdigit) Re.Dollar))).

Definition validate_arxiv_id (arxiv_id : string) : bool :=
  Re.re_match modern_pattern arxiv_id || Re.re_match old_pattern arxiv_id.

(* ================================================================== *)
(** * server.py: the handlers of ArxivMCPServer *)
(* ================================================================== *)

Module Server.

Section Handlers.

Variable fromstring : string -> result ET.Element.
Variable http : string -> result Response.
Variable status_error_text : Response -> string.
Variable datetime : Type.
Variable now : datetime.
Variable minus_days : datetime -> Z -> datetime.
Variable strftime_Ymd : datetime -> string.

(** [[paper.to_dict() for paper in papers]] *)
Definition paper_dicts (papers : list Paper) : json :=
  JArr (map (fun paper => JObj (to_dict paper)) papers).

(** An optional string as a value of a dictionary. *)
Definition optional_str (x : option string) : json :=
  match x with
  | Some s => JStr s
  | None => JNull
  end.

(** What the handlers of the searches return from their [except]
    clauses. *)
Definition error_and_no_papers (e : exn) : dict json :=
  [("error", JStr (exn_str e)); ("papers", JArr [])].

Definition search_arxiv (query : string) (max_results : Z) (sort_by : string)
  : IO (dict json) :=
  try_catch
    (results <- search fromstring http status_error_text
                  query max_results sort_by ;;
     ret [("query", JStr query);
          ("total_results", JInt (total_results results));
          ("papers", paper_dicts (papers results));
          ("error", optional_str (error results))])%io
    (fun e => ret (error_and_no_papers e)).

Definition search_by_author (author_name : string) (max_results : Z)
  : IO (dict json) :=
  try_catch
    (let query := build_author_query author_name in
     search_arxiv query max_results "submittedDate")
    (fun e => ret (error_and_no_papers e)).

Definition search_by_category (category : string) (max_results : Z)
  (sort_by : string) : IO (dict json) :=
  try_catch
    (let query := build_category_query category in
     search_arxiv query max_results sort_by)
    (fun e => ret (error_and_no_papers e)).

(** The handler [find_related_papers]; the finder of analyzers.py is the
    function of that name defined above. *)
Definition find_related_papers (arxiv_id : string) (max_results : Z)
  : IO (dict json) :=
  try_catch
    (original_paper <- get_paper fromstring http status_error_text arxiv_id ;;
     match original_paper with
     | None =>
         ret [("error", JStr "Could not find original paper");
              ("papers", JArr [])]
     | Some original_paper =>
         related_papers <-
           find_related_papers fromstring http status_error_text
             original_paper max_results ;;
         ret [("original_paper", JObj (to_dict original_paper));
              ("related_papers", paper_dicts related_papers);
              ("total_found", JInt (Z.of_nat (List.length related_papers)))]
     end)%io
    (fun e => ret (error_and_no_papers e)).

(** The loop of [export_papers] and of [compare_papers]: the ids are
    looked up one after the other, and those that give no paper are
    skipped. *)
Fixpoint fetch_papers (arxiv_ids : list string) (papers : list Paper)
  : IO (list Paper) :=
  match arxiv_ids with
  | [] => ret papers
  | arxiv_id :: rest =>
      (paper <- get_paper fromstring http status_error_text arxiv_id ;;
       fetch_papers rest
         (match paper with
          | Some paper => (papers ++ [paper])%list
          | None => papers
          end))%io
  end.

(** The handler [export_papers]; the exporter of exporters.py is the
    function of that name defined above. *)
Definition export_papers (arxiv_ids : list string) (format : string)
  (include_abstract : bool) : IO string :=
  try_catch
    (papers <- fetch_papers arxiv_ids [] ;;
     match papers with
     | [] => ret "Error: No valid papers found for export"
     | _ :: _ =>
         let config := {| format := format;
                          include_abstract := include_abstract;
                          include_categories := true;
                          include_urls := true |} in
         lift (export_papers papers config)
     end)%io
    (fun e => ret ("Error exporting papers: " ++ exn_str e)).

(** The handler [analyze_trends]; the analyzer of analyzers.py is the
    function of that name defined above.  The dictionary display enters
    its items from left to right, those of [analysis.data] among them. *)
Definition analyze_trends (category time_period analysis_type : string)
  : IO (dict json) :=
  try_catch
    (analysis <- analyze_trends fromstring http status_error_text
                   datetime now minus_days strftime_Ymd
                   category time_period analysis_type ;;
     let '(mkTrendAnalysis category time_period analysis_type total_papers
             data error) := analysis in
     ret (dict_of_items
            ([("category", JStr category);
              ("time_period", JStr time_period);
              ("analysis_type", JStr analysis_type);
              ("total_papers", JInt total_papers)]
             ++ data
             ++ [("error", optional_str error)])%list))%io
    (fun e => ret [("error", JStr (exn_str e))]).

(** The handler [get_paper]; the lookup of api.py is the function of that
    name defined above. *)
Definition get_paper (arxiv_id : string) : IO (dict json) :=
  try_catch
    (paper <- get_paper fromstring http status_error_text arxiv_id ;;
     ret (match paper with
          | Some paper => to_dict paper
          | None => [("error", JStr "Paper not found")]
          end))%io
    (fun e => ret [("error", JStr (exn_str e))]).

End Handlers.

Section RecentPapers.

Variable fromstring : string -> result ET.Element.
Variable http : string -> result Response.
Variable status_error_text : Response -> string.

(** [datetime]: the clock, [d - timedelta(days=n)] for any [n], which
    raises [OverflowError] when the days or the date are out of range, and
    [d.strftime("%Y%m%d")]. *)
Variable datetime : Type.
Variable now : datetime.
Variable minus_days : datetime -> Z -> result datetime.
Variable strftime_Ymd : datetime -> string.

Definition get_recent_papers (category : string) (days_back max_results : Z)
  : IO (dict json) :=
  try_catch
    (let end_date := now in
     start_date <- lift (minus_days end_date days_back) ;;
     let date_query :=
       build_date_range_query datetime strftime_Ymd start_date end_date
         "submittedDate" in
     let query :=
       if truthy category then
         let category_query := build_category_query category in
         combine_queries [category_query; date_query] "AND"
       else date_query in
     search_arxiv fromstring http status_error_text
       query max_results "submittedDate")%io
    (fun e => ret (error_and_no_papers e)).

End RecentPapers.

End Server.

(* ================================================================== *)
(** * Vocabulary of the statements *)
(* ================================================================== *)

(** [s] without its prefix [pre], when it has it. *)
Definition strip_prefix (pre s : string) : string :=
  if prefix pre s then Json.drop (String.length pre) s else s.

(** The normalization of ids as the specification words it: the prefix
    [arXiv:] is deleted, then the occurrences of [v1], [v2] and [v3].
    It is compared with [clean_id], which is the code. *)
Definition normalize_as_specified (arxiv_id : string) : string :=
  replace "v3" "" (replace "v2" "" (replace "v1" "" (strip_prefix "arXiv:" arxiv_id))).

(** A feed of two entries, with the ids [2301.00002] and [2301.00003], and
    a transport that answers every request with it. *)
Definition sample_entry (ident : string) : ET.Element :=
  ET.mkElement (atom "entry") [] None
    [ET.mkElement (atom "id") [] (Some ("http://arxiv.org/abs/" ++ ident)) []].

Definition sample_feed : ET.Element :=
  ET.mkElement (atom "feed") [] None
    [sample_entry "2301.00002"; sample_entry "2301.00003"].

Definition sample_fromstring (content : string) : result ET.Element :=
  Ok sample_feed.

Definition sample_http (url : string) : result Response :=
  Ok {| status_code := 200; content := "<feed/>" |}.

Definition sample_status_text (r : Response) : string :=
  "Client error '" ++ str_of_Z (status_code r) ++ "'".

Definition sample_seed : Paper :=
  {| id := "2301.00001"; title := "Attention Is All You Need";
     authors := ["A. Vaswani"]; abstract := "";
     published := "2020-01-01"; categories := ["cs.CL"; "cs.LG"];
     arxiv_url := Some "http://arxiv.org/abs/2301.00001"; pdf_url := "" |}.



(** What an entry contributes to the list of papers. *)
Definition papers_of_entry (entry : ET.Element) : list Paper :=
  match _parse_paper_entry entry with
  | Some paper => [paper]
  | None => []
  end.

(** An entry with an empty [title] element, one with no [title] element,
    and one with a title. *)
Definition entry_empty_title : ET.Element :=
  ET.mkElement (atom "entry") []  None
    [ET.mkElement (atom "title") [] None [];
     ET.mkElement (atom "id") [] (Some "http://arxiv.org/abs/2301.00004") []].

Definition entry_titled : ET.Element :=
  ET.mkElement (atom "entry") [] None
    [ET.mkElement (atom "title") [] (Some " Graph  Networks ") [];
     ET.mkElement (atom "id") [] (Some "http://arxiv.org/abs/2301.00005") []].



(** The papers counted under the month [k]: those with a date, the first
    seven characters of which are [k]. *)
Definition in_month (k : string) (paper : Paper) : bool :=
  truthy (published paper) && String.eqb (take 7 (published paper)) k.

Definition papers_in_month (k : string) (papers : list Paper) : Z :=
  Z.of_nat (List.length (filter (in_month k) papers)).

(** A paper of which only the date matters. *)
Definition dated (date : string) : Paper :=
  {| id := ""; title := ""; authors := []; abstract := "";
     published := date; categories := []; arxiv_url := Some "";
     pdf_url := "" |}.

(** A year of four ASCII digits, and its value. *)
Definition four_digits (s : string) : bool :=
  match s with
  | String a (String b (String c (String d EmptyString))) =>
      isdigit a && isdigit b && isdigit c && isdigit d
  | _ => false
  end.

Definition year_of (s : string) : Z :=
  match s with
  | String a (String b (String c (String d _))) =>
      1000 * digit_val a + 100 * digit_val b + 10 * digit_val c + digit_val d
  | _ => 0
  end.

(** [int(n * 1.5)], computed on floats, is [n * 3 / 2]. *)
Definition scaled_exactly (n : Z) : bool :=
  match int_of_float (PrimFloat.mul (float_of_Z n) 1.5%float) with
  | Ok m => m =? n * 3 / 2
  | Raise _ => false
  end.

(** [scaled_exactly] on the [2 ^ k] integers from [lo] on. *)
Fixpoint scaled_exactly_from (k : nat) (lo : Z) : bool :=
  match k with
  | O => scaled_exactly lo
  | S k' =>
      scaled_exactly_from k' lo
      && scaled_exactly_from k' (lo + 2 ^ Z.of_nat k')
  end.

(** A linear congruential generator, for the examples. *)
Definition sample_randint (a b : Z) (g : Z) : Z * Z :=
  (a + g mod (b - a + 1), (g * 1103515245 + 12345) mod 2 ^ 31).

(** The key of a BibTeX entry: the id with an underscore for every dot and
    every slash. *)
Fixpoint bibtex_key (ident : string) : string :=
  match ident with
  | EmptyString => EmptyString
  | String c s' =>
      String (if Ascii.eqb c "." || Ascii.eqb c "/" then "_"%char else c)
             (bibtex_key s')
  end.

(** A text with a backslash before each of its braces. *)
Fixpoint escape_braces (s : string) : string :=
  match s with
  | EmptyString => EmptyString
  | String c s' =>
      if Ascii.eqb c "{" || Ascii.eqb c "}"
      then String BACKSLASH (String c (escape_braces s'))
      else String c (escape_braces s')
  end.

(** How many more opening than closing braces a text has. *)
Definition imbalance (s : string) : Z :=
  Z.of_nat (count "{" s) - Z.of_nat (count "}" s).

(** A text with no brace. *)
Definition brace_free (s : string) : Prop :=
  count "{" s = 0%nat /\ count "}" s = 0%nat.

(** The imbalance of the texts of a paper that its BibTeX entry holds: the
    id in the key and in the journal, the title, the authors and the year,
    and the id of the url, the abstract and the categories when they are
    included. *)
Definition field_imbalance (config : ExportConfig) (paper : Paper) : Z :=
  2 * imbalance (id paper)
  + imbalance (title paper)
  + imbalance (join " and " (authors paper))
  + imbalance (if truthy (published paper) then take 4 (published paper) else "")
  + (if include_urls config then imbalance (id paper) else 0)
  + (if include_abstract config then imbalance (abstract paper) else 0)
  + (if include_categories config
        && match categories paper with [] => false | _ :: _ => true end
     then imbalance (join ", " (categories paper)) else 0).

(** A paper whose title is an opening brace. *)
Definition sample_braced : Paper :=
  {| id := "2301.00001"; title := "{"; authors := ["A. Author"];
     abstract := ""; published := "2023-01-01"; categories := ["cs.AI"];
     arxiv_url := Some "http://arxiv.org/abs/2301.00001"; pdf_url := "" |}.

(** ** JSON values and the round trip *)

Import Json.

(** Induction on JSON values, with the hypothesis on the items. *)
Definition json_induction (P : json -> Prop)
  (Hnull : P JNull) (Hbool : forall b, P (JBool b)) (Hint : forall n, P (JInt n))
  (Hstr : forall s, P (JStr s))
  (Harr : forall l, Forall P l -> P (JArr l))
  (Hobj : forall l, Forall (fun kv => P (snd kv)) l -> P (JObj l))
  : forall v, P v :=
  fix go (v : json) : P v :=
    match v with
    | JNull => Hnull
    | JBool b => Hbool b
    | JInt n => Hint n
    | JStr s => Hstr s
    | JArr l =>
        Harr l ((fix all (l : list json) : Forall P l :=
                   match l with
                   | [] => Forall_nil P
                   | x :: l' => Forall_cons x (go x) (all l')
                   end) l)
    | JObj l =>
        Hobj l ((fix all (l : list (string * json))
                   : Forall (fun kv => P (snd kv)) l :=
                   match l with
                   | [] => Forall_nil _
                   | kv :: l' => Forall_cons kv (go (snd kv)) (all l')
                   end) l)
    end.

(** The values that the round trip is proved for: no number, and no key
    twice in a dictionary. *)
Fixpoint plain (v : json) : Prop :=
  match v with
  | JNull | JBool _ | JStr _ => True
  | JInt _ => False
  | JArr l => (fix all (l : list json) : Prop :=
                 match l with [] => True | x :: l' => plain x /\ all l' end) l
  | JObj l => NoDup (map fst l)
              /\ (fix all (l : list (string * json)) : Prop :=
                    match l with
                    | [] => True
                    | kv :: l' => plain (snd kv) /\ all l'
                    end) l
  end.

Fixpoint size (v : json) : nat :=
  match v with
  | JArr l => S (list_sum (map (fun x => 2 + size x)%nat l))
  | JObj l => S (list_sum (map (fun kv => 2 + size (snd kv))%nat l))
  | _ => 1
  end.

Definition items_size (l : list json) : nat :=
  list_sum (map (fun x => 2 + size x)%nat l).
Definition members_size (l : list (string * json)) : nat :=
  list_sum (map (fun kv => 2 + size (snd kv))%nat l).

(** What a dumped value starts with. *)
Definition opens_value (c : ascii) : bool :=
  negb (is_ws c) && negb (Ascii.eqb c "]") && negb (Ascii.eqb c "}").

(** A value that is read back from its dump, at every nesting level and
    before any text, by a parser with enough fuel. *)
Definition parses_back (x : json) : Prop :=
  forall lvl rest fuel,
    (size x < fuel)%nat ->
    parse_value fuel (dump lvl x ++ rest) = Some (x, rest).

(** What the record parsed back from the JSON export says of a paper: the
    fields that the options keep hold the values of the paper, and the
    fields that they exclude are absent. *)
Definition record_matches (config : ExportConfig) (paper : Paper)
  (record : dict json) : Prop :=
  dict_lookup "id" record = Some (JStr (id paper))
  /\ dict_lookup "title" record = Some (JStr (title paper))
  /\ dict_lookup "authors" record = Some (JArr (map JStr (authors paper)))
  /\ dict_lookup "published" record = Some (JStr (published paper))
  /\ dict_lookup "abstract" record
     = (if include_abstract config then Some (JStr (abstract paper)) else None)
  /\ dict_lookup "categories" record
     = (if include_categories config
        then Some (JArr (map JStr (categories paper))) else None)
  /\ dict_lookup "arxiv_url" record
     = (if include_urls config
        then Some (match arxiv_url paper with
                   | Some u => JStr u
                   | None => JNull
                   end)
        else None)
  /\ dict_lookup "pdf_url" record
     = (if include_urls config then Some (JStr (pdf_url paper)) else None).

(** ** Orders, counts and substitutions *)

(** Keys in strictly increasing order. *)
Definition increasing (ks : list string) : Prop :=
  StronglySorted (fun a b => str_ltb a b = true) ks.

(** A count already in the dictionary, plus [n] more papers. *)
Definition merge_count (o : option Z) (n : Z) : option Z :=
  match o with
  | Some m => Some (m + n)
  | None => if n =? 0 then None else Some n
  end.

(** [s.replace(a, new)] for a one-character [a]. *)
Fixpoint subst_char (a : ascii) (new : string) (s : string) : string :=
  match s with
  | EmptyString => EmptyString
  | String c s' =>
      if Ascii.eqb c a then new ++ subst_char a new s'
      else String c (subst_char a new s')
  end.

(** Every brace of a text stands after a backslash. *)
Fixpoint braces_escaped (after_backslash : bool) (s : string) : bool :=
  match s with
  | EmptyString => true
  | String c s' =>
      (if Ascii.eqb c "{" || Ascii.eqb c "}" then after_backslash else true)
      && braces_escaped (Ascii.eqb c BACKSLASH) s'
  end.

(** ** csv.reader

    The reader of the csv module with the default dialect, on the lines
    of a text opened with [newline=''].  It is what reads the CSV export
    back in the statements below. *)

Inductive csv_state : Type :=
| START_RECORD
| START_FIELD
| IN_FIELD
| IN_QUOTED_FIELD
| QUOTE_IN_QUOTED_FIELD
| EAT_CRNL.

Record csv_reader_state : Type := mkReader {
  state : csv_state;
  field : string;
  fields : list string;
  rows : list (list string)
}.

Definition set_state (st : csv_state) (r : csv_reader_state) : csv_reader_state :=
  {| state := st; field := field r; fields := fields r; rows := rows r |}.

Definition add_char (c : ascii) (st : csv_state) (r : csv_reader_state)
  : csv_reader_state :=
  {| state := st; field := field r ++ str1 c; fields := fields r;
     rows := rows r |}.

Definition save_field (st : csv_state) (r : csv_reader_state)
  : csv_reader_state :=
  {| state := st; field := ""; fields := (fields r ++ [field r])%list;
     rows := rows r |}.

(** The record is complete: it joins the rows read. *)
Definition end_record (st : csv_state) (r : csv_reader_state)
  : csv_reader_state :=
  {| state := st; field := ""; fields := [];
     rows := (rows r ++ [fields r])%list |}.

Definition at_start_field (c : ascii) (r : csv_reader_state)
  : csv_reader_state :=
  if Ascii.eqb c LF then end_record START_RECORD (save_field START_FIELD r)
  else if Ascii.eqb c CR then end_record EAT_CRNL (save_field START_FIELD r)
  else if Ascii.eqb c DQUOTE then set_state IN_QUOTED_FIELD r
  else if Ascii.eqb c "," then save_field START_FIELD r
  else add_char c IN_FIELD r.

Definition at_start_record (c : ascii) (r : csv_reader_state)
  : csv_reader_state :=
  if Ascii.eqb c LF then end_record START_RECORD r
  else if Ascii.eqb c CR then end_record EAT_CRNL r
  else at_start_field c r.

Definition process_char (r : csv_reader_state) (c : ascii) : csv_reader_state :=
  match state r with
  | START_RECORD => at_start_record c r
  | EAT_CRNL =>
      if Ascii.eqb c LF then set_state START_RECORD r
      else at_start_record c r
  | START_FIELD => at_start_field c r
  | IN_FIELD =>
      if Ascii.eqb c LF then end_record START_RECORD (save_field IN_FIELD r)
      else if Ascii.eqb c CR then end_record EAT_CRNL (save_field IN_FIELD r)
      else if Ascii.eqb c "," then save_field START_FIELD r
      else add_char c IN_FIELD r
  | IN_QUOTED_FIELD =>
      if Ascii.eqb c DQUOTE then set_state QUOTE_IN_QUOTED_FIELD r
      else add_char c IN_QUOTED_FIELD r
  | QUOTE_IN_QUOTED_FIELD =>
      if Ascii.eqb c DQUOTE then add_char c IN_QUOTED_FIELD r
      else if Ascii.eqb c "," then save_field START_FIELD r
      else if Ascii.eqb c LF
      then end_record START_RECORD (save_field IN_FIELD r)
      else if Ascii.eqb c CR then end_record EAT_CRNL (save_field IN_FIELD r)
      else add_char c IN_FIELD r
  end.

Fixpoint process_chars (r : csv_reader_state) (s : string) : csv_reader_state :=
  match s with
  | EmptyString => r
  | String c s' => process_chars (process_char r c) s'
  end.

(** At the end of the text, a record that was begun is complete. *)
Definition rows_at_end (r : csv_reader_state) : list (list string) :=
  match state r with
  | START_RECORD | EAT_CRNL => rows r
  | _ => rows (end_record START_RECORD (save_field START_FIELD r))
  end.

(** [list(csv.reader(io.StringIO(text, newline='')))] *)
Definition csv_reader (text : string) : list (list string) :=
  rows_at_end (process_chars (mkReader START_RECORD "" [] []) text).

(** ** Counts and rankings *)

(** How many times [k] stands in [l]. *)
Definition occurrences (k : string) (l : list string) : Z :=
  Z.of_nat (count_occ string_dec l k).

(** The counts of a ranking never increase. *)
Definition by_decreasing_count (l : list (string * Z)) : Prop :=
  StronglySorted (fun a b => snd b <= snd a) l.

(** The items of a ranking that have the count [n], in their order. *)
Definition with_count (n : Z) (l : list (string * Z)) : list (string * Z) :=
  filter (fun x => snd x =? n) l.

(** The members of [l], each once, in the order of their first
    occurrences. *)
Definition first_occurrences (l : list string) : list string :=
  fold_left (fun seen k => if mem k seen then seen else (seen ++ [k])%list) l [].

(** [[a-z]] *)
Definition lower_letter (c : ascii) : bool := between 97 122 (ord c).

(** A keyword as the analysis of titles reports them: four lower-case
    ASCII letters or more, and no stop word. *)
Definition keyword_shaped (word : string) : Prop :=
  (4 <= String.length word)%nat
  /\ all_chars lower_letter word = true
  /\ mem word keyword_stop_words = false.

(** ** Requests *)

(** The URL that [get_paper] requests for an id. *)
Definition id_list_url (arxiv_id : string) : string :=
  base_url ++ "?id_list=" ++ clean_id arxiv_id.

(** The papers of a list of optional papers. *)
Definition found_papers (l : list (option Paper)) : list Paper :=
  flat_map (fun x => match x with Some p => [p] | None => [] end) l.

(** The data that [analyze_trends] computes for each type of analysis. *)
Definition trend_data (analysis_type : string) (papers : list Paper)
  : dict json :=
  if String.eqb analysis_type "publication_count"
  then [("monthly_counts",
         JObj (map (fun mc => (fst mc, JInt (snd mc)))
                   (dict_of_items (sorted_items (monthly_counts_of papers)))))]
  else if String.eqb analysis_type "top_authors"
  then _analyze_top_authors papers
  else if String.eqb analysis_type "keyword_frequency"
  then _analyze_keyword_frequency papers
  else [].
Section HandlerVocabulary.

Variable fromstring : string -> result ET.Element.
Variable http : string -> result Response.
Variable status_error_text : Response -> string.

(** The result of the one [search] of a handler. *)
Definition search_result_of (query : string) (max_results : Z)
  (sort_by : string) : SearchResult :=
  try_except
    (search_outcome fromstring status_error_text query
       (http (search_url query max_results sort_by)))
    (search_failed query).

(** The paper that [get_paper] returns for an id. *)
Definition paper_of_id (arxiv_id : string) : option Paper :=
  match fst (run (get_paper fromstring http status_error_text arxiv_id)) with
  | Ok paper => paper
  | Raise _ => None
  end.

End HandlerVocabulary.

(** ** Encoded queries *)

(** The characters of an encoded query: the unreserved ones, the plus sign
    and the percent sign. *)
Definition url_safe (c : ascii) : bool :=
  always_safe c || Ascii.eqb c "+" || Ascii.eqb c "%".

Definition hex_byte (a b : ascii) : option nat :=
  match hex_val a, hex_val b with
  | Some x, Some y => Some (x * 16 + y)%nat
  | _, _ => None
  end.

(** The character that an encoded text begins with, and what follows it,
    as [urllib.parse.unquote_plus] reads the encodings of the characters
    of the model. *)
Definition decode_head (s : string) : option (ascii * string) :=
  match s with
  | EmptyString => None
  | String "%" (String a (String b rest)) =>
      match hex_byte a b with
      | None => None
      | Some n =>
          if Nat.ltb n 128 then Some (chr n, rest)
          else
            match rest with
            | String "%" (String a' (String b' rest')) =>
                match hex_byte a' b' with
                | Some m => Some (chr ((n - 192) * 64 + (m - 128)), rest')
                | None => None
                end
            | _ => None
            end
      end
  | String "+" rest => Some (" "%char, rest)
  | String c rest => Some (c, rest)
  end.

(** ** Parsed papers *)

(** What holds of every paper that the entry parser builds. *)
Definition well_formed_paper (p : Paper) : Prop :=
  count LF (title p) = 0%nat
  /\ count LF (abstract p) = 0%nat
  /\ strip (title p) = title p
  /\ strip (abstract p) = abstract p
  /\ Forall (fun author => strip author = author) (authors p)
  /\ (String.length (published p) <= 10)%nat
  /\ Forall (fun term => term <> "") (categories p)
  /\ count "/" (id p) = 0%nat
  /\ (forall u, arxiv_url p = Some u ->
        u = id p \/ exists before, u = before ++ "/" ++ id p).

(** ** Texts of JSON *)

(** The printable ASCII characters and the line feed. *)
Definition json_safe (c : ascii) : bool :=
  between 32 126 (ord c) || Ascii.eqb c LF.

(** The paper that [from_dict] reads from a record of the JSON export: the
    fields that the options exclude have their default values. *)
Definition paper_as_exported (config : ExportConfig) (p : Paper) : Paper :=
  {| id := id p;
     title := title p;
     authors := authors p;
     abstract := if include_abstract config then abstract p else "";
     published := published p;
     categories := if include_categories config then categories p else [];
     arxiv_url := if include_urls config then arxiv_url p else Some "";
     pdf_url := if include_urls config then pdf_url p else "" |}.

(* ================================================================== *)
(** * Properties *)
(* ================================================================== *)

(** ** Lists and slices *)

Lemma Forall_firstn_of {A} (P : A -> Prop) (n : nat) (l : list A) :
  Forall P l -> Forall P (firstn n l).
Proof.
  intros H. revert n.
  induction H as [ | x l Hx Hl IH]; intros [ | n]; simpl; auto.
Qed.

Lemma Forall_slice_to {A} (P : A -> Prop) (n : Z) (l : list A) :
  Forall P l -> Forall P (slice_to n l).
Proof.
  intros H. unfold slice_to. destruct (0 <=? n); now apply Forall_firstn_of.
Qed.

Lemma length_slice_to {A} (n : Z) (l : list A) :
  0 <= n -> Z.of_nat (List.length (slice_to n l)) <= n.
Proof.
  intros Hn. unfold slice_to.
  destruct (Z.leb_spec 0 n) as [_ | Hlt]; [ | lia ].
  rewrite length_firstn. lia.
Qed.

Lemma slice_to_nil {A} (n : Z) : slice_to n (@nil A) = [].
Proof.
  unfold slice_to. destruct (0 <=? n); now rewrite firstn_nil.
Qed.

(** ** The search gateway *)

Section SearchProperties.

Variable fromstring : string -> result ET.Element.
Variable http : string -> result Response.
Variable status_error_text : Response -> string.

Local Abbreviation search' := (search fromstring http status_error_text).
Local Abbreviation search_attempt' :=
  (search_attempt fromstring http status_error_text).
Local Abbreviation get_paper' := (get_paper fromstring http status_error_text).
Local Abbreviation find_related_papers' :=
  (find_related_papers fromstring http status_error_text).
Local Abbreviation parse_response' := (_parse_response fromstring).
Local Abbreviation raise_for_status' := (raise_for_status status_error_text).

(** [search] makes one request; what it returns depends on the transport
    by the outcome of that request only. *)
Lemma search_attempt_run query max_results sort_by t :
  search_attempt' query max_results sort_by t
  = (search_outcome fromstring status_error_text query
       (http (search_url query max_results sort_by)),
     (t ++ [search_url query max_results sort_by])%list).
Proof.
  unfold search_attempt, search_outcome, bind, http_client_get, lift, ret.
  destruct (http _) as [response | e]; [ | reflexivity ].
  destruct (raise_for_status' response); reflexivity.
Qed.

Lemma search_run query max_results sort_by t :
  search' query max_results sort_by t
  = (Ok (try_except (search_outcome fromstring status_error_text query
                       (http (search_url query max_results sort_by)))
                    (search_failed query)),
     (t ++ [search_url query max_results sort_by])%list).
Proof.
  unfold search, try_catch. rewrite search_attempt_run.
  destruct (search_outcome _ _); reflexivity.
Qed.

Lemma raise_for_status_non_2xx response :
  ~ (200 <= status_code response < 300) ->
  raise_for_status' response
  = Raise (Exception "HTTPStatusError" (status_error_text response)).
Proof.
  intros H. unfold raise_for_status.
  destruct (Z.leb_spec 200 (status_code response));
    destruct (Z.ltb_spec (status_code response) 300);
    simpl; try reflexivity; lia.
Qed.

Lemma search_outcome_ok query outcome r :
  search_outcome fromstring status_error_text query outcome = Ok r ->
  error r = None.
Proof.
  unfold search_outcome. intros E.
  destruct outcome as [response | e]; [ | discriminate ].
  destruct (raise_for_status' response); [ | discriminate ].
  injection E as <-. reflexivity.
Qed.

(** C1 (as amended): [search] always returns a [SearchResult] after
    exactly one request and never raises.  Whenever the body of its [try]
    raises an exception [e] -- in particular when the transport raises
    (a timeout) or the status is not 2xx -- the result has [papers = []],
    [total_results = 0] and [error = Some (str e)]: the error is present,
    and it is a non-empty string exactly when the message of the exception
    is.  In every result, an error that is present comes with no paper. *)
Theorem search_degrades_gracefully (query : string) (max_results : Z)
  (sort_by : string) :
  exists r : SearchResult,
    run (search' query max_results sort_by)
    = (Ok r, [search_url query max_results sort_by])
    /\ (forall e,
          fst (run (search_attempt' query max_results sort_by)) = Raise e ->
          r = {| query := query; total_results := 0; papers := [];
                 error := Some (exn_str e) |})
    /\ (forall e,
          http (search_url query max_results sort_by) = Raise e ->
          fst (run (search_attempt' query max_results sort_by)) = Raise e)
    /\ (forall response,
          http (search_url query max_results sort_by) = Ok response ->
          ~ (200 <= status_code response < 300) ->
          fst (run (search_attempt' query max_results sort_by))
          = Raise (Exception "HTTPStatusError" (status_error_text response)))
    /\ (forall msg, error r = Some msg ->
          papers r = [] /\ total_results r = 0
          /\ exists e,
               fst (run (search_attempt' query max_results sort_by)) = Raise e
               /\ msg = exn_str e).
Proof.
  unfold run. rewrite search_run. eexists. split; [ reflexivity | ].
  rewrite search_attempt_run. simpl fst.
  split; [ | split; [ | split ] ].
  - intros e He. rewrite He. reflexivity.
  - intros e He. rewrite He. reflexivity.
  - intros response Hr Hs. rewrite Hr. simpl.
    now rewrite raise_for_status_non_2xx.
  - intros msg.
    destruct (search_outcome _ _) as [r | e] eqn:E; simpl.
    + rewrite (search_outcome_ok _ _ _ E). discriminate.
    + intros [= <-]. repeat split. now exists e.
Qed.

(** *** get_paper *)

Lemma get_paper_run arxiv_id t :
  get_paper' arxiv_id t
  = (Ok match http (base_url ++ "?id_list=" ++ clean_id arxiv_id) with
        | Raise _ => None
        | Ok response =>
            match raise_for_status' response with
            | Raise _ => None
            | Ok _ => hd_error (parse_response' (content response))
            end
        end,
     (t ++ [(base_url ++ "?id_list=" ++ clean_id arxiv_id)%string])%list).
Proof.
  unfold get_paper, try_catch, bind, http_client_get, lift, ret.
  destruct (http _) as [response | e]; [ | reflexivity ].
  destruct (raise_for_status' response); [ | reflexivity ].
  destruct (parse_response' (content response)); reflexivity.
Qed.

Lemma replace_from_absent old new s :
  occurs old s = false -> replace_from old new 0 s = s.
Proof.
  induction s as [ | c s IH]; intros H; [ reflexivity | ].
  cbn [occurs] in H. apply orb_false_iff in H as [Hp Hs].
  cbn [replace_from]. rewrite Hp. f_equal. now apply IH.
Qed.

Lemma replace_absent old new s :
  occurs old s = false -> replace old new s = s.
Proof.
  intros H. destruct old as [ | a old].
  - destruct s; discriminate.
  - unfold replace. now apply replace_from_absent.
Qed.

(** C5 (as amended): [get_paper] deletes every occurrence of [arXiv:]
    (wherever it stands, not only as a prefix), then every occurrence of
    [v1], then of [v2], then of [v3], in four successive passes; an id in
    which none of the four occurs (one that ends in [v4], say) is sent as
    it is.  It makes one request, by id list with that id, and returns the
    first parsed paper, or [None] when the transport raises, the status is
    not 2xx or no paper was parsed; it never raises. *)
Theorem get_paper_normalizes_then_fetches (arxiv_id : string) :
  clean_id arxiv_id
  = replace "v3" "" (replace "v2" "" (replace "v1" ""
      (replace "arXiv:" "" arxiv_id)))
  /\ (occurs "arXiv:" arxiv_id = false /\ occurs "v1" arxiv_id = false
      /\ occurs "v2" arxiv_id = false /\ occurs "v3" arxiv_id = false ->
      clean_id arxiv_id = arxiv_id)
  /\ exists found : option Paper,
       run (get_paper' arxiv_id)
       = (Ok found, [base_url ++ "?id_list=" ++ clean_id arxiv_id])
       /\ (forall e,
             http (base_url ++ "?id_list=" ++ clean_id arxiv_id) = Raise e ->
             found = None)
       /\ (forall response,
             http (base_url ++ "?id_list=" ++ clean_id arxiv_id) = Ok response ->
             (~ (200 <= status_code response < 300) -> found = None)
             /\ (200 <= status_code response < 300 ->
                 found = hd_error (parse_response' (content response)))).
Proof.
  split; [ reflexivity | split ].
  - intros (H0 & H1 & H2 & H3). unfold clean_id.
    rewrite (replace_absent _ _ _ H0), (replace_absent _ _ _ H1),
      (replace_absent _ _ _ H2). now apply replace_absent.
  - unfold run. rewrite get_paper_run. eexists. split; [ reflexivity | ].
    split.
    + intros e ->. reflexivity.
    + intros response ->. split; intros H.
      * now rewrite raise_for_status_non_2xx.
      * unfold raise_for_status.
        destruct (Z.leb_spec 200 (status_code response));
          destruct (Z.ltb_spec (status_code response) 300);
          simpl; try reflexivity; lia.
Qed.

(** *** find_related_papers *)

Lemma find_related_papers_run paper max_results t :
  find_related_papers' paper max_results t
  = (Ok (slice_to max_results
           (filter (fun p => negb (String.eqb (id p) (id paper)))
              (papers
                 (try_except
                    (search_outcome fromstring status_error_text
                       (related_query paper)
                       (http (search_url (related_query paper)
                                (max_results + 5) "relevance")))
                    (search_failed (related_query paper)))))),
     (t ++ [search_url (related_query paper) (max_results + 5) "relevance"])%list).
Proof.
  unfold find_related_papers, try_catch, bind. rewrite search_run.
  reflexivity.
Qed.

(** C8 (as amended): [find_related_papers] makes one search, for
    [max_results + 5] results sorted by relevance; what it returns holds no
    paper with the id of the seed, and holds at most [max_results] papers
    when [max_results] is not negative; when the search failed it returns
    the empty list, and it never raises. *)
Theorem find_related_papers_filters_and_truncates (paper : Paper)
  (max_results : Z) :
  exists (results : SearchResult) (related : list Paper),
    run (search' (related_query paper) (max_results + 5) "relevance")
    = (Ok results,
       [base_url ++ "?search_query=" ++ quote_plus (related_query paper)
        ++ "&start=0&max_results=" ++ str_of_Z (max_results + 5)
        ++ "&sortBy=relevance&sortOrder=ascending"])
    /\ run (find_related_papers' paper max_results)
       = (Ok related,
          [base_url ++ "?search_query=" ++ quote_plus (related_query paper)
           ++ "&start=0&max_results=" ++ str_of_Z (max_results + 5)
           ++ "&sortBy=relevance&sortOrder=ascending"])
    /\ related
       = slice_to max_results
           (filter (fun p => negb (String.eqb (id p) (id paper)))
                   (papers results))
    /\ Forall (fun p => id p <> id paper) related
    /\ (0 <= max_results -> Z.of_nat (List.length related) <= max_results)
    /\ (error results <> None -> related = []).
Proof.
  unfold run. rewrite search_run, find_related_papers_run.
  do 2 eexists. split; [ reflexivity | split; [ reflexivity | ] ].
  split; [ reflexivity | ].
  split; [ | split ].
  - apply Forall_slice_to. apply Forall_forall. intros p Hp.
    apply filter_In in Hp as [_ Hp]. apply negb_true_iff in Hp.
    now apply String.eqb_neq.
  - apply length_slice_to.
  - destruct (search_outcome _ _ _ _) as [r | e] eqn:E; simpl.
    + rewrite (search_outcome_ok _ _ _ E). congruence.
    + intros _. apply slice_to_nil.
Qed.

End SearchProperties.

(** C1, the claim as stated fails: a timeout whose exception has no message
    (as the timeouts of the HTTP client often are) gives a result whose
    [error] is the empty string. *)
Lemma search_timeout_without_message :
  fst (run (search sample_fromstring
              (fun _ => Raise (Exception "ReadTimeout" ""))
              sample_status_text "cat:cs.AI" 10 "relevance"))
  = Ok {| query := "cat:cs.AI"; total_results := 0; papers := [];
          error := Some "" |}.
Proof. reflexivity. Qed.

(** The scenario of the specification: a search against a feed of two
    entries gives two papers and no error; a 404 gives the error of
    [raise_for_status] and no paper. *)
Example search_two_entries :
  run (search sample_fromstring sample_http sample_status_text
         "cat:cs.AI" 2 "relevance")
  = (Ok {| query := "cat:cs.AI"; total_results := 2;
           papers := flat_map papers_of_entry
                       [sample_entry "2301.00002"; sample_entry "2301.00003"];
           error := None |},
     ["https://export.arxiv.org/api/query?search_query=cat%3Acs.AI&start=0&max_results=2&sortBy=relevance&sortOrder=ascending"]).
Proof. reflexivity. Qed.

Example search_not_found :
  fst (run (search sample_fromstring
              (fun _ => Ok {| status_code := 404; content := "" |})
              sample_status_text "cat:cs.AI" 2 "submittedDate"))
  = Ok {| query := "cat:cs.AI"; total_results := 0; papers := [];
          error := Some "Client error '404'" |}.
Proof. reflexivity. Qed.

Example clean_id_samples :
  clean_id "arXiv:2301.00001v2" = "2301.00001"
  /\ clean_id "2301.00001v4" = "2301.00001v4"
  /\ clean_id "cs/0001001" = "cs/0001001".
Proof. repeat split. Qed.

Example get_paper_first_entry :
  run (get_paper sample_fromstring sample_http sample_status_text
         "arXiv:2301.00002v1")
  = (Ok (hd_error (papers_of_entry (sample_entry "2301.00002"))),
     ["https://export.arxiv.org/api/query?id_list=2301.00002"]).
Proof. reflexivity. Qed.

(** C5, the claim as stated fails: [arXiv:] is deleted where it is no
    prefix, and the version suffix [v10], which is later than [v4], is
    rewritten, to a different id. *)
Lemma clean_id_rewrites_more :
  (clean_id "xarXiv:1" = "x1"
   /\ normalize_as_specified "xarXiv:1" = "xarXiv:1")
  /\ clean_id "2301.00001v10" = "2301.000010".
Proof. repeat split. Qed.

(** C8, the claim as stated fails: with [max_results = -1] and a search
    that finds two other papers, one paper is returned, which is more than
    [max_results]. *)
Lemma find_related_papers_negative_limit :
  exists related : list Paper,
    fst (run (find_related_papers sample_fromstring sample_http
                sample_status_text sample_seed (-1)))
    = Ok related
    /\ List.length related = 1%nat
    /\ -1 < Z.of_nat (List.length related).
Proof. eexists. split; [ vm_compute; reflexivity | split; [ reflexivity | reflexivity ] ]. Qed.

(** ** The query of find_related_papers *)

Lemma search_terms_nil (paper : Paper) :
  search_terms paper = [] <-> categories paper = [] /\ key_words paper = [].
Proof.
  unfold search_terms, category_clauses. split.
  - intros H. apply app_eq_nil in H as [Hc Hk].
    apply map_eq_nil in Hc, Hk. split; [ | exact Hk ].
    destruct (categories paper); [ reflexivity | discriminate ].
  - intros [-> ->]. reflexivity.
Qed.

(** C10: when the seed paper has a category, a [cat:] clause is formed for
    its first category, the query is the [" OR "]-join of the clauses, and
    the fallback is not taken; the fallback is taken exactly when the paper
    has no category and no qualifying title word, so that its branch
    [categories[0]] is dead, and the query is then the bare [cs.AI], with
    no [cat:] before it. *)
Theorem related_query_fallback_is_bare_default (paper : Paper) :
  (forall c rest, categories paper = c :: rest ->
     exists more,
       search_terms paper = ("cat:" ++ c) :: more
       /\ related_query paper = join " OR " (("cat:" ++ c) :: more))
  /\ (search_terms paper <> [] ->
      related_query paper = join " OR " (search_terms paper))
  /\ (search_terms paper = []
      <-> categories paper = [] /\ key_words paper = [])
  /\ (search_terms paper = [] ->
      related_query paper = "cs.AI" /\ prefix "cat:" (related_query paper) = false).
Proof.
  split; [ | split; [ | split ] ].
  - intros c rest Hc. unfold related_query, search_terms, category_clauses.
    rewrite Hc. destruct rest; simpl; eexists; split; reflexivity.
  - unfold related_query. destruct (search_terms paper); [ congruence | reflexivity ].
  - apply search_terms_nil.
  - intros H. unfold related_query. rewrite H.
    apply search_terms_nil in H as [-> _]. split; reflexivity.
Qed.

Example related_query_samples :
  related_query sample_seed
  = "cat:cs.CL OR cat:cs.LG OR " ++ str1 DQUOTE ++ "attention" ++ str1 DQUOTE
    ++ " OR " ++ str1 DQUOTE ++ "need" ++ str1 DQUOTE
  /\ related_query (dated "2024-01-15") = "cs.AI".
Proof. split; reflexivity. Qed.

(** ** The response parser *)

Lemma collect_papers_from acc entries :
  fold_left
    (fun papers entry =>
       match _parse_paper_entry entry with
       | Some paper_data => (papers ++ [paper_data])%list
       | None => papers
       end)
    entries acc
  = (acc ++ flat_map papers_of_entry entries)%list.
Proof.
  revert acc. induction entries as [ | entry entries IH]; intros acc; simpl.
  - now rewrite app_nil_r.
  - rewrite IH. unfold papers_of_entry at 2.
    destruct (_parse_paper_entry entry); simpl.
    + now rewrite <- app_assoc.
    + reflexivity.
Qed.

Lemma collect_papers_flat_map entries :
  collect_papers entries = flat_map papers_of_entry entries.
Proof. unfold collect_papers. now rewrite collect_papers_from. Qed.






Section ParserProperties.

Variable fromstring : string -> result ET.Element.

Local Abbreviation parse_response' := (_parse_response fromstring).


End ParserProperties.


(** The three cases on a feed: the entry with an empty [title] element is
    skipped, the one with no [title] element gets the default title, and
    the one after them is parsed. *)
Example parse_response_three_entries :
  map (fun p => (id p, title p))
    (_parse_response
       (fun _ => Ok (ET.mkElement (atom "feed") [] None
                       [entry_empty_title; sample_entry "2301.00002";
                        entry_titled]))
       "<feed/>")
  = [("2301.00002", "Unknown Title"); ("2301.00005", "Graph  Networks")].
Proof. reflexivity. Qed.

(** ** Dictionaries in insertion order *)

Lemma dict_lookup_set_same {V} k (v : V) d :
  dict_lookup k (dict_set k v d) = Some v.
Proof.
  induction d as [ | [k' w] d IH]; simpl.
  - now rewrite String.eqb_refl.
  - destruct (String.eqb_spec k' k) as [-> | Hne]; simpl.
    + now rewrite String.eqb_refl.
    + apply String.eqb_neq in Hne. now rewrite Hne.
Qed.

Lemma dict_lookup_set_other {V} k k' (v : V) d :
  k <> k' -> dict_lookup k' (dict_set k v d) = dict_lookup k' d.
Proof.
  intros Hne. induction d as [ | [k0 w] d IH]; simpl.
  - destruct (String.eqb_spec k k'); [ contradiction | reflexivity ].
  - destruct (String.eqb_spec k0 k) as [-> | H0]; simpl.
    + destruct (String.eqb_spec k k'); [ contradiction | reflexivity ].
    + now rewrite IH.
Qed.

Lemma keys_dict_set {V} k (v : V) d :
  keys (dict_set k v d)
  = if existsb (String.eqb k) (keys d) then keys d else (keys d ++ [k])%list.
Proof.
  unfold keys. induction d as [ | [k' w] d IH]; simpl; [ reflexivity | ].
  rewrite (String.eqb_sym k k').
  destruct (String.eqb_spec k' k) as [-> | Hne]; simpl; [ reflexivity | ].
  rewrite IH. now destruct (existsb (String.eqb k) (map fst d)).
Qed.

Lemma existsb_eqb_In k l : existsb (String.eqb k) l = true <-> In k l.
Proof.
  rewrite existsb_exists. split.
  - intros (x & Hx & He). apply String.eqb_eq in He. now subst.
  - intros H. exists k. split; [ exact H | apply String.eqb_refl ].
Qed.

Lemma NoDup_keys_dict_set {V} k (v : V) d :
  NoDup (keys d) -> NoDup (keys (dict_set k v d)).
Proof.
  intros H. rewrite keys_dict_set.
  destruct (existsb (String.eqb k) (keys d)) eqn:E; [ exact H | ].
  apply NoDup_app; [ exact H | repeat constructor; intros [] | ].
  intros x Hx [<- | []]. apply existsb_eqb_In in Hx. congruence.
Qed.

Lemma dict_lookup_None {V} k (d : dict V) :
  dict_lookup k d = None <-> ~ In k (keys d).
Proof.
  induction d as [ | [k' w] d IH]; simpl.
  - tauto.
  - destruct (String.eqb_spec k' k) as [-> | Hne].
    + split; [ discriminate | tauto ].
    + rewrite IH. tauto.
Qed.

Lemma dict_lookup_In {V} k (v : V) d :
  NoDup (keys d) -> (dict_lookup k d = Some v <-> In (k, v) d).
Proof.
  induction d as [ | [k' w] d IH]; simpl; intros Hnd.
  - split; [ discriminate | tauto ].
  - inversion Hnd as [ | ? ? Hnotin Hnd']; subst.
    destruct (String.eqb_spec k' k) as [-> | Hne].
    + split.
      * intros [= ->]. now left.
      * intros [[= ->] | Hin]; [ reflexivity | ].
        exfalso. apply Hnotin. now apply (in_map fst) in Hin.
    + rewrite (IH Hnd'). split; [ tauto | ].
      intros [[= -> _] | Hin]; [ contradiction | exact Hin ].
Qed.

Lemma dict_lookup_Permutation {V} k (d d' : dict V) :
  NoDup (keys d) -> Permutation d d' -> dict_lookup k d' = dict_lookup k d.
Proof.
  intros Hnd Hp.
  assert (Hnd' : NoDup (keys d')).
  { eapply Permutation_NoDup; [ | exact Hnd ]. now apply Permutation_map. }
  destruct (dict_lookup k d) as [v | ] eqn:E.
  - apply dict_lookup_In; [ exact Hnd' | ].
    apply (Permutation_in _ Hp). now apply dict_lookup_In.
  - apply dict_lookup_None. apply dict_lookup_None in E.
    intros Hin. apply E.
    apply (Permutation_in _ (Permutation_sym (Permutation_map fst Hp))).
    exact Hin.
Qed.

Lemma dict_of_items_from {V} (items acc : list (string * V)) :
  NoDup (keys (acc ++ items)%list) ->
  fold_left (fun d kv => dict_set (fst kv) (snd kv) d) items acc
  = (acc ++ items)%list.
Proof.
  revert acc. induction items as [ | [k v] items IH]; intros acc Hnd; simpl.
  - now rewrite app_nil_r.
  - assert (Hset : dict_set k v acc = (acc ++ [(k, v)])%list).
    { assert (Hk : ~ In k (keys acc)).
      { unfold keys in *. rewrite map_app in Hnd. simpl in Hnd.
        apply NoDup_remove_2 in Hnd. intros Hin. apply Hnd.
        apply in_or_app. now left. }
      clear - Hk. induction acc as [ | [k' w] acc IHacc]; simpl.
      - reflexivity.
      - simpl in Hk. destruct (String.eqb_spec k' k) as [-> | Hne].
        + tauto.
        + rewrite IHacc by tauto. reflexivity. }
    rewrite Hset. rewrite IH; rewrite <- app_assoc; [ reflexivity | exact Hnd ].
Qed.

Lemma dict_of_items_NoDup {V} (items : list (string * V)) :
  NoDup (keys items) -> dict_of_items items = items.
Proof. intros H. unfold dict_of_items. now rewrite dict_of_items_from. Qed.

(** ** The order of strings and [sorted] *)

Lemma str_compare_refl s : String.compare s s = Eq.
Proof.
  induction s as [ | c s IH]; simpl; [ reflexivity | ].
  unfold Ascii.compare. now rewrite N.compare_refl.
Qed.

Lemma str_ltb_trans a b c :
  str_ltb a b = true -> str_ltb b c = true -> str_ltb a c = true.
Proof.
  unfold str_ltb. revert b c.
  induction a as [ | x a IH]; intros [ | y b] [ | z c]; simpl;
    try discriminate; try reflexivity.
  intros Hab Hbc.
  destruct (Ascii.compare x y) eqn:Exy; try discriminate;
    destruct (Ascii.compare y z) eqn:Eyz; try discriminate.
  - apply Ascii.compare_eq_iff in Exy, Eyz. subst.
    unfold Ascii.compare. rewrite N.compare_refl. now apply IH with b.
  - apply Ascii.compare_eq_iff in Exy. subst. now rewrite Eyz.
  - apply Ascii.compare_eq_iff in Eyz. subst. now rewrite Exy.
  - unfold Ascii.compare in *. rewrite N.compare_lt_iff in Exy, Eyz.
    assert (H : (N_of_ascii x ?= N_of_ascii z)%N = Lt)
      by (apply N.compare_lt_iff; lia).
    now rewrite H.
Qed.

Lemma str_ltb_irrefl a : str_ltb a a = false.
Proof. unfold str_ltb. now rewrite str_compare_refl. Qed.

Lemma item_ltb_false_distinct x y :
  fst x <> fst y -> item_ltb y x = false -> str_ltb (fst x) (fst y) = true.
Proof.
  unfold item_ltb, str_ltb. intros Hne.
  rewrite (String.compare_antisym (fst x) (fst y)).
  destruct (String.compare (fst y) (fst x)) eqn:E; simpl; try discriminate.
  - apply String.compare_eq_iff in E. congruence.
  - reflexivity.
Qed.

Lemma item_ltb_true_distinct x y :
  fst x <> fst y -> item_ltb y x = true -> str_ltb (fst y) (fst x) = true.
Proof.
  unfold item_ltb, str_ltb. intros Hne.
  destruct (String.compare (fst y) (fst x)) eqn:E; simpl; try discriminate.
  - apply String.compare_eq_iff in E. congruence.
  - reflexivity.
Qed.

Lemma insert_item_Permutation x l : Permutation (insert_item x l) (x :: l).
Proof.
  induction l as [ | y l IH]; simpl; [ reflexivity | ].
  destruct (item_ltb y x); [ | reflexivity ].
  rewrite IH. apply perm_swap.
Qed.

Lemma sorted_items_Permutation l : Permutation (sorted_items l) l.
Proof.
  induction l as [ | x l IH]; simpl; [ reflexivity | ].
  rewrite insert_item_Permutation. now constructor.
Qed.

Lemma insert_item_increasing x l :
  ~ In (fst x) (keys l) -> increasing (keys l) ->
  increasing (keys (insert_item x l)).
Proof.
  unfold increasing. induction l as [ | y l IH]; simpl; intros Hx Hs.
  - repeat constructor.
  - inversion Hs as [ | ? ? Hs' Hall]; subst.
    destruct (item_ltb y x) eqn:E; simpl.
    + constructor; [ apply IH; tauto | ].
      assert (Hyx : str_ltb (fst y) (fst x) = true)
        by (apply item_ltb_true_distinct;
            [ intros H; apply Hx; now left | exact E ]).
      apply Forall_forall. intros k Hk.
      apply (Permutation_in _ (Permutation_map fst (insert_item_Permutation x l)))
        in Hk.
      destruct Hk as [<- | Hk]; [ exact Hyx | ].
      rewrite Forall_forall in Hall. now apply Hall.
    + assert (Hxy : str_ltb (fst x) (fst y) = true)
        by (apply item_ltb_false_distinct; [ intros H; apply Hx; now left | exact E ]).
      constructor; [ now constructor | ].
      constructor; [ exact Hxy | ].
      apply Forall_forall. intros k Hk. rewrite Forall_forall in Hall.
      apply str_ltb_trans with (fst y); [ exact Hxy | now apply Hall ].
Qed.

Lemma sorted_items_increasing l :
  NoDup (keys l) -> increasing (keys (sorted_items l)).
Proof.
  induction l as [ | x l IH]; simpl; intros Hnd.
  - constructor.
  - inversion Hnd as [ | ? ? Hx Hnd']; subst.
    apply insert_item_increasing; [ | now apply IH ].
    intros Hin. apply Hx.
    apply (Permutation_in _ (Permutation_map fst (sorted_items_Permutation l))).
    exact Hin.
Qed.

Lemma increasing_NoDup ks : increasing ks -> NoDup ks.
Proof.
  induction 1 as [ | k ks Hs IH Hall]; constructor; [ | exact IH ].
  intros Hin. rewrite Forall_forall in Hall.
  specialize (Hall _ Hin). now rewrite str_ltb_irrefl in Hall.
Qed.

(** A dictionary with increasing keys is determined by its lookups. *)
Lemma increasing_dict_ext {V} (d1 d2 : dict V) :
  increasing (keys d1) -> increasing (keys d2) ->
  (forall k, dict_lookup k d1 = dict_lookup k d2) -> d1 = d2.
Proof.
  assert (Hlow : forall k (d : dict V),
             Forall (fun k' => str_ltb k k' = true) (keys d) ->
             dict_lookup k d = None).
  { intros k d Hall. apply dict_lookup_None. intros Hin.
    rewrite Forall_forall in Hall. specialize (Hall _ Hin).
    now rewrite str_ltb_irrefl in Hall. }
  revert d2. induction d1 as [ | [k1 v1] d1 IH]; intros [ | [k2 v2] d2] H1 H2 Hext.
  - reflexivity.
  - specialize (Hext k2). simpl in Hext. rewrite String.eqb_refl in Hext.
    discriminate.
  - specialize (Hext k1). simpl in Hext. rewrite String.eqb_refl in Hext.
    discriminate.
  - unfold increasing in *. simpl in H1, H2.
    inversion H1 as [ | ? ? H1' Hall1]; inversion H2 as [ | ? ? H2' Hall2]; subst.
    assert (Hk : k1 = k2).
    { destruct (String.eqb_spec k1 k2) as [-> | Hne]; [ reflexivity | exfalso ].
      pose proof (Hext k1) as E1. pose proof (Hext k2) as E2. simpl in E1, E2.
      rewrite String.eqb_refl in E1, E2.
      destruct (String.eqb_spec k2 k1) as [-> | _]; [ congruence | ].
      destruct (String.eqb_spec k1 k2) as [-> | _]; [ congruence | ].
      symmetry in E1.
      assert (In1 : In k1 (keys d2)).
      { destruct (in_dec string_dec k1 (keys d2)) as [ | Hn]; [ assumption | ].
        apply dict_lookup_None in Hn. congruence. }
      assert (In2 : In k2 (keys d1)).
      { destruct (in_dec string_dec k2 (keys d1)) as [ | Hn]; [ assumption | ].
        apply dict_lookup_None in Hn. congruence. }
      rewrite Forall_forall in Hall1, Hall2.
      pose proof (str_ltb_trans _ _ _ (Hall1 _ In2) (Hall2 _ In1)) as Habs.
      now rewrite str_ltb_irrefl in Habs. }
    subst k2.
    pose proof (Hext k1) as E. simpl in E. rewrite String.eqb_refl in E.
    injection E as ->. f_equal. apply IH; try assumption.
    intros k. specialize (Hext k). simpl in Hext.
    destruct (String.eqb_spec k1 k) as [Heq | Hne]; [ subst k | exact Hext ].
    now rewrite (Hlow k1 d1 Hall1), (Hlow k1 d2 Hall2).
Qed.

(** ** The monthly counts *)

Lemma papers_in_month_nonneg k papers : 0 <= papers_in_month k papers.
Proof. unfold papers_in_month. lia. Qed.

Lemma papers_in_month_cons k paper papers :
  papers_in_month k (paper :: papers)
  = (if in_month k paper then 1 else 0) + papers_in_month k papers.
Proof.
  unfold papers_in_month. cbn [filter].
  destruct (in_month k paper); cbn [List.length]; lia.
Qed.

(** The invariant of the loop of [_analyze_publication_count]. *)
Lemma monthly_counts_from papers :
  forall d : dict Z,
    NoDup (keys d) ->
    NoDup (keys (fold_left count_month papers d))
    /\ forall k,
         dict_lookup k (fold_left count_month papers d)
         = merge_count (dict_lookup k d) (papers_in_month k papers).
Proof.
  induction papers as [ | paper papers IH]; intros d Hnd.
  - split; [ exact Hnd | ]. intros k. unfold papers_in_month. simpl.
    destruct (dict_lookup k d); simpl; [ f_equal; lia | reflexivity ].
  - simpl fold_left.
    assert (Hnd' : NoDup (keys (count_month d paper))).
    { unfold count_month. destruct (truthy (published paper));
        [ now apply NoDup_keys_dict_set | exact Hnd ]. }
    destruct (IH _ Hnd') as [Hk Hl]. split; [ exact Hk | ].
    intros k. rewrite Hl, papers_in_month_cons.
    pose proof (papers_in_month_nonneg k papers) as Hc.
    unfold count_month, in_month.
    destruct (truthy (published paper)); cbn [andb].
    + destruct (String.eqb_spec (take 7 (published paper)) k) as [<- | Hne].
      * rewrite dict_lookup_set_same. unfold dict_get.
        destruct (dict_lookup _ d); cbn [merge_count].
        -- f_equal. lia.
        -- destruct (Z.eqb_spec (1 + papers_in_month (take 7 (published paper)) papers) 0);
             [ lia | f_equal; lia ].
      * now rewrite dict_lookup_set_other.
    + reflexivity.
Qed.

(** C7 (as amended): the publication_count analysis returns, under the
    key [monthly_counts], a mapping that groups the papers whose
    [published] field is not empty by the first seven characters of that
    field, maps each such prefix to the number of those papers that share
    it, holds no other key, and lists its keys in increasing lexicographic
    order; for papers published in 2024-01 twice and in 2024-02 once the
    mapping is [{"2024-01": 2, "2024-02": 1}]. *)
Theorem publication_count_by_month (papers : list Paper) :
  exists monthly : dict Z,
    _analyze_publication_count papers = [("monthly_counts", monthly)]
    /\ increasing (keys monthly)
    /\ (forall k,
          dict_lookup k monthly
          = if papers_in_month k papers =? 0 then None
            else Some (papers_in_month k papers))
    /\ (forall paper,
          In paper papers -> published paper <> "" ->
          1 <= papers_in_month (take 7 (published paper)) papers
          /\ dict_lookup (take 7 (published paper)) monthly
             = Some (papers_in_month (take 7 (published paper)) papers))
    /\ ((forall k,
           papers_in_month k papers
           = if String.eqb k "2024-01" then 2
             else if String.eqb k "2024-02" then 1 else 0) ->
        monthly = [("2024-01", 2); ("2024-02", 1)]).
Proof.
  destruct (monthly_counts_from papers [] (NoDup_nil _)) as [Hnd Hl].
  fold (monthly_counts_of papers) in Hnd, Hl.
  assert (Hnd' : NoDup (keys (sorted_items (monthly_counts_of papers)))).
  { eapply Permutation_NoDup; [ | exact Hnd ].
    apply Permutation_map, Permutation_sym, sorted_items_Permutation. }
  assert (Hlookup : forall k,
             dict_lookup k (sorted_items (monthly_counts_of papers))
             = if papers_in_month k papers =? 0 then None
               else Some (papers_in_month k papers)).
  { intros k.
    rewrite (dict_lookup_Permutation k _ _ Hnd
               (Permutation_sym (sorted_items_Permutation _))).
    rewrite Hl. reflexivity. }
  exists (sorted_items (monthly_counts_of papers)).
  split; [ | split; [ | split; [ | split ] ] ].
  - unfold _analyze_publication_count. now rewrite dict_of_items_NoDup.
  - now apply sorted_items_increasing.
  - exact Hlookup.
  - intros paper Hin Hdate.
    assert (Hpos : 1 <= papers_in_month (take 7 (published paper)) papers).
    { clear - Hin Hdate. induction papers as [ | q papers IH]; [ destruct Hin | ].
      rewrite papers_in_month_cons.
      pose proof (papers_in_month_nonneg (take 7 (published paper)) papers).
      destruct Hin as [-> | Hin].
      - unfold in_month. rewrite String.eqb_refl.
        destruct (published paper); [ congruence | cbn [truthy andb]; lia ].
      - specialize (IH Hin). destruct (in_month _ q); lia. }
    split; [ exact Hpos | ]. rewrite Hlookup.
    destruct (Z.eqb_spec (papers_in_month (take 7 (published paper)) papers) 0);
      [ lia | reflexivity ].
  - intros Hcount. apply increasing_dict_ext.
    + now apply sorted_items_increasing.
    + repeat constructor.
    + intros k. rewrite Hlookup, Hcount. cbn [dict_lookup].
      rewrite (String.eqb_sym "2024-01" k), (String.eqb_sym "2024-02" k).
      destruct (String.eqb k "2024-01"); [ reflexivity | ].
      destruct (String.eqb k "2024-02"); reflexivity.
Qed.

(** C7, the claim as stated fails: a paper with no date shares its (empty)
    prefix with one paper, itself, and the mapping has no entry for it;
    and what is returned for the months of the specification is not the
    mapping of the months but a dictionary that holds it under one key. *)
Lemma publication_count_skips_undated :
  (In (dated "") [dated ""]
   /\ take 7 (published (dated "")) = ""
   /\ _analyze_publication_count [dated ""] = [("monthly_counts", [])])
  /\ keys (_analyze_publication_count
             [dated "2024-01-15"; dated "2024-01-20"; dated "2024-02-10"])
     = ["monthly_counts"].
Proof. repeat split. now left. Qed.

(** The months of the specification, given out of order. *)
Example publication_count_2024 :
  _analyze_publication_count
    [dated "2024-02-10"; dated "2024-01-15"; dated ""; dated "2024-01-20"]
  = [("monthly_counts", [("2024-01", 2); ("2024-02", 1)])].
Proof. reflexivity. Qed.

(** ** The citation estimate *)

Lemma isdigit_not_blank c : isdigit c = true -> int_blank c = false.
Proof.
  destruct c as [[] [] [] [] [] [] [] []]; intros H;
    try discriminate H; reflexivity.
Qed.

Lemma digit_val_range c : isdigit c = true -> 0 <= digit_val c <= 9.
Proof.
  destruct c as [[] [] [] [] [] [] [] []]; intros H;
    try discriminate H; vm_compute; split; discriminate.
Qed.

Lemma py_int_four_digits s :
  four_digits s = true ->
  py_int s = Ok (year_of s) /\ 0 <= year_of s <= 9999.
Proof.
  destruct s as [ | a [ | b [ | c [ | d [ | ]]]]]; try discriminate.
  cbn [four_digits]. rewrite !andb_true_iff. intros [[[Ha Hb] Hc] Hd].
  split.
  - assert (Hstrip : lstrip int_blank
                       (rstrip int_blank
                          (String a (String b (String c (String d "")))))
                     = String a (String b (String c (String d "")))).
    { cbn [rstrip].
      rewrite (isdigit_not_blank _ Hb), (isdigit_not_blank _ Hc),
        (isdigit_not_blank _ Hd).
      cbn [str1 lstrip]. now rewrite (isdigit_not_blank _ Ha). }
    unfold py_int. rewrite Hstrip.
    assert (Hbody : int_digits 0 false
                      (String a (String b (String c (String d ""))))
                    = Some (year_of (String a (String b (String c (String d ""))))) ).
    { cbn [int_digits year_of]. rewrite Ha, Hb, Hc, Hd. f_equal. lia. }
    destruct a as [[] [] [] [] [] [] [] []]; try discriminate Ha;
      lazy beta iota zeta; rewrite Hbody; reflexivity.
  - cbn [year_of].
    pose proof (digit_val_range _ Ha). pose proof (digit_val_range _ Hb).
    pose proof (digit_val_range _ Hc). pose proof (digit_val_range _ Hd).
    lia.
Qed.

Lemma scaled_exactly_from_spec k :
  forall lo, scaled_exactly_from k lo = true ->
  forall n, lo <= n < lo + 2 ^ Z.of_nat k -> scaled_exactly n = true.
Proof.
  induction k as [ | k IH]; intros lo H n Hn.
  - simpl in Hn. assert (n = lo) by lia. subst. exact H.
  - cbn [scaled_exactly_from] in H. apply andb_true_iff in H as [H1 H2].
    rewrite Nat2Z.inj_succ, Z.pow_succ_r in Hn by lia.
    destruct (Z.lt_ge_cases n (lo + 2 ^ Z.of_nat k)).
    + apply (IH lo H1). lia.
    + apply (IH _ H2). lia.
Qed.

Lemma scaled_exactly_below_2_18 : scaled_exactly_from 18 0 = true.
Proof. vm_compute. reflexivity. Qed.

(** [int(n * 1.5)] for the citation counts that can arise. *)
Lemma int_of_scaled n :
  0 <= n < 2 ^ 18 ->
  int_of_float (PrimFloat.mul (float_of_Z n) 1.5%float) = Ok (n * 3 / 2).
Proof.
  intros Hn.
  pose proof (scaled_exactly_from_spec 18 0 scaled_exactly_below_2_18 n Hn) as H.
  unfold scaled_exactly in H.
  destruct (int_of_float _) as [m | e]; [ | discriminate ].
  apply Z.eqb_eq in H. now subst.
Qed.

Lemma sample_randint_range a b g :
  a <= b -> a <= fst (sample_randint a b g) <= b.
Proof.
  intros H. unfold sample_randint. cbn [fst].
  pose proof (Z.mod_pos_bound g (b - a + 1)). lia.
Qed.

Section CitationProperties.

Variable rng : Type.
Variable randint : Z -> Z -> rng -> Z * rng.

(** [random.randint(a, b)] draws from [a..b]. *)
Hypothesis randint_range :
  forall a b g, a <= b -> a <= fst (randint a b g) <= b.

(** C2: for a paper whose [published] field starts with a year of four
    digits, whatever the two draws [u1] from 5..25 and [u2] from 0..20 are,
    [estimate_citations] returns an estimate that is not negative, with
    [citations_per_year] the rounding to one decimal of
    [estimated_citations / age_years], where [age_years] is
    [max(1, current_year - pub_year)], and with [h_index_contribution] the
    minimum of [estimated_citations] and 10.  The estimate is
    [max(0, age_years * u1 - u2)], times 1.5 and truncated when one of the
    categories is popular: the identities hold with the multiplier too.
    [current_year] ranges over the years of [datetime]. *)
Theorem estimate_citations_identities (current_year : Z) (paper : Paper)
  (g : rng) :
  1 <= current_year <= 9999 ->
  four_digits (take 4 (published paper)) = true ->
  let info := fst (estimate_citations rng randint current_year paper g) in
  let age_years :=
    Z.max 1 (current_year - year_of (take 4 (published paper))) in
  0 <= estimated_citations info
  /\ citations_per_year info
     = py_round1 (py_truediv (estimated_citations info) age_years)
  /\ h_index_contribution info = Z.min (estimated_citations info) 10
  /\ exists u1 u2 g1 g2,
       randint 5 25 g = (u1, g1) /\ randint 0 20 g1 = (u2, g2)
       /\ snd (estimate_citations rng randint current_year paper g) = g2
       /\ estimated_citations info
          = (if existsb (fun cat => mem cat popular_categories)
                        (categories paper)
             then Z.max 0 (age_years * u1 - u2) * 3 / 2
             else Z.max 0 (age_years * u1 - u2))
       /\ note info = simulated_note.
Proof.
  intros Hyear Hdigits.
  destruct (py_int_four_digits _ Hdigits) as [Hint Hrange].
  assert (Hdate : truthy (published paper) = true).
  { destruct (published paper); [ discriminate Hdigits | reflexivity ]. }
  unfold estimate_citations. rewrite Hdate, Hint. cbn [negb].
  pose proof (randint_range 5 25 g ltac:(lia)) as Hu1.
  destruct (randint 5 25 g) as [u1 g1] eqn:E1. cbn [fst] in Hu1.
  pose proof (randint_range 0 20 g1 ltac:(lia)) as Hu2.
  destruct (randint 0 20 g1) as [u2 g2] eqn:E2. cbn [fst] in Hu2.
  set (age_years := Z.max 1 (current_year - year_of (take 4 (published paper)))).
  set (base := Z.max 0 (age_years * u1 - u2)).
  assert (Hage : 1 <= age_years <= 9999) by (unfold age_years; lia).
  assert (Hbase : 0 <= base < 2 ^ 18).
  { unfold base. change (2 ^ 18) with 262144. nia. }
  destruct (existsb _ (categories paper)).
  - rewrite (int_of_scaled base Hbase). cbn [fst snd estimated_citations
      citations_per_year h_index_contribution note].
    split; [ apply Z.div_pos; lia | ].
    split; [ reflexivity | ]. split; [ reflexivity | ].
    exists u1, u2, g1, g2. now rewrite E2.
  - cbn [fst snd estimated_citations citations_per_year
      h_index_contribution note].
    split; [ lia | ]. split; [ reflexivity | ]. split; [ reflexivity | ].
    exists u1, u2, g1, g2. now rewrite E2.
Qed.

End CitationProperties.

(** C2 at a paper of 2020 with a popular category, in 2026, with the draws
    10 and 14: 46 citations, 69 with the multiplier, 11.5 per year. *)
Lemma estimate_citations_identities_witness :
  let info :=
    fst (estimate_citations Z sample_randint 2026 sample_seed 5) in
  0 <= estimated_citations info
  /\ citations_per_year info
     = py_round1 (py_truediv (estimated_citations info) (Z.max 1 (2026 - 2020)))
  /\ h_index_contribution info = Z.min (estimated_citations info) 10
  /\ exists u1 u2 g1 g2,
       sample_randint 5 25 5 = (u1, g1) /\ sample_randint 0 20 g1 = (u2, g2)
       /\ snd (estimate_citations Z sample_randint 2026 sample_seed 5) = g2
       /\ estimated_citations info
          = (if existsb (fun cat => mem cat popular_categories)
                        (categories sample_seed)
             then Z.max 0 (Z.max 1 (2026 - 2020) * u1 - u2) * 3 / 2
             else Z.max 0 (Z.max 1 (2026 - 2020) * u1 - u2))
       /\ note info = simulated_note.
Proof.
  apply (estimate_citations_identities Z sample_randint sample_randint_range
           2026 sample_seed 5); [ lia | reflexivity ].
Defined.

Example estimate_citations_sample :
  fst (estimate_citations Z sample_randint 2026 sample_seed 5)
  = {| arxiv_id := "2301.00001"; ci_title := "Attention Is All You Need";
       estimated_citations := 69;
       citations_per_year := 11.5%float;
       h_index_contribution := 10; note := simulated_note |}.
Proof. vm_compute. reflexivity. Qed.

(** ** The BibTeX exporter *)

Lemma replace_one_char a new s :
  replace (str1 a) new s = subst_char a new s.
Proof.
  unfold replace, str1. induction s as [ | c s IH]; [ reflexivity | ].
  cbn [replace_from prefix subst_char String.length Nat.sub].
  rewrite (Ascii.eqb_sym c a).
  destruct (Ascii.ascii_dec a c) as [-> | Hne].
  - rewrite Ascii.eqb_refl. destruct s; cbn [prefix]; now rewrite IH.
  - apply Ascii.eqb_neq in Hne. rewrite Hne. now rewrite IH.
Qed.

Lemma bibtex_key_replace ident :
  replace "/" "_" (replace "." "_" ident) = bibtex_key ident.
Proof.
  change "/" with (str1 "/"). change "." with (str1 ".").
  rewrite !replace_one_char.
  induction ident as [ | c s IH]; [ reflexivity | ].
  cbn [subst_char bibtex_key].
  destruct (Ascii.eqb c "."); cbn [orb append subst_char].
  - cbn. now rewrite IH.
  - destruct (Ascii.eqb c "/"); cbn; now rewrite IH.
Qed.

Lemma escape_braces_replace s :
  replace "}" "\}" (replace "{" "\{" s) = escape_braces s.
Proof.
  change "}" with (str1 "}"). change "{" with (str1 "{").
  rewrite !replace_one_char.
  induction s as [ | c s IH]; [ reflexivity | ].
  cbn [subst_char escape_braces].
  destruct (Ascii.eqb c "{") eqn:Eo; cbn [orb].
  - apply Ascii.eqb_eq in Eo. subst c. cbn. now rewrite IH.
  - cbn [subst_char]. destruct (Ascii.eqb c "}") eqn:Ec.
    + apply Ascii.eqb_eq in Ec. subst c. cbn. now rewrite IH.
    + now rewrite IH.
Qed.

Lemma count_app a s1 s2 :
  count a (s1 ++ s2) = (count a s1 + count a s2)%nat.
Proof.
  induction s1 as [ | c s1 IH]; [ reflexivity | ].
  cbn [append count]. rewrite IH. lia.
Qed.

Lemma count_bibtex_key a ident :
  Ascii.eqb a "{" || Ascii.eqb a "}" = true ->
  count a (bibtex_key ident) = count a ident.
Proof.
  intros Ha. induction ident as [ | c s IH]; [ reflexivity | ].
  cbn [bibtex_key count]. rewrite IH. f_equal.
  apply orb_true_iff in Ha as [Ha | Ha]; apply Ascii.eqb_eq in Ha; subst a.
  - destruct (Ascii.eqb_spec c ".") as [-> | _]; [ reflexivity | ].
    destruct (Ascii.eqb_spec c "/") as [-> | _]; reflexivity.
  - destruct (Ascii.eqb_spec c ".") as [-> | _]; [ reflexivity | ].
    destruct (Ascii.eqb_spec c "/") as [-> | _]; reflexivity.
Qed.

Lemma count_escape_braces a s :
  Ascii.eqb a "{" || Ascii.eqb a "}" = true ->
  count a (escape_braces s) = count a s.
Proof.
  intros Ha. induction s as [ | c s IH]; [ reflexivity | ].
  cbn [escape_braces].
  destruct (Ascii.eqb c "{" || Ascii.eqb c "}"); cbn [count]; rewrite IH;
    [ | reflexivity ].
  apply orb_true_iff in Ha as [Ha | Ha]; apply Ascii.eqb_eq in Ha; subst a;
    reflexivity.
Qed.

Lemma imbalance_app s1 s2 :
  imbalance (s1 ++ s2) = imbalance s1 + imbalance s2.
Proof. unfold imbalance. rewrite !count_app. lia. Qed.

Lemma imbalance_bibtex_key ident : imbalance (bibtex_key ident) = imbalance ident.
Proof. unfold imbalance. now rewrite !count_bibtex_key. Qed.

Lemma imbalance_escape_braces s : imbalance (escape_braces s) = imbalance s.
Proof. unfold imbalance. now rewrite !count_escape_braces. Qed.

Lemma braces_escaped_escape s b : braces_escaped b (escape_braces s) = true.
Proof.
  revert b. induction s as [ | c s IH]; intros b; [ reflexivity | ].
  cbn [escape_braces].
  destruct (Ascii.eqb c "{" || Ascii.eqb c "}") eqn:E.
  - cbn [braces_escaped]. rewrite E.
    change (Ascii.eqb BACKSLASH "{" || Ascii.eqb BACKSLASH "}") with false.
    rewrite Ascii.eqb_refl. cbn [andb]. apply IH.
  - cbn [braces_escaped]. rewrite E. cbn [andb]. apply IH.
Qed.

Lemma brace_free_imbalance s : brace_free s -> imbalance s = 0.
Proof. intros [Ho Hc]. unfold imbalance. rewrite Ho, Hc. reflexivity. Qed.

Lemma brace_free_app s1 s2 :
  brace_free s1 -> brace_free s2 -> brace_free (s1 ++ s2).
Proof.
  intros [Ho1 Hc1] [Ho2 Hc2]. unfold brace_free.
  rewrite !count_app, Ho1, Hc1, Ho2, Hc2. now split.
Qed.

Lemma brace_free_join sep l :
  brace_free sep -> Forall brace_free l -> brace_free (join sep l).
Proof.
  intros Hsep Hl. unfold join.
  induction Hl as [ | x l Hx Hl IH]; [ now split | ].
  destruct l as [ | y l]; [ exact Hx | ].
  cbn [String.concat]. now repeat apply brace_free_app.
Qed.

Lemma count_take_le a n s : (count a (take n s) <= count a s)%nat.
Proof.
  revert s. induction n as [ | n IH]; intros [ | c s]; cbn [take count]; try lia.
  specialize (IH s). lia.
Qed.

Lemma brace_free_take n s : brace_free s -> brace_free (take n s).
Proof.
  intros [Ho Hc]. split.
  - pose proof (count_take_le "{" n s). lia.
  - pose proof (count_take_le "}" n s). lia.
Qed.

Lemma brace_free_fields config paper :
  brace_free (id paper) -> brace_free (title paper) ->
  Forall brace_free (authors paper) -> brace_free (published paper) ->
  brace_free (abstract paper) -> Forall brace_free (categories paper) ->
  field_imbalance config paper = 0.
Proof.
  intros Hid Ht Hau Hp Hab Hc. unfold field_imbalance.
  rewrite (brace_free_imbalance _ Hid), (brace_free_imbalance _ Ht),
    (brace_free_imbalance _ Hab).
  rewrite (brace_free_imbalance (join " and " _)),
    (brace_free_imbalance (join ", " _))
    by (apply brace_free_join; [ now split | assumption ]).
  rewrite (brace_free_imbalance (if truthy _ then _ else _))
    by (destruct (truthy _); [ now apply brace_free_take | now split ]).
  destruct (include_urls config), (include_abstract config),
    (include_categories config && _); reflexivity.
Qed.

Lemma append_assoc_r (a b c : string) : (a ++ b) ++ c = a ++ (b ++ c).
Proof. induction a as [ | x a IH]; [ reflexivity | ]. cbn. now rewrite IH. Qed.

(** The imbalance of the texts that do not mention [x], by computation. *)
Ltac literal_imbalances x :=
  repeat match goal with
    | |- context [imbalance ?s] =>
        lazymatch s with
        | context [x] => fail
        | _ => let v := eval vm_compute in (imbalance s) in
               progress change (imbalance s) with v
        end
    end.

Lemma bibtex_entry_imbalance config paper :
  imbalance (bibtex_entry config paper) = field_imbalance config paper.
Proof.
  unfold bibtex_entry, field_imbalance.
  rewrite bibtex_key_replace, !escape_braces_replace. cbv zeta.
  destruct (include_urls config), (include_abstract config),
    (include_categories config), (categories paper) as [ | c cs];
    lazy beta iota delta [andb];
    rewrite !imbalance_app; literal_imbalances paper;
    rewrite imbalance_bibtex_key, ?imbalance_escape_braces; lia.
Qed.

(** C3 (as amended): the BibTeX output is the entries of the papers, one
    per paper, joined by blank lines.  Each entry starts with [@article{],
    the id of the paper with [_] for every [.] and [/], and the title with
    a backslash before each of its braces; the abstract, when it is
    included, is escaped in the same way.  The opening braces of an entry
    outnumber its closing braces by as much as they do in the texts of the
    paper that the entry holds (escaping does not change the counts): the
    two counts are equal when those texts have as many of the one as of
    the other, as when they have no brace. *)
Theorem bibtex_entry_key_escapes_braces (papers : list Paper)
  (config : ExportConfig) :
  _export_bibtex papers config
  = join (nl ++ nl) (map (bibtex_entry config) papers)
  /\ forall paper, In paper papers ->
       (exists rest,
          bibtex_entry config paper
          = "@article{" ++ bibtex_key (id paper) ++ "," ++ nl
            ++ "  title={" ++ escape_braces (title paper) ++ "}," ++ nl
            ++ rest)
       /\ bibtex_key (id paper) = replace "/" "_" (replace "." "_" (id paper))
       /\ braces_escaped false (escape_braces (title paper)) = true
       /\ (include_abstract config = true ->
           braces_escaped false (escape_braces (abstract paper)) = true
           /\ exists before after,
                bibtex_entry config paper
                = before
                  ++ ("," ++ nl ++ "  abstract={"
                      ++ escape_braces (abstract paper) ++ "}")
                  ++ after)
       /\ imbalance (bibtex_entry config paper) = field_imbalance config paper
       /\ (field_imbalance config paper = 0 ->
           count "{" (bibtex_entry config paper)
           = count "}" (bibtex_entry config paper))
       /\ (brace_free (id paper) /\ brace_free (title paper)
           /\ Forall brace_free (authors paper)
           /\ brace_free (published paper) /\ brace_free (abstract paper)
           /\ Forall brace_free (categories paper) ->
           count "{" (bibtex_entry config paper)
           = count "}" (bibtex_entry config paper)).
Proof.
  split; [ reflexivity | ]. intros paper _.
  assert (Hbalanced : field_imbalance config paper = 0 ->
                      count "{" (bibtex_entry config paper)
                      = count "}" (bibtex_entry config paper)).
  { intros Hzero. pose proof (bibtex_entry_imbalance config paper) as H.
    unfold imbalance in H. lia. }
  split; [ | split; [ | split; [ | split; [ | split; [ | split ] ] ] ] ].
  - unfold bibtex_entry.
    rewrite bibtex_key_replace, !escape_braces_replace. cbv zeta.
    destruct (include_urls config), (include_abstract config),
      (include_categories config
       && match categories paper with [] => false | _ :: _ => true end);
      lazy beta iota delta [andb]; rewrite !append_assoc_r;
      eexists; reflexivity.
  - symmetry. apply bibtex_key_replace.
  - apply braces_escaped_escape.
  - intros Habs. split; [ apply braces_escaped_escape | ].
    unfold bibtex_entry.
    rewrite bibtex_key_replace, !escape_braces_replace. cbv zeta.
    rewrite Habs.
    destruct (include_urls config),
      (include_categories config
       && match categories paper with [] => false | _ :: _ => true end);
      lazy beta iota delta [andb];
      match goal with
      | |- exists before after,
             (?E ++ ("," ++ nl ++ "  abstract={" ++ _)) ++ ?R = _ =>
          exists E, R
      | |- exists before after,
             ((?E ++ ("," ++ nl ++ "  abstract={" ++ _)) ++ ?C) ++ ?R = _ =>
          exists E, (C ++ R)
      end;
      rewrite !append_assoc_r; reflexivity.
  - apply bibtex_entry_imbalance.
  - exact Hbalanced.
  - intros (Hid & Ht & Hau & Hp & Hab & Hc).
    apply Hbalanced. now apply brace_free_fields.
Qed.

(** C3, the claim as stated fails: the entry of a paper whose title is an
    opening brace has six opening braces and five closing ones, with or
    without the backslash before the brace of the title. *)
Lemma bibtex_entry_unbalanced :
  let entry :=
    bibtex_entry {| format := "bibtex"; include_abstract := false;
                    include_categories := false; include_urls := false |}
                 sample_braced in
  count "{" entry = 6%nat /\ count "}" entry = 5%nat.
Proof. split; reflexivity. Qed.

(** ** export_papers *)

(** C9: [export_papers] raises exactly when [config.format] is none of
    [bibtex], [json], [csv] and [markdown], and what it raises is then a
    [ValueError]; for each of the four formats it returns the string of
    the exporter of that format.  (Of the operations modelled here it is
    the one whose result can be an exception: the gateway and the finder
    return a value on every run, by the theorems on them, and the parser,
    the analyzers and the four exporters are total functions.) *)
Theorem export_papers_raises_iff_unsupported (papers : list Paper)
  (config : ExportConfig) :
  ((exists e, export_papers papers config = Raise e)
   <-> ~ In (format config) ["bibtex"; "json"; "csv"; "markdown"])
  /\ ((exists text, export_papers papers config = Ok text)
      <-> In (format config) ["bibtex"; "json"; "csv"; "markdown"])
  /\ (format config = "bibtex" ->
      export_papers papers config = Ok (_export_bibtex papers config))
  /\ (format config = "json" ->
      export_papers papers config = Ok (_export_json papers config))
  /\ (format config = "csv" ->
      export_papers papers config = Ok (_export_csv papers config))
  /\ (format config = "markdown" ->
      export_papers papers config = Ok (_export_markdown papers config))
  /\ (~ In (format config) ["bibtex"; "json"; "csv"; "markdown"] ->
      export_papers papers config
      = Raise (Exception "ValueError"
                 ("Unsupported format: " ++ format config))).
Proof.
  unfold export_papers. cbn [In].
  destruct (String.eqb_spec (format config) "bibtex") as [Hb | Hb].
  { rewrite Hb. repeat split; try (intros; reflexivity || discriminate);
      try (intros [e He]; discriminate); try tauto; eauto. }
  destruct (String.eqb_spec (format config) "json") as [Hj | Hj].
  { rewrite Hj. repeat split; try (intros; reflexivity || discriminate);
      try (intros [e He]; discriminate); try tauto; eauto. }
  destruct (String.eqb_spec (format config) "csv") as [Hc | Hc].
  { rewrite Hc. repeat split; try (intros; reflexivity || discriminate);
      try (intros [e He]; discriminate); try tauto; eauto. }
  destruct (String.eqb_spec (format config) "markdown") as [Hm | Hm].
  { rewrite Hm. repeat split; try (intros; reflexivity || discriminate);
      try (intros [e He]; discriminate); try tauto; eauto. }
  repeat split; try congruence; try (intros [x Hx]; discriminate);
    try (intros; reflexivity); eauto; try tauto.
  - intros _ [H | [H | [H | [H | []]]]]; congruence.
  - intros [H | [H | [H | [H | []]]]]; congruence.
Qed.

(** ** The JSON exporter *)

(** Each of the 256 characters is read back from its escape. *)
Lemma scanstring_escape_char c rest :
  scanstring (escape_char c ++ rest) = prepend c (scanstring rest).
Proof.
  destruct c as [[] [] [] [] [] [] [] []]; reflexivity.
Qed.

Lemma scanstring_escape s rest :
  scanstring (escape s ++ str1 DQUOTE ++ rest) = Some (s, rest).
Proof.
  induction s as [ | c s IH]; [ reflexivity | ].
  cbn [escape]. rewrite append_assoc_r, scanstring_escape_char, IH.
  reflexivity.
Qed.

Lemma skip_ws_spaces n s : skip_ws (spaces n ++ s) = skip_ws s.
Proof. induction n as [ | n IH]; [ reflexivity | exact IH ]. Qed.

Lemma skip_ws_newline_indent level s :
  skip_ws (newline_indent level ++ s) = skip_ws s.
Proof.
  unfold newline_indent. cbn [append skip_ws].
  change (is_ws LF) with true. cbv iota. apply skip_ws_spaces.
Qed.

Lemma plain_arr l : plain (JArr l) <-> Forall plain l.
Proof.
  cbn [plain]. induction l as [ | x l IH].
  - split; constructor.
  - rewrite IH. split.
    + intros [H1 H2]. now constructor.
    + intros H. inversion H. now split.
Qed.

Lemma plain_obj l :
  plain (JObj l) <-> NoDup (map fst l) /\ Forall (fun kv => plain (snd kv)) l.
Proof.
  cbn [plain]. apply and_iff_compat_l. induction l as [ | x l IH].
  - split; constructor.
  - rewrite IH. split.
    + intros [H1 H2]. now constructor.
    + intros H. inversion H. now split.
Qed.

Lemma dump_head level v :
  plain v -> exists c t, dump level v = String c t /\ opens_value c = true.
Proof.
  destruct v as [ | [ | ] | n | s | [ | x l] | [ | [k x] l]]; intros H;
    try (do 2 eexists; split; reflexivity).
  destruct H.
Qed.

Lemma skip_ws_opens c t : opens_value c = true -> skip_ws (String c t) = String c t.
Proof.
  unfold opens_value. rewrite !andb_true_iff, !negb_true_iff.
  intros [[H _] _]. cbn [skip_ws]. now rewrite H.
Qed.

Lemma skip_ws_dump level v rest :
  plain v -> skip_ws (dump level v ++ rest) = dump level v ++ rest.
Proof.
  intros H. destruct (dump_head level v H) as (c & t & -> & Hc).
  cbn [append]. now apply skip_ws_opens.
Qed.

Lemma dict_set_fresh {V} k (v : V) acc :
  ~ In k (map fst acc) -> dict_set k v acc = (acc ++ [(k, v)])%list.
Proof.
  induction acc as [ | [k' w] acc IH]; cbn [dict_set map fst In app]; intros H.
  - reflexivity.
  - destruct (String.eqb_spec k' k) as [-> | Hne]; [ tauto | ].
    rewrite IH by tauto. reflexivity.
Qed.

(** The items of a list from one item on, read back by [parse_elements]. *)
Lemma parse_elements_more lvl xs :
  Forall parses_back xs -> Forall plain xs ->
  forall x acc rest fuel,
    parses_back x -> plain x ->
    (items_size (x :: xs) <= fuel)%nat ->
    parse_elements fuel acc
      (dump (S lvl) x ++ more_items (dump (S lvl)) lvl xs ++ rest)
    = Some (JArr (acc ++ x :: xs), rest).
Proof.
  induction xs as [ | y xs IH]; intros Hall Hplain x acc rest fuel Hx Hpx Hfuel;
    (destruct fuel as [ | f]; [ cbn in Hfuel; lia | ]);
    unfold items_size in Hfuel; cbn [map list_sum fold_right] in Hfuel;
    cbn [parse_elements]; rewrite Hx by lia.
  - cbn [more_items]. rewrite append_assoc_r, skip_ws_newline_indent.
    reflexivity.
  - cbn [more_items]. rewrite !append_assoc_r.
    change (skip_ws ("," ++ ?s)) with ("," ++ s). cbn [append]. cbv iota.
    change (Ascii.eqb "," ",") with true. cbv iota.
    rewrite skip_ws_newline_indent.
    inversion Hall; inversion Hplain; subst.
    rewrite skip_ws_dump by assumption.
    rewrite IH; try assumption.
    + now rewrite <- app_assoc.
    + unfold items_size. cbn [map list_sum fold_right]. lia.
Qed.

Lemma encode_member k s :
  encode_string k ++ String ":" (String " " s)
  = String DQUOTE (escape k ++ str1 DQUOTE ++ String ":" (String " " s)).
Proof. unfold encode_string. cbn [append]. now rewrite append_assoc_r. Qed.

(** The members of a dictionary from one member on, read back by
    [parse_members]; no key comes twice, so that each goes last. *)
Lemma parse_members_more lvl kvs :
  Forall (fun kv => parses_back (snd kv)) kvs ->
  Forall (fun kv => plain (snd kv)) kvs ->
  forall k x acc rest fuel,
    parses_back x -> plain x ->
    NoDup (map fst (acc ++ (k, x) :: kvs)%list) ->
    (members_size ((k, x) :: kvs) <= fuel)%nat ->
    parse_members fuel acc
      (encode_string k ++ ": " ++ dump (S lvl) x
       ++ more_members (dump (S lvl)) lvl kvs ++ rest)
    = Some (JObj (acc ++ (k, x) :: kvs), rest).
Proof.
  induction kvs as [ | [k' y] kvs IH];
    intros Hall Hplain k x acc rest fuel Hx Hpx Hnd Hfuel;
    (destruct fuel as [ | f]; [ cbn in Hfuel; lia | ]);
    unfold members_size in Hfuel; cbn [map list_sum fold_right snd] in Hfuel;
    assert (Hk : ~ In k (map fst acc))
      by (rewrite map_app in Hnd; cbn [map fst] in Hnd;
          apply NoDup_remove_2 in Hnd; intros Hin; apply Hnd;
          apply in_or_app; now left);
    cbn [append]; rewrite encode_member; cbn [parse_members];
    change (Ascii.eqb DQUOTE DQUOTE) with true; cbv iota;
    rewrite scanstring_escape;
    cbn [append skip_ws]; change (is_ws ":") with false; cbv iota;
    change (Ascii.eqb ":" ":") with true; cbv iota;
    cbn [skip_ws]; change (is_ws " ") with true; cbv iota;
    rewrite skip_ws_dump by assumption; rewrite Hx by lia;
    rewrite (dict_set_fresh _ _ _ Hk).
  - cbn [more_members]. rewrite append_assoc_r, skip_ws_newline_indent.
    reflexivity.
  - cbn [more_members]. rewrite !append_assoc_r.
    cbn [append skip_ws]. change (is_ws ",") with false. cbv iota.
    change (Ascii.eqb "," ",") with true. cbv iota.
    rewrite skip_ws_newline_indent.
    inversion Hall; inversion Hplain; subst. cbn [snd] in *.
    rewrite encode_member. cbn [skip_ws].
    change (is_ws DQUOTE) with false. cbv iota.
    rewrite <- encode_member.
    change (String ":" (String " " ?s)) with (": " ++ s).
    rewrite IH; try assumption.
    + now rewrite <- app_assoc.
    + now rewrite <- app_assoc.
    + unfold members_size. cbn [map list_sum fold_right snd]. lia.
Qed.

Lemma opens_value_brackets c :
  opens_value c = true -> Ascii.eqb c "]" = false /\ Ascii.eqb c "}" = false.
Proof.
  unfold opens_value. rewrite !andb_true_iff, !negb_true_iff. tauto.
Qed.

Lemma Forall_modus_ponens {A} (P Q : A -> Prop) l :
  Forall (fun a => P a -> Q a) l -> Forall P l -> Forall Q l.
Proof.
  induction 1 as [ | a l Ha Hl IH]; intros HP; [ constructor | ].
  inversion HP; subst. constructor; auto.
Qed.

(** Every plain value is read back from its dump. *)
Lemma parse_value_dump v :
  plain v -> parses_back v.
Proof.
  induction v as [ | b | n | s | l IH | l IH] using json_induction;
    intros Hp lvl rest fuel Hfuel;
    (destruct fuel as [ | f]; [ lia | ]).
  - destruct rest; reflexivity.
  - destruct b, rest; reflexivity.
  - destruct Hp.
  - cbn [dump]. unfold encode_string. cbn [append parse_value].
    change (Ascii.eqb DQUOTE DQUOTE) with true. cbv iota.
    now rewrite append_assoc_r, scanstring_escape.
  - apply plain_arr in Hp. pose proof (Forall_modus_ponens _ _ _ IH Hp) as Hback.
    destruct l as [ | x xs]; [ reflexivity | ].
    change (size (JArr (x :: xs))) with (S (items_size (x :: xs))) in Hfuel.
    cbn [dump]. rewrite !append_assoc_r. cbn [append parse_value].
    change (Ascii.eqb "[" DQUOTE) with false.
    change (Ascii.eqb "[" "[") with true. cbv iota.
    rewrite skip_ws_newline_indent.
    inversion Hback as [ | ? ? Hx Hxs]; inversion Hp as [ | ? ? Hpx Hpxs]; subst.
    rewrite skip_ws_dump by assumption.
    destruct (dump_head (S lvl) x Hpx) as (c & t & Hd & Hc).
    pose proof (parse_elements_more lvl xs Hxs Hpxs x [] rest f Hx Hpx
                  ltac:(lia)) as Hparse.
    rewrite Hd in *. cbn [append] in *.
    destruct (opens_value_brackets c Hc) as [-> _]. exact Hparse.
  - apply plain_obj in Hp. destruct Hp as [Hnd Hp].
    pose proof (Forall_modus_ponens _ _ _ IH Hp) as Hback.
    destruct l as [ | [k x] kvs]; [ reflexivity | ].
    change (size (JObj ((k, x) :: kvs)))
      with (S (members_size ((k, x) :: kvs))) in Hfuel.
    cbn [dump]. rewrite !append_assoc_r. cbn [append parse_value].
    change (Ascii.eqb "{" DQUOTE) with false.
    change (Ascii.eqb "{" "[") with false.
    change (Ascii.eqb "{" "{") with true. cbv iota.
    rewrite skip_ws_newline_indent.
    inversion Hback as [ | ? ? Hx Hxs]; inversion Hp as [ | ? ? Hpx Hpxs]; subst.
    cbn [snd] in *.
    pose proof (parse_members_more lvl kvs Hxs Hpxs k x [] rest f Hx Hpx
                  Hnd ltac:(lia)) as Hparse.
    cbn [append] in Hparse. rewrite encode_member in *.
    cbn [skip_ws]. change (is_ws DQUOTE) with false. cbv iota.
    change (Ascii.eqb DQUOTE "}") with false. cbv iota. exact Hparse.
Qed.

Lemma append_nil_r s : s ++ "" = s.
Proof. induction s as [ | c s IH]; [ reflexivity | ]. cbn. now rewrite IH. Qed.

Lemma length_append s1 s2 :
  String.length (s1 ++ s2) = (String.length s1 + String.length s2)%nat.
Proof. induction s1 as [ | c s1 IH]; [ reflexivity | ]. cbn. now rewrite IH. Qed.

Lemma items_size_cons x xs :
  items_size (x :: xs) = (2 + size x + items_size xs)%nat.
Proof. reflexivity. Qed.

Lemma members_size_cons k x kvs :
  members_size ((k, x) :: kvs) = (2 + size x + members_size kvs)%nat.
Proof. reflexivity. Qed.

(** The fuel that [loads] gives the parser is enough. *)
Lemma size_le_length v :
  plain v -> forall level, (size v <= String.length (dump level v))%nat.
Proof.
  induction v as [ | b | n | s | l IH | l IH] using json_induction;
    intros Hp level.
  - cbn. lia.
  - destruct b; cbn; lia.
  - destruct Hp.
  - cbn. lia.
  - apply plain_arr in Hp. pose proof (Forall_modus_ponens _ _ _ IH Hp) as Hle.
    destruct l as [ | x xs]; [ cbn; lia | ].
    change (size (JArr (x :: xs))) with (S (items_size (x :: xs))).
    cbn [dump]. rewrite !length_append.
    inversion Hle as [ | ? ? Hx Hxs]; subst.
    assert (Hmore : (items_size xs + 2
                     <= String.length (more_items (dump (S level)) level xs))%nat).
    { clear - Hxs. induction xs as [ | y xs IHxs].
      - cbn [more_items]. rewrite length_append.
        cbn [String.length newline_indent]. unfold items_size. cbn. lia.
      - inversion Hxs as [ | ? ? Hy Hys]; subst.
        cbn [more_items]. rewrite !length_append.
        rewrite items_size_cons.
        specialize (IHxs Hys). specialize (Hy (S level)).
        cbn [String.length newline_indent]. lia. }
    specialize (Hx (S level)). rewrite items_size_cons.
    cbn [String.length newline_indent]. lia.
  - apply plain_obj in Hp. destruct Hp as [_ Hp].
    pose proof (Forall_modus_ponens _ _ _ IH Hp) as Hle.
    destruct l as [ | [k x] kvs]; [ cbn; lia | ].
    change (size (JObj ((k, x) :: kvs)))
      with (S (members_size ((k, x) :: kvs))).
    cbn [dump]. rewrite !length_append.
    inversion Hle as [ | ? ? Hx Hxs]; subst. cbn [snd] in Hx.
    assert (Hmore : (members_size kvs + 2
                     <= String.length (more_members (dump (S level)) level kvs))%nat).
    { clear - Hxs. induction kvs as [ | [k' y] kvs IHkvs].
      - cbn [more_members]. rewrite length_append.
        cbn [String.length newline_indent]. unfold members_size. cbn. lia.
      - inversion Hxs as [ | ? ? Hy Hys]; subst. cbn [snd] in Hy.
        cbn [more_members]. rewrite !length_append.
        rewrite members_size_cons.
        specialize (IHkvs Hys). specialize (Hy (S level)).
        cbn [String.length newline_indent]. lia. }
    specialize (Hx (S level)). rewrite members_size_cons.
    cbn [String.length newline_indent]. lia.
Qed.

(** [json.loads(json.dumps(v, indent=2)) == v] *)
Theorem loads_dumps v : plain v -> loads (dumps v) = Some v.
Proof.
  intros Hp. unfold loads, dumps.
  rewrite <- (append_nil_r (dump 0 v)) at 2.
  rewrite skip_ws_dump by assumption.
  rewrite (parse_value_dump v Hp 0%nat "" (S (String.length (dump 0 v)))).
  - reflexivity.
  - pose proof (size_le_length v Hp 0%nat). lia.
Qed.

Lemma plain_strings l : plain (JArr (map JStr l)).
Proof.
  apply plain_arr. induction l as [ | x l IH]; constructor; [ exact I | exact IH ].
Qed.

Lemma plain_json_record config paper : plain (JObj (json_record config paper)).
Proof.
  apply plain_obj. unfold json_record, to_dict, json_strings.
  destruct (include_abstract config), (include_categories config),
    (include_urls config); cbn [negb dict_pop String.eqb Ascii.eqb Bool.eqb];
    (split;
     [ cbn [map fst]; repeat constructor; cbn [In];
       intuition discriminate
     | repeat constructor; cbn [snd];
       try apply plain_strings; destruct (arxiv_url paper); exact I ]).
Qed.

Lemma json_record_matches config paper :
  record_matches config paper (json_record config paper).
Proof.
  unfold record_matches, json_record, to_dict, json_strings.
  destruct (include_abstract config), (include_categories config),
    (include_urls config); repeat split.
Qed.

(** C4: the JSON export of [N] papers, parsed back, is a list of [N]
    records, in the order of the papers; in the record of a paper each
    field that the options do not exclude ([abstract], [categories],
    [arxiv_url] and [pdf_url] can be; [id], [title], [authors] and
    [published] cannot) has the value of that field of the paper, and the
    excluded fields are absent. *)
Theorem export_json_round_trip (papers : list Paper) (config : ExportConfig) :
  exists records : list (dict json),
    loads (_export_json papers config) = Some (JArr (map JObj records))
    /\ List.length records = List.length papers
    /\ Forall2 (record_matches config) papers records.
Proof.
  exists (map (json_record config) papers). split; [ | split ].
  - unfold _export_json. rewrite map_map. apply loads_dumps.
    apply plain_arr. apply Forall_forall. intros v Hv.
    apply in_map_iff in Hv as (paper & <- & _). apply plain_json_record.
  - apply length_map.
  - induction papers as [ | paper papers IH]; constructor;
      [ apply json_record_matches | exact IH ].
Qed.

(** A paper whose texts need every kind of escape, exported and parsed. *)
Example export_json_sample :
  let paper :=
    {| id := "cs/0001001"; title := "Quotes " ++ str1 DQUOTE ++ " and \ ";
       authors := ["J" ++ str1 (chr 233) ++ "r" ++ str1 (chr 244) ++ "me"];
       abstract := "two" ++ nl ++ "lines" ++ str1 TAB;
       published := "2000-01-01"; categories := []; arxiv_url := None;
       pdf_url := "" |} in
  loads (_export_json [paper]
           {| format := "json"; include_abstract := true;
              include_categories := false; include_urls := true |})
  = Some (JArr [JObj [("id", JStr (id paper)); ("title", JStr (title paper));
                      ("authors", JArr (map JStr (authors paper)));
                      ("abstract", JStr (abstract paper));
                      ("published", JStr (published paper));
                      ("arxiv_url", JNull); ("pdf_url", JStr "")]]).
Proof. vm_compute. reflexivity. Qed.

(* ================================================================== *)
(** * Further properties *)
(* ================================================================== *)

(** ** Counting and ranking *)

Lemma occurrences_nonneg k l : 0 <= occurrences k l.
Proof. unfold occurrences. lia. Qed.

Lemma occurrences_cons k x l :
  occurrences k (x :: l) = (if String.eqb x k then 1 else 0) + occurrences k l.
Proof.
  unfold occurrences. cbn [count_occ].
  destruct (string_dec x k) as [-> | Hne].
  - rewrite String.eqb_refl. lia.
  - apply String.eqb_neq in Hne. rewrite Hne. lia.
Qed.

Lemma occurrences_pos k l : In k l <-> 1 <= occurrences k l.
Proof.
  unfold occurrences. rewrite (count_occ_In string_dec). lia.
Qed.

(** The invariant of a loop that counts keys. *)
Lemma count_keys_from l :
  forall d : dict Z,
    NoDup (keys d) ->
    NoDup (keys (fold_left count_key l d))
    /\ forall k,
         dict_lookup k (fold_left count_key l d)
         = merge_count (dict_lookup k d) (occurrences k l).
Proof.
  induction l as [ | x l IH]; intros d Hnd.
  - split; [ exact Hnd | ]. intros k. unfold occurrences. simpl.
    destruct (dict_lookup k d); simpl; [ f_equal; lia | reflexivity ].
  - cbn [fold_left].
    assert (Hnd' : NoDup (keys (count_key d x))).
    { unfold count_key. now apply NoDup_keys_dict_set. }
    destruct (IH _ Hnd') as [Hk Hl]. split; [ exact Hk | ].
    intros k. rewrite Hl, occurrences_cons.
    pose proof (occurrences_nonneg k l) as Hc.
    unfold count_key.
    destruct (String.eqb_spec x k) as [Heq | Hne].
    + subst k. rewrite dict_lookup_set_same. unfold dict_get.
      destruct (dict_lookup x d); cbn [merge_count].
      * f_equal. lia.
      * destruct (Z.eqb_spec (1 + occurrences x l) 0); [ lia | f_equal; lia ].
    + now rewrite dict_lookup_set_other.
Qed.

Lemma Counter_spec l :
  NoDup (keys (Counter l))
  /\ forall k n, In (k, n) (Counter l) <-> (n = occurrences k l /\ 1 <= n).
Proof.
  destruct (count_keys_from l [] (NoDup_nil _)) as [Hnd Hl].
  split; [ exact Hnd | ]. intros k n. fold (Counter l) in Hl, Hnd.
  rewrite <- (dict_lookup_In k n (Counter l) Hnd), Hl.
  cbn [dict_lookup merge_count].
  pose proof (occurrences_nonneg k l).
  destruct (Z.eqb_spec (occurrences k l) 0) as [E | E].
  - split; [ discriminate | lia ].
  - split; [ intros [= <-]; lia | intros [-> _]; reflexivity ].
Qed.

Lemma fold_left_flat_map {A B C} (f : A -> B -> A) (g : C -> list B) l :
  forall a,
    fold_left (fun a x => fold_left f (g x) a) l a
    = fold_left f (flat_map g l) a.
Proof.
  induction l as [ | x l IH]; intros a; [ reflexivity | ].
  cbn [fold_left flat_map]. now rewrite IH, fold_left_app.
Qed.

Lemma author_counts_Counter papers :
  author_counts_of papers = Counter (flat_map authors papers).
Proof. unfold author_counts_of, Counter. apply fold_left_flat_map. Qed.

Lemma extend_from {A B} (g : A -> list B) l :
  forall acc,
    fold_left (fun acc x => (acc ++ g x)%list) l acc
    = (acc ++ flat_map g l)%list.
Proof.
  induction l as [ | x l IH]; intros acc; cbn [fold_left flat_map].
  - now rewrite app_nil_r.
  - now rewrite IH, app_assoc.
Qed.

Lemma all_words_flat_map papers :
  all_words_of papers = flat_map filtered_words papers.
Proof. unfold all_words_of. now rewrite extend_from. Qed.

Lemma insert_by_count_Permutation x l :
  Permutation (insert_by_count x l) (x :: l).
Proof.
  induction l as [ | y l IH]; cbn [insert_by_count]; [ reflexivity | ].
  destruct (snd x <? snd y); [ | reflexivity ].
  rewrite IH. apply perm_swap.
Qed.

Lemma sorted_by_count_Permutation l : Permutation (sorted_by_count l) l.
Proof.
  induction l as [ | x l IH]; cbn [sorted_by_count fold_right]; [ reflexivity | ].
  fold (sorted_by_count l). rewrite insert_by_count_Permutation.
  now apply perm_skip.
Qed.

Lemma insert_by_count_decreasing x l :
  by_decreasing_count l -> by_decreasing_count (insert_by_count x l).
Proof.
  unfold by_decreasing_count.
  induction 1 as [ | y l Hs IH Hy]; cbn [insert_by_count].
  - constructor; constructor.
  - destruct (Z.ltb_spec (snd x) (snd y)) as [Hlt | Hge].
    + constructor; [ exact IH | ].
      apply Forall_forall. intros z Hz.
      apply (Permutation_in _ (insert_by_count_Permutation x l)) in Hz.
      destruct Hz as [<- | Hz]; [ lia | ].
      rewrite Forall_forall in Hy. now apply Hy.
    + constructor; [ now constructor | ].
      constructor; [ lia | ].
      rewrite Forall_forall in Hy |- *. intros z Hz.
      specialize (Hy z Hz). lia.
Qed.

Lemma sorted_by_count_decreasing l : by_decreasing_count (sorted_by_count l).
Proof.
  induction l as [ | x l IH]; cbn [sorted_by_count fold_right].
  - constructor.
  - now apply insert_by_count_decreasing.
Qed.

(** The sort is stable: the items of one count keep their order. *)
Lemma with_count_insert n x l :
  by_decreasing_count l ->
  with_count n (insert_by_count x l) = with_count n (x :: l).
Proof.
  unfold by_decreasing_count, with_count.
  induction 1 as [ | y l Hs IH Hy]; cbn [insert_by_count]; [ reflexivity | ].
  destruct (Z.ltb_spec (snd x) (snd y)) as [Hlt | Hge]; [ | reflexivity ].
  cbn [filter] in IH |- *. rewrite IH.
  destruct (Z.eqb_spec (snd x) n) as [Hx | Hx];
    destruct (Z.eqb_spec (snd y) n) as [Hy' | Hy']; try reflexivity.
  lia.
Qed.

Lemma with_count_sorted n l :
  with_count n (sorted_by_count l) = with_count n l.
Proof.
  induction l as [ | x l IH]; [ reflexivity | ].
  cbn [sorted_by_count fold_right]. fold (sorted_by_count l).
  rewrite with_count_insert by apply sorted_by_count_decreasing.
  unfold with_count in *. cbn [filter]. now rewrite IH.
Qed.

Lemma In_firstn_of {A} (x : A) n l : In x (firstn n l) -> In x l.
Proof.
  revert n. induction l as [ | y l IH]; intros [ | n] H; try contradiction.
  cbn [firstn] in H. destruct H as [-> | H]; [ now left | right; eauto ].
Qed.

Lemma In_skipn_of {A} (x : A) n l : In x (skipn n l) -> In x l.
Proof.
  revert n. induction l as [ | y l IH]; intros [ | n] H; try assumption.
  cbn [skipn] in H. right. eauto.
Qed.

Lemma decreasing_firstn_skipn n l x y :
  by_decreasing_count l ->
  In x (firstn n l) -> In y (skipn n l) -> snd y <= snd x.
Proof.
  unfold by_decreasing_count. intros Hs. revert n.
  induction Hs as [ | z l Hs IH Hz]; intros n Hx Hy.
  - destruct n; contradiction.
  - destruct n as [ | n]; [ contradiction | ].
    cbn [firstn skipn] in Hx, Hy. destruct Hx as [<- | Hx].
    + rewrite Forall_forall in Hz. apply Hz.
      now apply In_skipn_of with n.
    + now apply IH with n.
Qed.
Lemma NoDup_firstn_of {A} n (l : list A) : NoDup l -> NoDup (firstn n l).
Proof.
  intros H. revert n. induction H as [ | x l Hx Hnd IH]; intros [ | n];
    cbn [firstn]; try constructor.
  - intros Hin. apply Hx. now apply In_firstn_of with n.
  - apply IH.
Qed.

Lemma decreasing_firstn n l :
  by_decreasing_count l -> by_decreasing_count (firstn n l).
Proof.
  unfold by_decreasing_count. intros H. revert n.
  induction H as [ | x l Hs IH Hx]; intros [ | n]; cbn [firstn];
    try constructor.
  - apply IH.
  - now apply Forall_firstn_of.
Qed.

Lemma keys_count_keys_from l :
  forall d : dict Z,
    keys (fold_left count_key l d)
    = fold_left (fun seen k => if mem k seen then seen else (seen ++ [k])%list)
                l (keys d).
Proof.
  induction l as [ | x l IH]; intros d; [ reflexivity | ].
  cbn [fold_left]. rewrite IH. unfold count_key.
  now rewrite keys_dict_set.
Qed.

(** What [most_common] returns for the counts of a list. *)
Lemma most_common_spec n l :
  let top := most_common n (Counter l) in
  (List.length top <= n)%nat
  /\ NoDup (map fst top)
  /\ by_decreasing_count top
  /\ (forall k c, In (k, c) top -> c = occurrences k l /\ 1 <= c)
  /\ (forall k, In k l -> ~ In k (map fst top) ->
        List.length top = n
        /\ forall k' c, In (k', c) top -> occurrences k l <= c).
Proof.
  cbv zeta. unfold most_common.
  destruct (Counter_spec l) as [Hnd Hin].
  pose proof (sorted_by_count_Permutation (Counter l)) as Hp.
  pose proof (sorted_by_count_decreasing (Counter l)) as Hs.
  set (ranking := sorted_by_count (Counter l)) in *.
  split; [ apply firstn_le_length | ].
  split.
  { rewrite <- firstn_map. apply NoDup_firstn_of.
    eapply Permutation_NoDup; [ | exact Hnd ].
    apply Permutation_map. now apply Permutation_sym. }
  split; [ now apply decreasing_firstn | ].
  split.
  { intros k c H. apply Hin. apply (Permutation_in _ Hp).
    now apply In_firstn_of with n. }
  intros k Hk Hout.
  assert (Hrank : In (k, occurrences k l) ranking).
  { apply (Permutation_in _ (Permutation_sym Hp)). apply Hin.
    split; [ reflexivity | now apply occurrences_pos ]. }
  rewrite <- (firstn_skipn n ranking) in Hrank.
  apply in_app_or in Hrank as [Hfirst | Hrest].
  { exfalso. apply Hout. now apply (in_map fst) in Hfirst. }
  split.
  - rewrite length_firstn. apply Nat.min_l.
    destruct (Nat.le_gt_cases n (List.length ranking)) as [Hle | Hgt];
      [ exact Hle | ].
    rewrite skipn_all2 in Hrest by lia. contradiction.
  - intros k' c Hin'.
    apply (decreasing_firstn_skipn n ranking (k', c) (k, occurrences k l) Hs Hin' Hrest).
Qed.

(** The counts of equal value stand in the ranking as in the counter. *)
Lemma most_common_ties n c (counter : dict Z) :
  exists rest,
    with_count c counter = (with_count c (most_common n counter) ++ rest)%list.
Proof.
  unfold most_common.
  exists (with_count c (skipn n (sorted_by_count counter))).
  unfold with_count. rewrite <- filter_app, firstn_skipn.
  symmetry. apply with_count_sorted.
Qed.

Lemma keys_Counter l : keys (Counter l) = first_occurrences l.
Proof. unfold Counter. now rewrite keys_count_keys_from. Qed.

(** X1: the ranking of [_analyze_top_authors] lists at most ten authors,
    each once, by decreasing count; the count of an author is the number
    of times the name stands in the author lists of the papers (a name
    that stands twice in one list counts twice); and an author who is left
    out has no higher a count than any of the ten who are listed. *)
Theorem top_authors_ranking (papers : list Paper) :
  let names := flat_map authors papers in
  let top := top_authors_of papers in
  _analyze_top_authors papers
  = [("top_authors",
      JArr (map (fun item => JObj [("author", JStr (fst item));
                                   ("paper_count", JInt (snd item))]) top))]
  /\ (List.length top <= 10)%nat
  /\ NoDup (map fst top)
  /\ by_decreasing_count top
  /\ (forall author count,
        In (author, count) top ->
        count = occurrences author names /\ 1 <= count)
  /\ (forall author,
        In author names -> ~ In author (map fst top) ->
        List.length top = 10%nat
        /\ forall author' count,
             In (author', count) top -> occurrences author names <= count).
Proof.
  cbv zeta. split; [ reflexivity | ].
  unfold top_authors_of. rewrite author_counts_Counter.
  exact (most_common_spec 10 (flat_map authors papers)).
Qed.

(** X2: authors with the same number of papers are listed in the order in
    which their names first appear in the papers: the counts are kept in
    the order of the first appearances, and for every count the listed
    authors who have it are the first of those who have it. *)
Theorem top_authors_ties_by_first_appearance (papers : list Paper)
  (count : Z) :
  keys (author_counts_of papers) = first_occurrences (flat_map authors papers)
  /\ exists rest,
       with_count count (author_counts_of papers)
       = (with_count count (top_authors_of papers) ++ rest)%list.
Proof.
  split.
  - rewrite author_counts_Counter. apply keys_Counter.
  - apply (most_common_ties 10).
Qed.

(** ** The keywords of titles *)

Lemma all_chars_app p s1 s2 :
  all_chars p (s1 ++ s2) = all_chars p s1 && all_chars p s2.
Proof.
  induction s1 as [ | c s1 IH]; [ reflexivity | ].
  cbn [append all_chars]. rewrite IH. now rewrite andb_assoc.
Qed.

Lemma all_chars_impl (p q : ascii -> bool) s :
  (forall c, p c = true -> q c = true) ->
  all_chars p s = true -> all_chars q s = true.
Proof.
  intros Hpq. induction s as [ | c s IH]; [ reflexivity | ].
  cbn [all_chars]. intros H. apply andb_true_iff in H as [Hc Hs].
  now rewrite (Hpq c Hc), IH.
Qed.

Lemma findall_words_from_long s :
  forall run, Forall (fun w => is_long_word w = true) (findall_words_from run s).
Proof.
  induction s as [ | c s IH]; intros run; cbn [findall_words_from].
  - destruct (is_long_word run) eqn:E; repeat constructor. exact E.
  - destruct (word_char c); [ apply IH | ].
    destruct (is_long_word run) eqn:E; [ constructor; [ exact E | ] | ]; apply IH.
Qed.

Lemma findall_words_from_chars p s :
  forall run,
    all_chars p run = true -> all_chars p s = true ->
    Forall (fun w => all_chars p w = true) (findall_words_from run s).
Proof.
  induction s as [ | c s IH]; intros run Hrun Hs; cbn [findall_words_from].
  - destruct (is_long_word run); repeat constructor. exact Hrun.
  - cbn [all_chars] in Hs. apply andb_true_iff in Hs as [Hc Hs].
    destruct (word_char c).
    + apply IH; [ | exact Hs ].
      rewrite all_chars_app, Hrun. cbn [str1 all_chars]. now rewrite Hc.
    + destruct (is_long_word run); [ constructor; [ exact Hrun | ] | ];
        now apply IH.
Qed.

Lemma lower_char_not_upper c : upper_letter (lower_char c) = false.
Proof. destruct c as [[] [] [] [] [] [] [] []]; reflexivity. Qed.

Lemma lower_not_upper s :
  all_chars (fun c => negb (upper_letter c)) (lower s) = true.
Proof.
  induction s as [ | c s IH]; [ reflexivity | ].
  cbn [lower all_chars]. now rewrite lower_char_not_upper, IH.
Qed.

Lemma lower_letter_of c :
  ascii_letter c = true -> upper_letter c = false -> lower_letter c = true.
Proof.
  unfold ascii_letter, upper_letter, lower_letter.
  intros H Hu. rewrite Hu in H. exact H.
Qed.

Lemma all_chars_both p q s :
  all_chars p s = true -> all_chars q s = true ->
  all_chars (fun c => p c && q c) s = true.
Proof.
  induction s as [ | c s IH]; [ reflexivity | ].
  cbn [all_chars]. intros Hp Hq.
  apply andb_true_iff in Hp as [Hp1 Hp2]. apply andb_true_iff in Hq as [Hq1 Hq2].
  now rewrite Hp1, Hq1, IH.
Qed.

Lemma filtered_words_shaped paper :
  Forall keyword_shaped (filtered_words paper).
Proof.
  unfold filtered_words. cbv zeta. apply Forall_forall. intros w Hw.
  apply filter_In in Hw as [Hw Hstop].
  pose proof (findall_words_from_long (lower (title paper)) "") as Hlong.
  pose proof (findall_words_from_chars _ (lower (title paper)) ""
                eq_refl (lower_not_upper (title paper))) as Hlow.
  rewrite Forall_forall in Hlong, Hlow.
  specialize (Hlong w Hw). specialize (Hlow w Hw).
  unfold is_long_word in Hlong. apply andb_true_iff in Hlong as [Hlen Hlet].
  repeat split.
  - now apply Nat.leb_le in Hlen.
  - apply all_chars_impl with (fun c => ascii_letter c && negb (upper_letter c)).
    + intros c Hc. apply andb_true_iff in Hc as [H1 H2].
      apply lower_letter_of; [ exact H1 | ]. now apply negb_true_iff in H2.
    + now apply all_chars_both.
  - now apply negb_true_iff in Hstop.
Qed.

(** X3: the ranking of [_analyze_keyword_frequency] lists at most twenty
    words, each once, by decreasing frequency; the frequency of a word is
    the number of times it is found in the titles; a word that is left out
    is no more frequent than any of the twenty that are listed. *)
Theorem keyword_frequency_ranking (papers : list Paper) :
  let words := flat_map filtered_words papers in
  let top := word_freq_of papers in
  _analyze_keyword_frequency papers
  = [("top_keywords",
      JArr (map (fun item => JObj [("keyword", JStr (fst item));
                                   ("frequency", JInt (snd item))]) top))]
  /\ (List.length top <= 20)%nat
  /\ NoDup (map fst top)
  /\ by_decreasing_count top
  /\ (forall word freq,
        In (word, freq) top -> freq = occurrences word words /\ 1 <= freq)
  /\ (forall word,
        In word words -> ~ In word (map fst top) ->
        List.length top = 20%nat
        /\ forall word' freq,
             In (word', freq) top -> occurrences word words <= freq).
Proof.
  cbv zeta. split; [ reflexivity | ].
  unfold word_freq_of. rewrite all_words_flat_map.
  exact (most_common_spec 20 (flat_map filtered_words papers)).
Qed.

(** X4: every keyword that [_analyze_keyword_frequency] reports is made of
    four lower-case ASCII letters or more, and of nothing else, and is no
    stop word. *)
Theorem keywords_are_long_lowercase_words (papers : list Paper) :
  Forall (fun item => keyword_shaped (fst item)) (word_freq_of papers).
Proof.
  apply Forall_forall. intros [w n] Hin. cbn [fst].
  destruct (most_common_spec 20 (all_words_of papers)) as (_ & _ & _ & Hc & _).
  destruct (Hc w n Hin) as [-> Hpos].
  apply occurrences_pos in Hpos. rewrite all_words_flat_map in Hpos.
  apply in_flat_map in Hpos as (paper & _ & Hw).
  pose proof (filtered_words_shaped paper) as Hs.
  rewrite Forall_forall in Hs. now apply Hs.
Qed.

(** ** analyze_trends *)

Section TrendProperties.

Variable fromstring : string -> result ET.Element.
Variable http : string -> result Response.
Variable status_error_text : Response -> string.
Variable datetime : Type.
Variable now : datetime.
Variable minus_days : datetime -> Z -> datetime.
Variable strftime_Ymd : datetime -> string.

Local Abbreviation analyze_trends' :=
  (analyze_trends fromstring http status_error_text
     datetime now minus_days strftime_Ymd).
Local Abbreviation trend_query' :=
  (trend_query datetime now minus_days strftime_Ymd).
Local Abbreviation outcome_of query url :=
  (search_outcome fromstring status_error_text query (http url)).
Local Abbreviation api_search := (search fromstring http status_error_text).

Lemma analyze_trends_run category time_period analysis_type t :
  let query := trend_query' category time_period in
  let url := search_url query 100 "submittedDate" in
  analyze_trends' category time_period analysis_type t
  = (Ok (let results := try_except (outcome_of query url) (search_failed query) in
         if truthy_opt (error results)
         then {| category := category; time_period := time_period;
                 analysis_type := analysis_type; total_papers := 0;
                 data := []; trend_error := error results |}
         else {| category := category; time_period := time_period;
                 analysis_type := analysis_type;
                 total_papers := Z.of_nat (List.length (papers results));
                 data := trend_data analysis_type (papers results);
                 trend_error := None |}),
     (t ++ [url])%list).
Proof.
  cbv zeta. unfold analyze_trends, try_catch, bind. rewrite search_run.
  destruct (truthy_opt _); [ reflexivity | ].
  unfold ret, trend_data, _analyze_publication_count, counts_data.
  cbn [map fst snd].
  destruct (String.eqb analysis_type "publication_count"); [ reflexivity | ].
  destruct (String.eqb analysis_type "top_authors"); [ reflexivity | ].
  destruct (String.eqb analysis_type "keyword_frequency"); reflexivity.
Qed.

(** X5: [analyze_trends] never raises, and its requests are those of its
    one call of [search]: a search for at most 100 papers of the category
    submitted in the period, for which [search] builds a URL that asks for
    the newest first.  The result repeats the three arguments.  A period
    that is none of the four of the table is taken as three months. *)
Theorem analyze_trends_one_search (cat period kind : string) :
  let query := trend_query' cat period in
  exists r : TrendAnalysis,
    fst (run (analyze_trends' cat period kind)) = Ok r
    /\ snd (run (analyze_trends' cat period kind))
       = snd (run (api_search query 100 "submittedDate"))
    /\ search_url query 100 "submittedDate"
       = base_url ++ "?search_query=" ++ quote_plus query
         ++ "&start=0&max_results=100&sortBy=submittedDate&sortOrder=descending"
    /\ category r = cat
    /\ time_period r = period
    /\ analysis_type r = kind
    /\ query
       = "cat:" ++ cat ++ " AND submittedDate:["
         ++ strftime_Ymd (minus_days now (dict_get period_days period 90))
         ++ " TO " ++ strftime_Ymd now ++ "]"
    /\ (dict_lookup period period_days = None ->
        query = trend_query' cat "3_months").
Proof.
  cbv zeta. unfold run. rewrite analyze_trends_run, search_run. cbv zeta.
  cbn [fst snd].
  eexists. split; [ reflexivity | ].
  split; [ reflexivity | ].
  split; [ reflexivity | ].
  split; [ now destruct (truthy_opt _) | ].
  split; [ now destruct (truthy_opt _) | ].
  split; [ now destruct (truthy_opt _) | ].
  split; [ reflexivity | ].
  intros Hnone. unfold trend_query, dict_get. now rewrite Hnone.
Qed.

(** X6: what [analyze_trends] reports.  When the search succeeded, the
    count of papers is the number of papers found, there is no error and
    the data are those of the analysis asked for, or the empty dictionary
    when the type of analysis is none of the three.  When the search failed
    with a message, the count is 0, the data are empty and the error is
    that message.  When it failed with an empty message, no error is
    reported: the result is that of a search which found no paper.  So an
    error that is reported is never the empty string. *)
Theorem analyze_trends_reports (cat period kind : string) :
  let query := trend_query' cat period in
  let url := search_url query 100 "submittedDate" in
  exists r : TrendAnalysis,
    fst (run (analyze_trends' cat period kind)) = Ok r
    /\ (forall results,
          outcome_of query url = Ok results ->
          total_papers r = Z.of_nat (List.length (papers results))
          /\ trend_error r = None
          /\ data r = trend_data kind (papers results))
    /\ (forall e,
          outcome_of query url = Raise e -> exn_str e <> "" ->
          total_papers r = 0 /\ data r = []
          /\ trend_error r = Some (exn_str e))
    /\ (forall e,
          outcome_of query url = Raise e -> exn_str e = "" ->
          total_papers r = 0 /\ data r = trend_data kind []
          /\ trend_error r = None)
    /\ (mem kind ["publication_count"; "top_authors";
                           "keyword_frequency"] = false ->
        data r = [])
    /\ trend_error r <> Some "".
Proof.
  cbv zeta. unfold run. rewrite analyze_trends_run. cbv zeta. cbn [fst].
  eexists. split; [ reflexivity | ].
  destruct (search_outcome _ _ _ _) as [results | e] eqn:E; cbn [try_except].
  - rewrite (search_outcome_ok _ _ _ _ _ E). cbn [truthy_opt].
    split; [ | split; [ | split; [ | split ] ] ].
    + intros results' [= <-]. repeat split.
    + discriminate.
    + discriminate.
    + intros Hm. cbn [mem existsb] in Hm.
      apply orb_false_iff in Hm as [H1 Hm].
      apply orb_false_iff in Hm as [H2 Hm].
      apply orb_false_iff in Hm as [H3 _].
      cbn [data]. unfold trend_data. now rewrite H1, H2, H3.
    + discriminate.
  - cbn [search_failed error truthy_opt papers].
    destruct (exn_str e) as [ | c msg] eqn:Em; cbn [truthy].
    + split; [ discriminate | ].
      split; [ intros e' [= <-] Hne; now rewrite Em in Hne | ].
      split; [ intros e' [= <-] _; repeat split | ].
      split; [ | discriminate ].
      intros Hm. cbn [mem existsb] in Hm.
      apply orb_false_iff in Hm as [H1 Hm].
      apply orb_false_iff in Hm as [H2 Hm].
      apply orb_false_iff in Hm as [H3 _].
      cbn [data]. unfold trend_data. now rewrite H1, H2, H3.
    + split; [ discriminate | ].
      split; [ intros e' [= <-] _; rewrite Em; repeat split | ].
      split; [ intros e' [= <-] Hemp; now rewrite Em in Hemp | ].
      split; [ reflexivity | discriminate ].
Qed.

End TrendProperties.

(** ** The handlers of the server *)

Section ServerProperties.

Variable fromstring : string -> result ET.Element.
Variable http : string -> result Response.
Variable status_error_text : Response -> string.

Local Abbreviation api_search := (search fromstring http status_error_text).
Local Abbreviation api_get_paper :=
  (get_paper fromstring http status_error_text).
Local Abbreviation search_arxiv' :=
  (Server.search_arxiv fromstring http status_error_text).
Local Abbreviation search_by_author' :=
  (Server.search_by_author fromstring http status_error_text).
Local Abbreviation search_by_category' :=
  (Server.search_by_category fromstring http status_error_text).
Local Abbreviation fetch_papers' :=
  (Server.fetch_papers fromstring http status_error_text).
Local Abbreviation server_export_papers :=
  (Server.export_papers fromstring http status_error_text).
Local Abbreviation server_find_related_papers :=
  (Server.find_related_papers fromstring http status_error_text).
Local Abbreviation search_result_of' :=
  (search_result_of fromstring http status_error_text).
Local Abbreviation paper_of_id' :=
  (paper_of_id fromstring http status_error_text).

Lemma search_result_counts q max_results sort_by :
  total_results (search_result_of' q max_results sort_by)
  = Z.of_nat (List.length (papers (search_result_of' q max_results sort_by)))
  /\ query (search_result_of' q max_results sort_by) = q.
Proof.
  unfold search_result_of, search_outcome.
  destruct (http _) as [response | e]; [ | now split ].
  destruct (raise_for_status _ _); now split.
Qed.

Lemma search_arxiv_run query max_results sort_by t :
  search_arxiv' query max_results sort_by t
  = (Ok (let results := search_result_of' query max_results sort_by in
         [("query", JStr query);
          ("total_results", JInt (total_results results));
          ("papers", Server.paper_dicts (papers results));
          ("error", Server.optional_str (error results))]),
     (t ++ [search_url query max_results sort_by])%list).
Proof.
  unfold Server.search_arxiv, try_catch, bind. now rewrite search_run.
Qed.

Lemma get_paper_of_id arxiv_id t :
  api_get_paper arxiv_id t
  = (Ok (paper_of_id' arxiv_id), (t ++ [id_list_url arxiv_id])%list).
Proof.
  unfold paper_of_id, run. now rewrite !get_paper_run.
Qed.

Lemma fetch_papers_run arxiv_ids :
  forall papers t,
    fetch_papers' arxiv_ids papers t
    = (Ok (papers ++ found_papers (map paper_of_id' arxiv_ids))%list,
       (t ++ map id_list_url arxiv_ids)%list).
Proof.
  induction arxiv_ids as [ | arxiv_id rest IH]; intros papers t.
  - cbn. now rewrite !app_nil_r.
  - cbn [Server.fetch_papers]. unfold bind. rewrite get_paper_of_id.
    rewrite IH. cbn [map found_papers flat_map].
    fold (found_papers (map paper_of_id' rest)).
    destruct (paper_of_id' arxiv_id); now rewrite <- !app_assoc.
Qed.
(** X7: the handler [search_arxiv] never raises, and its requests are
    those of its one call of [search]; its answer always holds the four
    keys [query], [total_results], [papers] and [error], in that order,
    and [total_results] is the number of papers listed; when [error] is
    not null no paper is listed. *)
Theorem search_arxiv_answer (query : string) (max_results : Z)
  (sort_by : string) :
  exists (found : list Paper) (err : option string),
    fst (run (search_arxiv' query max_results sort_by))
    = Ok [("query", JStr query);
          ("total_results", JInt (Z.of_nat (List.length found)));
          ("papers", JArr (map (fun paper => JObj (to_dict paper)) found));
          ("error", match err with Some msg => JStr msg | None => JNull end)]
    /\ snd (run (search_arxiv' query max_results sort_by))
       = snd (run (api_search query max_results sort_by))
    /\ (err <> None -> found = []).
Proof.
  exists (papers (search_result_of' query max_results sort_by)),
         (error (search_result_of' query max_results sort_by)).
  unfold run. rewrite search_arxiv_run, search_run. cbv zeta. cbn [fst snd].
  destruct (search_result_counts query max_results sort_by) as [-> _].
  split; [ reflexivity | ]. split; [ reflexivity | ].
  unfold search_result_of.
  destruct (search_outcome _ _ _ _) as [r | e] eqn:E; cbn [try_except].
  - rewrite (search_outcome_ok _ _ _ _ _ E). congruence.
  - reflexivity.
Qed.

Lemma quote_plus_app s1 s2 :
  quote_plus (s1 ++ s2) = quote_plus s1 ++ quote_plus s2.
Proof.
  induction s1 as [ | c s1 IH]; [ reflexivity | ].
  cbn [append quote_plus]. now rewrite IH, append_assoc_r.
Qed.

(** X8: [search_by_author] and [search_by_category] never raise, and
    their requests are those of one call of [search]: for the author's
    name between double quotes and behind [au:], newest submissions
    first, and for the category behind [cat:], in the order that goes with
    the given [sort_by].  In the URL that [search] builds the query is
    encoded, the quotes and the colon with it. *)
Theorem author_and_category_requests (name : string) (max_results : Z)
  (sort_by : string) :
  (exists answer,
     fst (run (search_by_author' name max_results)) = Ok answer
     /\ snd (run (search_by_author' name max_results))
        = snd (run (api_search ("au:" ++ str1 DQUOTE ++ name ++ str1 DQUOTE)
                      max_results "submittedDate"))
     /\ search_url ("au:" ++ str1 DQUOTE ++ name ++ str1 DQUOTE)
          max_results "submittedDate"
        = base_url ++ "?search_query=au%3A%22" ++ quote_plus name
          ++ "%22&start=0&max_results=" ++ str_of_Z max_results
          ++ "&sortBy=submittedDate&sortOrder=descending"
     /\ dict_lookup "query" answer
        = Some (JStr ("au:" ++ str1 DQUOTE ++ name ++ str1 DQUOTE)))
  /\ (exists answer,
        fst (run (search_by_category' name max_results sort_by)) = Ok answer
        /\ snd (run (search_by_category' name max_results sort_by))
           = snd (run (api_search ("cat:" ++ name) max_results sort_by))
        /\ search_url ("cat:" ++ name) max_results sort_by
           = base_url ++ "?search_query=cat%3A" ++ quote_plus name
             ++ "&start=0&max_results=" ++ str_of_Z max_results
             ++ "&sortBy=" ++ sort_by ++ "&sortOrder="
             ++ (if String.eqb sort_by "relevance" then "ascending"
                 else "descending")
        /\ dict_lookup "query" answer = Some (JStr ("cat:" ++ name))).
Proof.
  split.
  - unfold run, Server.search_by_author, try_catch.
    rewrite search_arxiv_run, search_run. cbn [fst snd].
    eexists. split; [ reflexivity | ].
    split; [ reflexivity | ].
    split; [ | reflexivity ].
    unfold search_url. cbv zeta. rewrite !quote_plus_app.
    change (quote_plus "au:") with "au%3A".
    change (quote_plus (str1 DQUOTE)) with "%22".
    rewrite !append_assoc_r. reflexivity.
  - unfold run, Server.search_by_category, try_catch.
    rewrite search_arxiv_run, search_run. cbn [fst snd].
    eexists. split; [ reflexivity | ].
    split; [ reflexivity | ].
    split; [ | reflexivity ].
    unfold search_url. cbv zeta. rewrite !quote_plus_app.
    change (quote_plus "cat:") with "cat%3A".
    rewrite !append_assoc_r.
    destruct (String.eqb sort_by "relevance"); reflexivity.
Qed.

(** X9: the handler [find_related_papers] never raises.  When the lookup
    of the seed gives no paper it answers with the error
    [Could not find original paper] after that one request, and makes no
    search.  Otherwise it makes the search of the finder as its second
    request, and answers with the seed, the related papers, none of which
    has the id of the seed, and their number. *)
Theorem find_related_handler_requests (arxiv_id : string) (max_results : Z) :
  exists answer requests,
    run (server_find_related_papers arxiv_id max_results)
    = (Ok answer, requests)
    /\ match paper_of_id' arxiv_id with
       | None =>
           requests = [id_list_url arxiv_id]
           /\ answer = [("error", JStr "Could not find original paper");
                        ("papers", JArr [])]
       | Some seed =>
           requests = [id_list_url arxiv_id;
                       search_url (related_query seed) (max_results + 5)
                         "relevance"]
           /\ exists related,
                answer
                = [("original_paper", JObj (to_dict seed));
                   ("related_papers",
                    JArr (map (fun paper => JObj (to_dict paper)) related));
                   ("total_found", JInt (Z.of_nat (List.length related)))]
                /\ Forall (fun paper => id paper <> id seed) related
       end.
Proof.
  unfold run, Server.find_related_papers, try_catch, bind.
  rewrite get_paper_of_id.
  destruct (paper_of_id' arxiv_id) as [seed | ].
  - rewrite find_related_papers_run. cbn [app].
    eexists. eexists. split; [ reflexivity | ].
    split; [ reflexivity | ].
    eexists. split; [ reflexivity | ].
    apply Forall_slice_to. apply Forall_forall. intros p Hp.
    apply filter_In in Hp as [_ Hp]. apply negb_true_iff in Hp.
    now apply String.eqb_neq in Hp.
  - eexists. eexists. split; [ reflexivity | ]. now split.
Qed.

Lemma server_export_papers_run arxiv_ids fmt with_abstract t :
  server_export_papers arxiv_ids fmt with_abstract t
  = (Ok match found_papers (map paper_of_id' arxiv_ids) with
        | [] => "Error: No valid papers found for export"
        | papers =>
            try_except
              (export_papers papers
                 {| format := fmt;
                    include_abstract := with_abstract;
                    include_categories := true;
                    include_urls := true |})
              (fun e => "Error exporting papers: " ++ exn_str e)
        end,
     (t ++ map id_list_url arxiv_ids)%list).
Proof.
  unfold Server.export_papers, try_catch, bind. rewrite fetch_papers_run.
  cbn [app]. destruct (found_papers _) as [ | paper papers]; [ reflexivity | ].
  unfold lift. now destruct (export_papers _ _).
Qed.

(** X10: the handler [export_papers] never raises.  It looks the ids up
    one after the other, in the order of the list, one request for each,
    whatever the outcome of the requests before; the ids that give no
    paper are skipped.  When no id gives a paper, and so for the empty
    list of ids, it answers [Error: No valid papers found for export],
    whatever the format. *)
Theorem export_handler_looks_up_each_id (arxiv_ids : list string)
  (fmt : string) (with_abstract : bool) :
  exists text,
    run (server_export_papers arxiv_ids fmt with_abstract)
    = (Ok text, map id_list_url arxiv_ids)
    /\ (found_papers (map paper_of_id' arxiv_ids) = [] ->
        text = "Error: No valid papers found for export")
    /\ (forall paper papers,
          found_papers (map paper_of_id' arxiv_ids) = paper :: papers ->
          forall exported,
            export_papers (paper :: papers)
              {| format := fmt;
                 include_abstract := with_abstract;
                 include_categories := true;
                 include_urls := true |} = Ok exported ->
            text = exported).
Proof.
  unfold run. rewrite server_export_papers_run. cbn [app].
  eexists. split; [ reflexivity | ]. split.
  - now intros ->.
  - intros paper papers -> exported ->. reflexivity.
Qed.

(** X11: the [ValueError] that the exporter raises for an unsupported
    format does not leave the handler: when at least one paper was found,
    a format that is none of the four gives the text
    [Error exporting papers: Unsupported format: ] followed by the format,
    and each of the four gives the text of its exporter, with the
    categories and the URLs included. *)
Theorem export_handler_reports_unsupported_format (arxiv_ids : list string)
  (fmt : string) (with_abstract : bool) :
  let papers := found_papers (map paper_of_id' arxiv_ids) in
  let config := {| format := fmt;
                   include_abstract := with_abstract;
                   include_categories := true;
                   include_urls := true |} in
  papers = []
  \/ fst (run (server_export_papers arxiv_ids fmt with_abstract))
     = Ok (if String.eqb fmt "bibtex" then _export_bibtex papers config
           else if String.eqb fmt "json" then _export_json papers config
           else if String.eqb fmt "csv" then _export_csv papers config
           else if String.eqb fmt "markdown"
           then _export_markdown papers config
           else "Error exporting papers: Unsupported format: " ++ fmt).
Proof.
  cbv zeta. unfold run. rewrite server_export_papers_run. cbn [fst].
  destruct (found_papers _) as [ | paper papers]; [ now left | right ].
  f_equal. unfold export_papers. cbn [format].
  destruct (String.eqb fmt "bibtex"); [ reflexivity | ].
  destruct (String.eqb fmt "json"); [ reflexivity | ].
  destruct (String.eqb fmt "csv"); [ reflexivity | ].
  destruct (String.eqb fmt "markdown"); reflexivity.
Qed.

End ServerProperties.

(** ** The CSV exporter *)

Lemma append_snoc acc c s : (acc ++ str1 c) ++ s = acc ++ String c s.
Proof. now rewrite append_assoc_r. Qed.














(** ** validate_arxiv_id and the ids that get_paper sends *)

Lemma exactly_inv p n :
  forall s k,
    Re.exactly p n s k = true ->
    exists a b, s = a ++ b /\ String.length a = n
                /\ all_chars p a = true /\ k b = true.
Proof.
  induction n as [ | n IH]; intros s k H; cbn [Re.exactly] in H.
  - exists "", s. now repeat split.
  - destruct s as [ | c s]; [ discriminate | ].
    apply andb_true_iff in H as [Hc H].
    destruct (IH _ _ H) as (a & b & -> & Hlen & Ha & Hk).
    exists (String c a), b. cbn [append String.length all_chars].
    rewrite Hc, Ha, Hlen. now repeat split.
Qed.

Lemma at_most_inv p n :
  forall s k,
    Re.at_most p n s k = true ->
    exists a b, s = a ++ b /\ (String.length a <= n)%nat
                /\ all_chars p a = true /\ k b = true.
Proof.
  induction n as [ | n IH]; intros s k H; cbn [Re.at_most] in H.
  - exists "", s. now repeat split.
  - destruct s as [ | c s].
    + exists "", "". repeat split; [ cbn; lia | exact H ].
    + apply orb_true_iff in H as [H | H].
      * apply andb_true_iff in H as [Hc H].
        destruct (IH _ _ H) as (a & b & -> & Hlen & Ha & Hk).
        exists (String c a), b. cbn [append String.length all_chars].
        rewrite Hc, Ha. repeat split; [ lia | exact Hk ].
      * exists "", (String c s). repeat split; [ cbn; lia | exact H ].
Qed.

Lemma many_inv p :
  forall s k,
    Re.many p s k = true ->
    exists a b, s = a ++ b /\ all_chars p a = true /\ k b = true.
Proof.
  induction s as [ | c s IH]; intros k H; cbn [Re.many] in H.
  - exists "", "". now repeat split.
  - apply orb_true_iff in H as [H | H].
    + apply andb_true_iff in H as [Hc H].
      destruct (IH _ H) as (a & b & -> & Ha & Hk).
      exists (String c a), b. cbn [append all_chars].
      rewrite Hc, Ha. now repeat split.
    + exists "", (String c s). now repeat split.
Qed.

Lemma at_end_inv s : Re.at_end s = true -> s = "" \/ s = nl.
Proof.
  destruct s as [ | c [ | c' s]]; cbn [Re.at_end]; intros H;
    [ now left | | discriminate ].
  apply Ascii.eqb_eq in H. subst c. now right.
Qed.

Lemma all_chars_absent p a s :
  all_chars p s = true -> p a = false -> count a s = 0%nat.
Proof.
  intros Hs Ha. induction s as [ | c s IH]; [ reflexivity | ].
  cbn [all_chars] in Hs. apply andb_true_iff in Hs as [Hc Hs].
  cbn [count]. rewrite (IH Hs).
  destruct (Ascii.eqb_spec c a) as [-> | _]; [ congruence | reflexivity ].
Qed.

Lemma occurs_cons old c s :
  occurs old (String c s) = prefix old (String c s) || occurs old s.
Proof. reflexivity. Qed.

(** A text that lacks the first character of [old] lacks [old]. *)
Lemma occurs_absent_char a old s :
  count a s = 0%nat -> occurs (String a old) s = false.
Proof.
  induction s as [ | c s IH]; intros H; [ reflexivity | ].
  cbn [count] in H. cbn [occurs prefix].
  destruct (Ascii.eqb_spec c a) as [-> | Hne]; [ discriminate | ].
  destruct (ascii_dec a c) as [-> | _]; [ contradiction | ].
  cbn [orb]. apply IH. exact H.
Qed.

(** The pair [ab] does not occur where every [a] is followed by something
    else than [b]. *)
Lemma occurs_pair_app a b p r :
  count b p = 0%nat -> count a r = 0%nat ->
  match r with String c _ => c <> b | EmptyString => True end ->
  occurs (String a (String b "")) (p ++ r) = false.
Proof.
  intros Hp Hr Hhead. induction p as [ | c p IH].
  - cbn [append]. now apply occurs_absent_char.
  - cbn [count] in Hp.
    destruct (Ascii.eqb_spec c b) as [-> | Hcb]; [ discriminate | ].
    cbn [append occurs prefix]. rewrite IH by exact Hp.
    destruct (ascii_dec a c) as [-> | _]; [ | reflexivity ].
    destruct p as [ | c' p]; cbn [append].
    + destruct r as [ | c' r]; [ reflexivity | ]. cbn [prefix].
      destruct (ascii_dec b c') as [-> | _]; [ contradiction | reflexivity ].
    + cbn [count] in Hp. cbn [prefix].
      destruct (Ascii.eqb_spec c' b) as [-> | Hc'b]; [ discriminate | ].
      destruct (ascii_dec b c') as [-> | _]; [ contradiction | reflexivity ].
Qed.

(** The pair [ab] does not occur in a text whose only [a] is followed by
    another character than [b]. *)
Lemma occurs_pair_single a b p d r :
  count a p = 0%nat -> count a (String d r) = 0%nat -> d <> b ->
  occurs (String a (String b "")) (p ++ String a (String d r)) = false.
Proof.
  intros Hp Hr Hd. induction p as [ | c p IH].
  - cbn [append]. rewrite occurs_cons. cbn [prefix].
    destruct (ascii_dec a a) as [_ | Hne]; [ | contradiction ].
    destruct (ascii_dec b d) as [-> | _]; [ contradiction | ].
    cbn [orb]. now apply occurs_absent_char.
  - cbn [count] in Hp.
    destruct (Ascii.eqb_spec c a) as [-> | Hca]; [ discriminate | ].
    cbn [append]. rewrite occurs_cons. cbn [prefix].
    destruct (ascii_dec a c) as [-> | _]; [ contradiction | ].
    cbn [orb]. now apply IH.
Qed.

Lemma replace_from_step old new c s :
  replace_from old new 0 (String c s)
  = if prefix old (String c s)
    then new ++ replace_from old new (String.length old - 1) s
    else String c (replace_from old new 0 s).
Proof. reflexivity. Qed.

Lemma replace_from_skip old new k c s :
  replace_from old new (S k) (String c s) = replace_from old new k s.
Proof. reflexivity. Qed.

(** Deleting the pair [ab] from a text whose only [a] is followed by [b]. *)
Lemma replace_pair_single a b p r :
  count a p = 0%nat -> count a r = 0%nat ->
  replace (String a (String b "")) "" (p ++ String a (String b r)) = p ++ r.
Proof.
  intros Hp Hr. unfold replace. induction p as [ | c p IH].
  - cbn [append]. rewrite replace_from_step. cbn [prefix].
    destruct (ascii_dec a a) as [_ | Hne]; [ | contradiction ].
    destruct (ascii_dec b b) as [_ | Hne]; [ | contradiction ].
    assert (Hpre : forall t, prefix "" t = true) by (now intros []).
    rewrite Hpre. cbn [String.length Nat.sub append].
    rewrite replace_from_skip.
    apply replace_from_absent. now apply occurs_absent_char.
  - cbn [count] in Hp.
    destruct (Ascii.eqb_spec c a) as [-> | Hca]; [ discriminate | ].
    cbn [append]. rewrite replace_from_step. cbn [prefix].
    destruct (ascii_dec a c) as [-> | _]; [ contradiction | ].
    now rewrite IH.
Qed.

Lemma modern_inv s :
  Re.re_match modern_pattern s = true ->
  exists base tail,
    s = base ++ tail
    /\ all_chars (fun c => isdigit c || Ascii.eqb "." c) base = true
    /\ (Re.at_end tail = true
        \/ exists d ds e,
             tail = String "v" (String d (ds ++ e))
             /\ isdigit d = true /\ all_chars isdigit ds = true
             /\ Re.at_end e = true).
Proof.
  unfold Re.re_match, modern_pattern. cbn [Re.matches Nat.sub]. intros H.
  apply exactly_inv in H as (a1 & b1 & -> & _ & Ha1 & H).
  apply at_most_inv in H as (a1' & b1' & -> & _ & Ha1' & H).
  apply exactly_inv in H as (a2 & b2 & -> & _ & Ha2 & H).
  apply exactly_inv in H as (a3 & b3 & -> & _ & Ha3 & H).
  apply at_most_inv in H as (a4 & b4 & -> & _ & Ha4 & H).
  exists (a1 ++ a1' ++ a2 ++ a3 ++ a4), b4.
  split; [ now rewrite !append_assoc_r | ].
  split.
  { rewrite !all_chars_app.
    rewrite (all_chars_impl isdigit _ a1), (all_chars_impl isdigit _ a1'),
      (all_chars_impl (Ascii.eqb ".") _ a2), (all_chars_impl isdigit _ a3),
      (all_chars_impl isdigit _ a4); try assumption; try reflexivity;
      intros c Hc; rewrite Hc; auto using orb_true_r. }
  apply orb_true_iff in H as [H | H].
  - right.
    apply exactly_inv in H as (v & b5 & -> & Hlen & Hv & H).
    apply exactly_inv in H as (d & b6 & -> & Hlen' & Hd & H).
    apply many_inv in H as (ds & e & -> & Hds & H).
    destruct v as [ | v [ | ? ?]]; try discriminate.
    destruct d as [ | d [ | ? ?]]; try discriminate.
    cbn [all_chars] in Hv, Hd. rewrite andb_true_r in Hv, Hd.
    apply Ascii.eqb_eq in Hv. subst v.
    exists d, ds, e. cbn [append]. repeat split; try assumption.
    now apply andb_true_iff in H as [H _].
  - left. now apply andb_true_iff in H as [H _].
Qed.

Lemma old_inv s :
  Re.re_match old_pattern s = true ->
  exists name c rest,
    s = name ++ String c rest
    /\ all_chars lower_or_hyphen name = true
    /\ (c = "."%char \/ c = "/"%char)
    /\ all_chars (fun c => upper_letter c || isdigit c || Ascii.eqb "/" c
                           || Ascii.eqb c LF) rest = true.
Proof.
  unfold Re.re_match, old_pattern. cbn [Re.matches Nat.sub]. intros H.
  apply exactly_inv in H as (a1 & b1 & -> & _ & Ha1 & H).
  apply many_inv in H as (a2 & b2 & -> & Ha2 & H).
  assert (Hslash :
            forall t,
              Re.exactly (Ascii.eqb "/") 1 t
                (fun s' => Re.exactly isdigit 7 s'
                   (fun s'0 => Re.at_most isdigit 0 s'0
                      (fun s'1 => Re.at_end s'1 && true))) = true ->
              exists rest,
                t = String "/" rest
                /\ all_chars (fun c => upper_letter c || isdigit c
                                       || Ascii.eqb "/" c || Ascii.eqb c LF)
                             rest = true).
  { intros t Ht.
    apply exactly_inv in Ht as (sl & b3 & -> & Hlen & Hsl & Ht).
    apply exactly_inv in Ht as (ds & b4 & -> & _ & Hds & Ht).
    apply at_most_inv in Ht as (ds' & e & -> & _ & Hds' & Ht).
    apply andb_true_iff in Ht as [Ht _].
    destruct sl as [ | sl [ | ? ?]]; try discriminate.
    cbn [all_chars] in Hsl. rewrite andb_true_r in Hsl.
    apply Ascii.eqb_eq in Hsl. subst sl.
    exists (ds ++ ds' ++ e). split; [ reflexivity | ].
    rewrite !all_chars_app.
    rewrite (all_chars_impl isdigit _ ds), (all_chars_impl isdigit _ ds');
      try assumption;
      try (intros c Hc; rewrite Hc; now rewrite ?orb_true_r).
    apply at_end_inv in Ht as [-> | ->]; reflexivity. }
  exists (a1 ++ a2).
  apply orb_true_iff in H as [H | H].
  - apply exactly_inv in H as (dot & b3 & -> & Hlen & Hdot & H).
    apply exactly_inv in H as (up & b4 & -> & _ & Hup & H).
    apply at_most_inv in H as (up' & b5 & -> & _ & Hup' & H).
    destruct (Hslash _ H) as (rest & -> & Hrest).
    destruct dot as [ | dot [ | ? ?]]; try discriminate.
    cbn [all_chars] in Hdot. rewrite andb_true_r in Hdot.
    apply Ascii.eqb_eq in Hdot. subst dot.
    exists "."%char, (up ++ up' ++ String "/" rest).
    split; [ now rewrite !append_assoc_r | ].
    split; [ now rewrite all_chars_app, Ha1, Ha2 | ].
    split; [ now left | ].
    rewrite !all_chars_app.
    rewrite (all_chars_impl upper_letter _ up),
      (all_chars_impl upper_letter _ up'); try assumption;
      try (intros c Hc; now rewrite Hc).
  - destruct (Hslash _ H) as (rest & -> & Hrest).
    exists "/"%char, rest.
    split; [ now rewrite !append_assoc_r | ].
    split; [ now rewrite all_chars_app, Ha1, Ha2 | ].
    split; [ now right | exact Hrest ].
Qed.
Lemma prefix_count old s c :
  prefix old s = true -> (count c old <= count c s)%nat.
Proof.
  revert s. induction old as [ | a old IH]; intros s H; [ cbn; lia | ].
  destruct s as [ | b s]; [ discriminate | ].
  cbn [prefix] in H. destruct (ascii_dec a b) as [-> | _]; [ | discriminate ].
  cbn [count]. specialize (IH s H). lia.
Qed.

(** A text that lacks a character of [old] lacks [old]. *)
Lemma occurs_count old s c :
  occurs old s = true -> (count c old <= count c s)%nat.
Proof.
  induction s as [ | b s IH]; cbn [occurs]; intros H.
  - rewrite orb_false_r in H. now apply prefix_count.
  - apply orb_true_iff in H as [H | H].
    + now apply prefix_count.
    + specialize (IH H). cbn [count]. lia.
Qed.

Lemma occurs_lacking old s c :
  count c s = 0%nat -> (1 <= count c old)%nat -> occurs old s = false.
Proof.
  intros Hs Hold. destruct (occurs old s) eqn:E; [ | reflexivity ].
  apply (occurs_count old s c) in E. lia.
Qed.

Lemma count_at_end a e :
  Re.at_end e = true -> Ascii.eqb LF a = false -> count a e = 0%nat.
Proof.
  intros He Ha. apply at_end_inv in He as [-> | ->]; [ reflexivity | ].
  cbn [nl str1 count]. now rewrite Ha.
Qed.

Lemma version_chars d ds e :
  isdigit d = true -> all_chars isdigit ds = true -> Re.at_end e = true ->
  all_chars (fun c => isdigit c || Ascii.eqb c LF) (String d (ds ++ e)) = true.
Proof.
  intros Hd Hds He. cbn [all_chars]. rewrite Hd. cbn [orb andb].
  rewrite all_chars_app.
  rewrite (all_chars_impl isdigit (fun c => isdigit c || Ascii.eqb c LF) ds)
    by (assumption || (intros c Hc; now rewrite Hc)).
  apply at_end_inv in He as [-> | ->]; reflexivity.
Qed.

(** What the passes of [clean_id] that delete [v1], [v2] and [v3] make of
    a text whose only [v] stands before the digit [d]. *)
Lemma delete_versions_single base d r :
  count "v" base = 0%nat -> count "v" (String d r) = 0%nat ->
  let s := base ++ String "v" (String d r) in
  if Ascii.eqb d "1" || Ascii.eqb d "2" || Ascii.eqb d "3"
  then replace "v3" "" (replace "v2" "" (replace "v1" "" s)) = base ++ r
  else occurs "v1" s = false /\ occurs "v2" s = false /\ occurs "v3" s = false.
Proof.
  intros Hb Hr. cbv zeta.
  assert (Hr' : count "v" r = 0%nat).
  { cbn [count] in Hr. lia. }
  assert (Hclean : forall old, occurs (String "v" old) (base ++ r) = false).
  { intros old. apply occurs_absent_char. rewrite count_app. lia. }
  destruct (Ascii.eqb_spec d "1") as [-> | H1]; cbn [orb].
  { rewrite replace_pair_single by assumption.
    rewrite (replace_absent "v2") by apply Hclean.
    now rewrite (replace_absent "v3") by apply Hclean. }
  rewrite (replace_absent "v1") by now apply occurs_pair_single.
  destruct (Ascii.eqb_spec d "2") as [-> | H2]; cbn [orb].
  { rewrite replace_pair_single by assumption.
    now rewrite (replace_absent "v3") by apply Hclean. }
  rewrite (replace_absent "v2") by now apply occurs_pair_single.
  destruct (Ascii.eqb_spec d "3") as [-> | H3]; cbn [orb].
  { now rewrite replace_pair_single by assumption. }
  repeat split; now apply occurs_pair_single.
Qed.

(** An id of the old format holds none of the texts that [clean_id]
    deletes. *)
Lemma old_format_id_kept s :
  Re.re_match old_pattern s = true ->
  occurs "v1" s = false /\ occurs "v2" s = false
  /\ occurs "v3" s = false /\ clean_id s = s.
Proof.
  intros H. apply old_inv in H as (name & c & rest & -> & Hname & Hc & Hrest).
  assert (Hdigit : forall d, lower_or_hyphen d = false ->
                             count d name = 0%nat).
  { intros d Hd. exact (all_chars_absent lower_or_hyphen d name Hname Hd). }
  assert (Hv : count "v" (String c rest) = 0%nat).
  { cbn [count].
    rewrite (all_chars_absent _ "v" rest Hrest eq_refl).
    destruct Hc as [-> | ->]; reflexivity. }
  assert (Hcolon : count ":" (name ++ String c rest) = 0%nat).
  { rewrite count_app, Hdigit by reflexivity. cbn [count].
    rewrite (all_chars_absent _ ":" rest Hrest eq_refl).
    destruct Hc as [-> | ->]; reflexivity. }
  assert (H1 : occurs "v1" (name ++ String c rest) = false).
  { apply occurs_pair_app; [ now apply Hdigit | exact Hv | ].
    destruct Hc as [-> | ->]; discriminate. }
  assert (H2 : occurs "v2" (name ++ String c rest) = false).
  { apply occurs_pair_app; [ now apply Hdigit | exact Hv | ].
    destruct Hc as [-> | ->]; discriminate. }
  assert (H3 : occurs "v3" (name ++ String c rest) = false).
  { apply occurs_pair_app; [ now apply Hdigit | exact Hv | ].
    destruct Hc as [-> | ->]; discriminate. }
  unfold clean_id.
  rewrite (replace_absent "arXiv:")
    by (apply occurs_lacking with ":"%char; [ exact Hcolon | cbn; lia ]).
  rewrite (replace_absent "v1") by assumption.
  rewrite (replace_absent "v2") by assumption.
  rewrite (replace_absent "v3") by assumption. now repeat split.
Qed.

(** X13: what [get_paper] sends for an id that [validate_arxiv_id]
    accepts.  Either the id holds none of [v1], [v2] and [v3] -- every id
    of the old format, and the ids of the modern format that have no
    version, or a version that begins with another digit -- and it is sent
    as it is; or the id ends in a version that begins with 1, 2 or 3, and
    what is sent is the id without the [v] and without that one digit:
    the other digits of a longer version stay. *)
Theorem clean_id_of_valid_id (arxiv_id : string) :
  validate_arxiv_id arxiv_id = true ->
  (occurs "v1" arxiv_id = false /\ occurs "v2" arxiv_id = false
   /\ occurs "v3" arxiv_id = false /\ clean_id arxiv_id = arxiv_id)
  \/ (exists base d rest,
        arxiv_id = base ++ String "v" (String d rest)
        /\ (d = "1" \/ d = "2" \/ d = "3")%char
        /\ count "v" base = 0%nat /\ count "v" rest = 0%nat
        /\ clean_id arxiv_id = base ++ rest).
Proof.
  unfold validate_arxiv_id. intros H. apply orb_true_iff in H as [H | H].
  - apply modern_inv in H as (base & tail & -> & Hbase & Htail).
    assert (Hcount : forall a,
               isdigit a || Ascii.eqb "." a = false ->
               count a base = 0%nat).
    { intros a Ha.
      exact (all_chars_absent (fun c => isdigit c || Ascii.eqb "." c)
               a base Hbase Ha). }
    destruct Htail as [Hend | (d & ds & e & -> & Hd & Hds & He)].
    + left.
      assert (Hv : count "v" (base ++ tail) = 0%nat).
      { rewrite count_app, Hcount, (count_at_end "v" tail) by easy.
        reflexivity. }
      assert (Ha : count "a" (base ++ tail) = 0%nat).
      { rewrite count_app, Hcount, (count_at_end "a" tail) by easy.
        reflexivity. }
      unfold clean_id.
      rewrite (replace_absent "arXiv:") by now apply occurs_absent_char.
      rewrite (replace_absent "v1") by now apply occurs_absent_char.
      rewrite (replace_absent "v2") by now apply occurs_absent_char.
      rewrite (replace_absent "v3") by now apply occurs_absent_char.
      repeat split; now apply occurs_absent_char.
    + assert (Hr : count "v" (String d (ds ++ e)) = 0%nat).
      { apply (all_chars_absent (fun c => isdigit c || Ascii.eqb c LF));
          [ | reflexivity ].
        now apply version_chars. }
      assert (Ha : count "a" (base ++ String "v" (String d (ds ++ e))) = 0%nat).
      { rewrite count_app, Hcount by easy.
        change (String "v" (String d (ds ++ e)))
          with ("v" ++ String d (ds ++ e)).
        rewrite count_app.
        rewrite (all_chars_absent (fun c => isdigit c || Ascii.eqb c LF)
                   "a" (String d (ds ++ e)));
          [ reflexivity | now apply version_chars | reflexivity ]. }
      pose proof (delete_versions_single base d (ds ++ e)
                    (Hcount "v"%char eq_refl) Hr) as Hdel.
      cbv zeta in Hdel. unfold clean_id.
      rewrite (replace_absent "arXiv:") by now apply occurs_absent_char.
      destruct (Ascii.eqb d "1" || Ascii.eqb d "2" || Ascii.eqb d "3") eqn:E.
      * right. exists base, d, (ds ++ e).
        split; [ reflexivity | ].
        split.
        { apply orb_true_iff in E as [E | E];
            [ apply orb_true_iff in E as [E | E] | ];
            apply Ascii.eqb_eq in E; tauto. }
        split; [ now apply Hcount | ].
        split; [ cbn [count] in Hr; lia | exact Hdel ].
      * left. destruct Hdel as (H1 & H2 & H3).
        rewrite (replace_absent "v1") by assumption.
        rewrite (replace_absent "v2") by assumption.
        rewrite (replace_absent "v3") by assumption. now repeat split.
  - left. now apply old_format_id_kept.
Qed.

Lemma clean_id_of_valid_id_witness :
  validate_arxiv_id "2301.0001v12" = true
  /\ ((occurs "v1" "2301.0001v12" = false /\ occurs "v2" "2301.0001v12" = false
       /\ occurs "v3" "2301.0001v12" = false
       /\ clean_id "2301.0001v12" = "2301.0001v12")
      \/ (exists base d rest,
            "2301.0001v12" = base ++ String "v" (String d rest)
            /\ (d = "1" \/ d = "2" \/ d = "3")%char
            /\ count "v" base = 0%nat /\ count "v" rest = 0%nat
            /\ clean_id "2301.0001v12" = base ++ rest)).
Proof.
  split; [ reflexivity | ].
  apply (clean_id_of_valid_id "2301.0001v12"). reflexivity.
Defined.

(** A valid id of four digits after the point, at version 12, is sent as
    another valid id: that of a paper of five digits. *)
Example clean_id_changes_the_paper :
  validate_arxiv_id "2301.0001v12" = true
  /\ clean_id "2301.0001v12" = "2301.00012"
  /\ validate_arxiv_id "2301.00012" = true.
Proof. repeat split. Qed.
(** X14: an id of the old format ([subject-class/YYMMnnn]) is sent by
    [get_paper] as it is, whatever letters its subject class holds. *)
Theorem old_format_ids_are_sent_unchanged (arxiv_id : string) :
  Re.re_match old_pattern arxiv_id = true -> clean_id arxiv_id = arxiv_id.
Proof. intros H. now apply old_format_id_kept. Qed.

Lemma old_format_ids_are_sent_unchanged_witness :
  Re.re_match old_pattern "solv-int/9901001" = true
  /\ clean_id "solv-int/9901001" = "solv-int/9901001".
Proof.
  split; [ reflexivity | ].
  apply (old_format_ids_are_sent_unchanged "solv-int/9901001"). reflexivity.
Defined.

(** ** The encoded query *)

Lemma quote_plus_char_safe c : all_chars url_safe (quote_plus_char c) = true.
Proof. destruct c as [[] [] [] [] [] [] [] []]; reflexivity. Qed.

Lemma quote_plus_safe s : all_chars url_safe (quote_plus s) = true.
Proof.
  induction s as [ | c s IH]; [ reflexivity | ].
  cbn [quote_plus]. now rewrite all_chars_app, quote_plus_char_safe, IH.
Qed.

Lemma decode_quote_plus_char c rest :
  decode_head (quote_plus_char c ++ rest) = Some (c, rest).
Proof. destruct c as [[] [] [] [] [] [] [] []]; reflexivity. Qed.

Lemma quote_plus_injective s1 :
  forall s2, quote_plus s1 = quote_plus s2 -> s1 = s2.
Proof.
  induction s1 as [ | c1 s1 IH]; intros [ | c2 s2] H.
  - reflexivity.
  - apply (f_equal decode_head) in H. cbn [quote_plus] in H.
    rewrite decode_quote_plus_char in H. discriminate.
  - apply (f_equal decode_head) in H. cbn [quote_plus] in H.
    rewrite decode_quote_plus_char in H. discriminate.
  - apply (f_equal decode_head) in H. cbn [quote_plus] in H.
    rewrite !decode_quote_plus_char in H. injection H as -> H.
    f_equal. now apply IH.
Qed.

(** X15: the query travels in the URL of [search] encoded: between
    [search_query=] and [&start=0] there are only letters, digits, the
    marks [_.-~], [+] and [%], so that no character of the query can end
    the parameter or start another; and the encoding loses nothing: two
    queries that are encoded alike are the same query. *)
Theorem search_url_encodes_the_query (query : string) (max_results : Z)
  (sort_by : string) :
  exists encoded,
    search_url query max_results sort_by
    = base_url ++ "?search_query=" ++ encoded ++ "&start=0&max_results="
      ++ str_of_Z max_results ++ "&sortBy=" ++ sort_by ++ "&sortOrder="
      ++ (if String.eqb sort_by "relevance" then "ascending" else "descending")
    /\ all_chars url_safe encoded = true
    /\ (forall other, quote_plus other = encoded -> other = query).
Proof.
  exists (quote_plus query). split; [ | split ].
  - unfold search_url. cbv zeta.
    now destruct (String.eqb sort_by "relevance").
  - apply quote_plus_safe.
  - intros other H. now apply quote_plus_injective.
Qed.
(** ** The fields of parsed papers *)

Lemma count_subst_char a new s :
  count a new = 0%nat -> count a (subst_char a new s) = 0%nat.
Proof.
  intros Hnew. induction s as [ | c s IH]; [ reflexivity | ].
  cbn [subst_char]. destruct (Ascii.eqb c a) eqn:E.
  - now rewrite count_app, Hnew, IH.
  - cbn [count]. now rewrite E, IH.
Qed.

Lemma one_line_or_one_line default elem t :
  count LF default = 0%nat ->
  one_line_or default elem = Ok t -> count LF t = 0%nat.
Proof.
  intros Hd. destruct elem as [e | ]; cbn [one_line_or].
  - unfold text_strip. destruct (ET.text e); cbn [rbind]; [ | discriminate ].
    intros [= <-].
    change (replace_from nl " " 0 (strip s))
      with (replace (str1 LF) " " (strip s)).
    rewrite replace_one_char.
    now apply count_subst_char.
  - now intros [= <-].
Qed.

Lemma lstrip_lstrip b s : lstrip b (lstrip b s) = lstrip b s.
Proof.
  induction s as [ | c s IH]; [ reflexivity | ].
  cbn [lstrip]. destruct (b c) eqn:E; [ exact IH | ].
  cbn [lstrip]. now rewrite E.
Qed.

Lemma rstrip_rstrip b s : rstrip b (rstrip b s) = rstrip b s.
Proof.
  induction s as [ | c s IH]; [ reflexivity | ].
  cbn [rstrip]. destruct (rstrip b s) as [ | x r] eqn:E.
  - destruct (b c) eqn:Ec; [ reflexivity | ].
    cbn [str1 rstrip]. now rewrite Ec.
  - cbn [rstrip]. cbn [rstrip] in IH. now rewrite IH.
Qed.

Lemma rstrip_lstrip b t :
  rstrip b t = t -> rstrip b (lstrip b t) = lstrip b t.
Proof.
  induction t as [ | c t IH]; intros H; [ reflexivity | ].
  cbn [lstrip]. destruct (b c) eqn:Ec; [ | exact H ].
  apply IH. cbn [rstrip] in H.
  destruct (rstrip b t) as [ | x r]; [ | now injection H ].
  rewrite Ec in H. discriminate.
Qed.

Lemma strip_strip s : strip (strip s) = strip s.
Proof.
  unfold strip.
  rewrite (rstrip_lstrip isspace (rstrip isspace s))
    by apply rstrip_rstrip.
  apply lstrip_lstrip.
Qed.

Lemma length_lstrip b s : (String.length (lstrip b s) <= String.length s)%nat.
Proof.
  induction s as [ | c s IH]; cbn [lstrip String.length]; [ lia | ].
  destruct (b c); cbn [String.length]; lia.
Qed.

Lemma lstrip_one_line s :
  lstrip isspace s = s ->
  lstrip isspace (subst_char LF " " s) = subst_char LF " " s.
Proof.
  destruct s as [ | c s]; [ reflexivity | ]. cbn [lstrip]. intros H.
  destruct (isspace c) eqn:Ec.
  - pose proof (length_lstrip isspace s) as Hlen. rewrite H in Hlen.
    cbn [String.length] in Hlen. lia.
  - cbn [subst_char]. destruct (Ascii.eqb_spec c LF) as [-> | _];
      [ discriminate | ].
    cbn [lstrip]. now rewrite Ec.
Qed.

Lemma subst_char_cons a new c s :
  subst_char a new (String c s)
  = if Ascii.eqb c a then new ++ subst_char a new s
    else String c (subst_char a new s).
Proof. reflexivity. Qed.

Lemma rstrip_cons b c s :
  rstrip b (String c s)
  = match rstrip b s with
    | EmptyString => if b c then EmptyString else str1 c
    | r => String c r
    end.
Proof. reflexivity. Qed.

Lemma rstrip_one_line s :
  rstrip isspace s = s ->
  rstrip isspace (subst_char LF " " s) = subst_char LF " " s.
Proof.
  induction s as [ | c s IH]; [ reflexivity | ].
  cbn [rstrip]. destruct (rstrip isspace s) as [ | x r] eqn:E; intros H.
  - destruct (isspace c) eqn:Ec; [ discriminate | ].
    injection H as <-. cbn [subst_char].
    destruct (Ascii.eqb_spec c LF) as [-> | _]; [ discriminate | ].
    cbn [rstrip]. now rewrite Ec.
  - injection H as <-. specialize (IH eq_refl).
    assert (Hne : exists y z, subst_char LF " " (String x r) = String y z).
    { cbn [subst_char]. destruct (Ascii.eqb x LF); cbn [append]; eauto. }
    destruct Hne as (y & z & Hyz). rewrite Hyz in IH.
    rewrite (subst_char_cons LF " " c (String x r)), Hyz.
    destruct (Ascii.eqb c LF); cbn [append]; now rewrite rstrip_cons, IH.
Qed.

Lemma strip_one_line s :
  strip (subst_char LF " " (strip s)) = subst_char LF " " (strip s).
Proof.
  pose proof (strip_strip s) as H. unfold strip in H |- *.
  set (u := lstrip isspace (rstrip isspace s)) in *.
  assert (Hr : rstrip isspace u = u).
  { unfold u. apply rstrip_lstrip, rstrip_rstrip. }
  assert (Hl : lstrip isspace u = u).
  { unfold u. apply lstrip_lstrip. }
  rewrite (rstrip_one_line u Hr). now apply lstrip_one_line.
Qed.

Lemma one_line_or_stripped default elem t :
  strip default = default ->
  one_line_or default elem = Ok t -> strip t = t.
Proof.
  intros Hd. destruct elem as [e | ]; cbn [one_line_or].
  - unfold text_strip. destruct (ET.text e); cbn [rbind]; [ | discriminate ].
    intros [= <-].
    change (replace_from nl " " 0 (strip s))
      with (replace (str1 LF) " " (strip s)).
    rewrite replace_one_char. apply strip_one_line.
  - now intros [= <-].
Qed.

Lemma author_names_stripped l :
  forall names,
    author_names l = Ok names -> Forall (fun a => strip a = a) names.
Proof.
  induction l as [ | author l IH]; intros names; cbn [author_names].
  - intros [= <-]. constructor.
  - destruct (ET.find (atom "name") author) as [name_elem | ]; [ | apply IH ].
    unfold text_strip. destruct (ET.text name_elem) as [n | ];
      cbn [rbind]; [ | discriminate ].
    destruct (author_names l) as [ns | ]; cbn [rbind]; [ | discriminate ].
    intros [= <-]. constructor; [ apply strip_strip | now apply IH ].
Qed.

Lemma length_take n s : (String.length (take n s) <= n)%nat.
Proof.
  revert s. induction n as [ | n IH]; intros [ | c s]; cbn [take String.length];
    try lia.
  specialize (IH s). lia.
Qed.

Lemma category_terms_nonempty l :
  Forall (fun term => term <> "") (category_terms l).
Proof.
  induction l as [ | category l IH]; cbn [category_terms]; [ constructor | ].
  destruct (ET.get category "term") as [term | ]; [ | exact IH ].
  destruct term as [ | c term]; cbn [truthy]; [ exact IH | ].
  constructor; [ discriminate | exact IH ].
Qed.

Lemma split_on_from_nonempty sep s :
  forall word, split_on_from sep word s <> [].
Proof.
  induction s as [ | c s IH]; intros word; cbn [split_on_from].
  - discriminate.
  - destruct (Ascii.eqb c sep); [ discriminate | apply IH ].
Qed.

(** The last of the parts of a split holds no separator, and is what
    stands behind the last separator of the text. *)
Lemma split_on_from_last sep s :
  forall word,
    count sep word = 0%nat ->
    let part := last (split_on_from sep word s) "" in
    count sep part = 0%nat
    /\ (word ++ s = part
        \/ exists before, word ++ s = before ++ str1 sep ++ part).
Proof.
  induction s as [ | c s IH]; intros word Hw; cbv zeta; cbn [split_on_from].
  - cbn [last]. rewrite append_nil_r. split; [ exact Hw | now left ].
  - destruct (Ascii.eqb_spec c sep) as [-> | Hne].
    + destruct (IH "" eq_refl) as [Hc Hs]. cbv zeta in Hc, Hs.
      pose proof (split_on_from_nonempty sep s "") as Hnil.
      destruct (split_on_from sep "" s) as [ | x l] eqn:E;
        [ contradiction | ].
      change (last (word :: x :: l) "") with (last (x :: l) "").
      split; [ exact Hc | right ].
      cbn [append] in Hs. destruct Hs as [Hs | [before Hs]].
      * exists word. now rewrite Hs.
      * exists (word ++ str1 sep ++ before).
        rewrite Hs, !append_assoc_r. reflexivity.
    + assert (Hw' : count sep (word ++ str1 c) = 0%nat).
      { rewrite count_app, Hw. cbn [str1 count].
        apply Ascii.eqb_neq in Hne. now rewrite Hne. }
      destruct (IH _ Hw') as [Hc Hs]. cbv zeta in Hc, Hs.
      rewrite append_snoc in Hs. now split.
Qed.

Lemma parse_entry_body_well_formed entry p :
  parse_entry_body entry = Ok p -> well_formed_paper p.
Proof.
  unfold parse_entry_body.
  destruct (one_line_or "Unknown Title" _) as [t | ] eqn:Et;
    cbn [rbind]; [ | discriminate ].
  destruct (author_names _) as [a | ] eqn:Ea; cbn [rbind]; [ | discriminate ].
  destruct (one_line_or "" _) as [s | ] eqn:Es; cbn [rbind]; [ | discriminate ].
  intros H.
  set (pub := match ET.find (atom "published") entry with
              | Some published_elem =>
                  match ET.text published_elem with
                  | Some s0 => Ok (take 10 s0)
                  | None => Raise not_subscriptable
                  end
              | None => Ok ""
              end) in H.
  assert (Hpub : forall d, pub = Ok d -> (String.length d <= 10)%nat).
  { intros d. unfold pub. clear.
    destruct (ET.find (atom "published") entry) as [pe | ].
    - destruct (ET.text pe) as [date | ]; [ | discriminate ].
      intros Hd. assert (Ed : d = take 10 date) by congruence.
      rewrite Ed. apply length_take.
    - intros [= <-]. cbn. lia. }
  destruct pub as [d | ]; cbn [rbind] in H; [ | discriminate ].
  injection H as <-. unfold well_formed_paper.
  cbn [title abstract authors published categories id arxiv_url].
  split; [ now apply (one_line_or_one_line "Unknown Title" _ _ eq_refl Et) | ].
  split; [ now apply (one_line_or_one_line "" _ _ eq_refl Es) | ].
  split; [ now apply (one_line_or_stripped "Unknown Title" _ _ eq_refl Et) | ].
  split; [ now apply (one_line_or_stripped "" _ _ eq_refl Es) | ].
  split; [ now apply author_names_stripped with (1 := Ea) | ].
  split; [ now apply Hpub | ].
  split; [ apply category_terms_nonempty | ].
  destruct (match ET.find (atom "id") entry with
            | Some id_elem => ET.text id_elem
            | None => Some ""
            end) as [u | ].
  - destruct u as [ | c u]; cbn [truthy].
    + split; [ reflexivity | ]. intros u' [= <-]. now left.
    + destruct (split_on_from_last "/" (String c u) "" eq_refl) as [Hc Hs].
      cbv zeta in Hc, Hs. fold (split_on "/" (String c u)) in Hc, Hs.
      split; [ exact Hc | ].
      intros u' [= <-]. cbn [append] in Hs. exact Hs.
  - split; [ reflexivity | discriminate ].
Qed.

Section ParsedPapers.

Variable fromstring : string -> result ET.Element.

(** X16: every paper that [_parse_response] returns has a title and an
    abstract of one line (no line feed) that neither begin nor end with
    white space, authors whose names neither begin nor end with white
    space, a date of at most ten characters,
    categories none of which is the empty string, and an id that holds no
    slash and is what stands behind the last slash of its [arxiv_url] (or
    the whole of it when there is no slash). *)
Theorem parsed_papers_are_well_formed (content : string) :
  Forall well_formed_paper (_parse_response fromstring content).
Proof.
  unfold _parse_response.
  destruct (fromstring content) as [root | e]; cbn [rbind try_except];
    [ | constructor ].
  rewrite collect_papers_flat_map. apply Forall_forall. intros p Hp.
  apply in_flat_map in Hp as (entry & _ & Hp). unfold papers_of_entry in Hp.
  destruct (_parse_paper_entry entry) as [q | ] eqn:E; [ | contradiction ].
  destruct Hp as [<- | []].
  unfold _parse_paper_entry in E.
  destruct (parse_entry_body entry) as [q' | ] eqn:E'; cbn in E;
    [ | discriminate ].
  injection E as <-. now apply parse_entry_body_well_formed with entry.
Qed.

End ParsedPapers.
(** ** Paper.from_dict *)

Lemma strings_of_items_strings l : strings_of_items (map JStr l) = Some l.
Proof.
  induction l as [ | x l IH]; [ reflexivity | ].
  cbn [map strings_of_items]. now rewrite IH.
Qed.

Lemma from_dict_to_dict p : from_dict (to_dict p) = Some p.
Proof.
  destruct p as [i t a s d c u f].
  unfold from_dict, to_dict, json_strings, get_str, get_strs, get_url.
  cbn. rewrite !strings_of_items_strings. now destruct u.
Qed.

(** X17: [Paper.from_dict] reads back what [Paper.to_dict] wrote; and from
    a record of the JSON export it reads the paper with the fields that
    the options exclude at their defaults: an empty abstract, no category,
    empty URLs. *)
Theorem from_dict_reads_to_dict (p : Paper) (config : ExportConfig) :
  from_dict (to_dict p) = Some p
  /\ from_dict (json_record config p) = Some (paper_as_exported config p).
Proof.
  split; [ apply from_dict_to_dict | ].
  destruct p as [i t a s d c u f].
  destruct config as [fmt with_abstract with_categories with_urls].
  unfold from_dict, json_record, paper_as_exported, to_dict, json_strings,
    get_str, get_strs, get_url.
  destruct with_abstract, with_categories, with_urls; cbn;
    rewrite ?strings_of_items_strings; now destruct u.
Qed.

(** ** The characters of the JSON export *)

Lemma escape_char_safe c : all_chars json_safe (escape_char c) = true.
Proof. destruct c as [[] [] [] [] [] [] [] []]; reflexivity. Qed.

Lemma encode_string_safe s : all_chars json_safe (encode_string s) = true.
Proof.
  unfold encode_string. cbn [all_chars]. rewrite all_chars_app.
  replace (all_chars json_safe (escape s)) with true; [ reflexivity | ].
  induction s as [ | c s IH]; [ reflexivity | ].
  cbn [escape]. now rewrite all_chars_app, escape_char_safe, <- IH.
Qed.

Lemma spaces_safe n : all_chars json_safe (spaces n) = true.
Proof. induction n as [ | n IH]; [ reflexivity | exact IH ]. Qed.

Lemma newline_indent_safe level :
  all_chars json_safe (newline_indent level) = true.
Proof. unfold newline_indent. cbn [all_chars]. apply spaces_safe. Qed.

Lemma str_of_Z_safe n : all_chars json_safe (str_of_Z n) = true.
Proof.
  assert (Hu : forall u, all_chars json_safe (NilEmpty.string_of_uint u) = true).
  { induction u; cbn [NilEmpty.string_of_uint all_chars]; auto. }
  unfold str_of_Z. destruct (Z.to_int n); cbn [NilEmpty.string_of_int];
    [ apply Hu | cbn [all_chars]; apply Hu ].
Qed.

Lemma more_items_safe dump_item level l :
  Forall (fun y => all_chars json_safe (dump_item y) = true) l ->
  all_chars json_safe (more_items dump_item level l) = true.
Proof.
  induction 1 as [ | y ys Hy _ IH]; cbn [more_items].
  - now rewrite all_chars_app, newline_indent_safe.
  - now rewrite !all_chars_app, newline_indent_safe, Hy, IH.
Qed.

Lemma more_members_safe dump_item level l :
  Forall (fun kv => all_chars json_safe (dump_item (snd kv)) = true) l ->
  all_chars json_safe (more_members dump_item level l) = true.
Proof.
  induction 1 as [ | [k y] ys Hy _ IH]; cbn [more_members].
  - now rewrite all_chars_app, newline_indent_safe.
  - cbn [snd] in Hy.
    now rewrite !all_chars_app, newline_indent_safe, encode_string_safe,
      Hy, IH.
Qed.

Lemma dump_safe v : forall level, all_chars json_safe (dump level v) = true.
Proof.
  induction v as [ | [] | n | s | l IH | l IH] using json_induction;
    intros level; try reflexivity.
  - apply str_of_Z_safe.
  - apply encode_string_safe.
  - destruct l as [ | x xs]; [ reflexivity | ].
    cbn [dump]. inversion IH as [ | ? ? Hx Hxs]; subst.
    rewrite !all_chars_app, newline_indent_safe, Hx, more_items_safe.
    + reflexivity.
    + apply Forall_forall. intros y Hy. rewrite Forall_forall in Hxs.
      now apply Hxs.
  - destruct l as [ | [k x] kvs]; [ reflexivity | ].
    cbn [dump]. inversion IH as [ | ? ? Hx Hxs]; subst. cbn [snd] in Hx.
    rewrite !all_chars_app, newline_indent_safe, encode_string_safe, Hx,
      more_members_safe.
    + reflexivity.
    + apply Forall_forall. intros y Hy. rewrite Forall_forall in Hxs.
      now apply Hxs.
Qed.

(** X18: the JSON export is plain ASCII, whatever the papers hold: every
    character of it is a printable ASCII character or a line feed, the
    other characters of the fields being written as escapes. *)
Theorem export_json_is_ascii (papers : list Paper) (config : ExportConfig) :
  all_chars json_safe (_export_json papers config) = true.
Proof. unfold _export_json, dumps. apply dump_safe. Qed.

(** ** The terms of the query for related papers *)

Lemma split_ws_from_chars p s :
  forall word,
    all_chars p word = true -> all_chars p s = true ->
    Forall (fun w => all_chars p w = true) (split_ws_from word s).
Proof.
  induction s as [ | c s IH]; intros word Hw Hs; cbn [split_ws_from].
  - destruct (truthy word); repeat constructor. exact Hw.
  - cbn [all_chars] in Hs. apply andb_true_iff in Hs as [Hc Hs].
    destruct (isspace c).
    + destruct (truthy word); [ constructor; [ exact Hw | ] | ];
        now apply IH.
    + apply IH; [ | exact Hs ].
      rewrite all_chars_app, Hw. cbn [str1 all_chars]. now rewrite Hc.
Qed.

Lemma split_ws_from_no_space s :
  forall word,
    all_chars (fun c => negb (isspace c)) word = true ->
    Forall (fun w => all_chars (fun c => negb (isspace c)) w = true)
           (split_ws_from word s).
Proof.
  induction s as [ | c s IH]; intros word Hw; cbn [split_ws_from].
  - destruct (truthy word); repeat constructor. exact Hw.
  - destruct (isspace c) eqn:E.
    + destruct (truthy word); [ constructor; [ exact Hw | ] | ];
        now apply IH.
    + apply IH. rewrite all_chars_app, Hw. cbn [str1 all_chars].
      now rewrite E.
Qed.

(** X19: the query that [find_related_papers] builds holds at most two
    categories and at most three words of the title, so five terms at
    most; each of these words is longer than three characters, is no stop
    word, and holds no blank and no capital ASCII letter. *)
Theorem related_query_terms (paper : Paper) :
  (List.length (category_clauses paper) <= 2)%nat
  /\ (List.length (key_words paper) <= 3)%nat
  /\ (List.length (search_terms paper) <= 5)%nat
  /\ Forall (fun word =>
               (3 < String.length word)%nat
               /\ mem word stop_words = false
               /\ all_chars (fun c => negb (isspace c)) word = true
               /\ all_chars (fun c => negb (upper_letter c)) word = true)
            (key_words paper).
Proof.
  assert (Hc : (List.length (category_clauses paper) <= 2)%nat).
  { unfold category_clauses. rewrite length_map. apply firstn_le_length. }
  assert (Hk : (List.length (key_words paper) <= 3)%nat).
  { unfold key_words. apply firstn_le_length. }
  split; [ exact Hc | ]. split; [ exact Hk | ].
  split.
  { unfold search_terms. rewrite length_app, length_map. lia. }
  unfold key_words. cbv zeta. apply Forall_firstn_of.
  apply Forall_forall. intros w Hw. apply filter_In in Hw as [Hin Hf].
  apply andb_true_iff in Hf as [Hlen Hstop].
  pose proof (split_ws_from_no_space (lower (title paper)) "" eq_refl) as Hsp.
  pose proof (split_ws_from_chars _ (lower (title paper)) "" eq_refl
                (lower_not_upper (title paper))) as Hup.
  rewrite Forall_forall in Hsp, Hup.
  repeat split.
  - now apply Nat.ltb_lt in Hlen.
  - now apply negb_true_iff in Hstop.
  - now apply Hsp.
  - now apply Hup.
Qed.

(** ** The handlers get_paper and analyze_trends *)

Section MoreHandlerProperties.

Variable fromstring : string -> result ET.Element.
Variable http : string -> result Response.
Variable status_error_text : Response -> string.
Variable datetime : Type.
Variable now : datetime.
Variable minus_days : datetime -> Z -> datetime.
Variable strftime_Ymd : datetime -> string.

Local Abbreviation paper_of_id' :=
  (paper_of_id fromstring http status_error_text).
Local Abbreviation server_get_paper :=
  (Server.get_paper fromstring http status_error_text).
Local Abbreviation analyze_trends' :=
  (analyze_trends fromstring http status_error_text
     datetime now minus_days strftime_Ymd).
Local Abbreviation server_analyze_trends :=
  (Server.analyze_trends fromstring http status_error_text
     datetime now minus_days strftime_Ymd).

(** X20: the handler [get_paper] never raises and makes one request.  Its
    answer holds the key [error] exactly when no paper was found; when one
    was found the answer is its dictionary, from which [Paper.from_dict]
    reads the paper back; from the answer of a failed lookup
    [Paper.from_dict] reads a paper all of whose fields are empty. *)
Theorem get_paper_handler_answer (arxiv_id : string) :
  exists answer,
    run (server_get_paper arxiv_id) = (Ok answer, [id_list_url arxiv_id])
    /\ match paper_of_id' arxiv_id with
       | Some paper =>
           answer = to_dict paper
           /\ dict_lookup "error" answer = None
           /\ from_dict answer = Some paper
       | None =>
           answer = [("error", JStr "Paper not found")]
           /\ from_dict answer
              = Some {| id := ""; title := ""; authors := []; abstract := "";
                        published := ""; categories := [];
                        arxiv_url := Some ""; pdf_url := "" |}
       end.
Proof.
  unfold run, Server.get_paper, try_catch, bind.
  rewrite get_paper_of_id. cbn [app ret].
  eexists. split; [ reflexivity | ].
  destruct (paper_of_id' arxiv_id) as [paper | ].
  - split; [ reflexivity | ]. split; [ reflexivity | ].
    apply (from_dict_to_dict paper).
  - split; reflexivity.
Qed.

Lemma trend_answer_keys c p a n (d : dict json) e :
  d = [] \/ (exists v, d = [("monthly_counts", v)])
  \/ (exists v, d = [("top_authors", v)])
  \/ (exists v, d = [("top_keywords", v)]) ->
  dict_of_items
    ([("category", c); ("time_period", p); ("analysis_type", a);
      ("total_papers", n)] ++ d ++ [("error", e)])%list
  = ([("category", c); ("time_period", p); ("analysis_type", a);
      ("total_papers", n)] ++ d ++ [("error", e)])%list.
Proof.
  intros [-> | [[v ->] | [[v ->] | [v ->]]]]; reflexivity.
Qed.

Lemma trend_data_keys kind papers :
  trend_data kind papers = []
  \/ (exists v, trend_data kind papers = [("monthly_counts", v)])
  \/ (exists v, trend_data kind papers = [("top_authors", v)])
  \/ (exists v, trend_data kind papers = [("top_keywords", v)]).
Proof.
  unfold trend_data, _analyze_top_authors, _analyze_keyword_frequency.
  destruct (String.eqb kind "publication_count"); [ right; left; eauto | ].
  destruct (String.eqb kind "top_authors"); [ right; right; left; eauto | ].
  destruct (String.eqb kind "keyword_frequency"); [ | now left ].
  right; right; right; eauto.
Qed.

(** X21: the handler [analyze_trends] never raises and makes the one
    request of the analyzer.  Its answer lists the category, the period,
    the type of analysis and the count of papers, then the data of the
    analysis, then [error]: the data hold one key at most, which is none
    of the other five, so that nothing is overwritten. *)
Theorem analyze_trends_handler_answer (cat period kind : string) :
  exists r : TrendAnalysis,
    fst (run (analyze_trends' cat period kind)) = Ok r
    /\ run (server_analyze_trends cat period kind)
       = (Ok ([("category", JStr cat);
               ("time_period", JStr period);
               ("analysis_type", JStr kind);
               ("total_papers", JInt (total_papers r))]
              ++ data r
              ++ [("error", match trend_error r with
                            | Some msg => JStr msg
                            | None => JNull
                            end)])%list,
          snd (run (analyze_trends' cat period kind)))
    /\ (List.length (data r) <= 1)%nat.
Proof.
  unfold run, Server.analyze_trends, try_catch, bind.
  rewrite analyze_trends_run. cbv zeta. cbn [fst snd].
  eexists. split; [ reflexivity | ].
  destruct (truthy_opt _).
  - split; [ reflexivity | cbn; lia ].
  - unfold ret. rewrite trend_answer_keys by apply trend_data_keys.
    split; [ reflexivity | ]. cbn [data].
    destruct (trend_data_keys kind
                (papers (try_except
                   (search_outcome fromstring status_error_text
                      (trend_query datetime now minus_days strftime_Ymd
                         cat period)
                      (http (search_url
                               (trend_query datetime now minus_days
                                  strftime_Ymd cat period)
                               100 "submittedDate")))
                   (search_failed
                      (trend_query datetime now minus_days strftime_Ymd
                         cat period)))))
      as [-> | [[v ->] | [[v ->] | [v ->]]]]; cbn; lia.
Qed.

End MoreHandlerProperties.

(** ** The handler get_recent_papers *)

Section RecentPapersProperties.

Variable fromstring : string -> result ET.Element.
Variable http : string -> result Response.
Variable status_error_text : Response -> string.
Variable datetime : Type.
Variable now : datetime.
Variable minus_days : datetime -> Z -> result datetime.
Variable strftime_Ymd : datetime -> string.

Local Abbreviation get_recent_papers' :=
  (Server.get_recent_papers fromstring http status_error_text
     datetime now minus_days strftime_Ymd).
Local Abbreviation api_search := (search fromstring http status_error_text).

(** X22: the handler [get_recent_papers] never raises.  When the
    subtraction of the days from the current date overflows it makes no
    request and answers with the message of the error and no paper.
    Otherwise its requests are those of one call of [search], newest
    first, for the submissions between the two dates; the query is the
    date range alone when the category is the empty string, and the
    category and the date range, each in parentheses and joined by [AND],
    when it is not. *)
Theorem get_recent_papers_requests (cat : string) (days_back max_results : Z) :
  exists answer,
    fst (run (get_recent_papers' cat days_back max_results)) = Ok answer
    /\ match minus_days now days_back with
       | Raise e =>
           snd (run (get_recent_papers' cat days_back max_results)) = []
           /\ answer = [("error", JStr (exn_str e)); ("papers", JArr [])]
       | Ok start_date =>
           let date_query :=
             "submittedDate:[" ++ strftime_Ymd start_date ++ " TO "
             ++ strftime_Ymd now ++ "]" in
           let query :=
             match cat with
             | EmptyString => date_query
             | String _ _ => "(cat:" ++ cat ++ ") AND (" ++ date_query ++ ")"
             end in
           snd (run (get_recent_papers' cat days_back max_results))
           = snd (run (api_search query max_results "submittedDate"))
           /\ dict_lookup "query" answer = Some (JStr query)
       end.
Proof.
  unfold run, Server.get_recent_papers, try_catch, bind, lift.
  destruct (minus_days now days_back) as [start_date | e].
  - rewrite search_arxiv_run, search_run. cbv zeta. cbn [fst snd].
    eexists. split; [ reflexivity | ].
    unfold build_date_range_query, combine_queries, build_category_query, join.
    cbn [map String.concat app].
    destruct cat as [ | c cat]; cbn [truthy].
    + split; reflexivity.
    + rewrite !append_assoc_r. split; reflexivity.
  - eexists. split; [ reflexivity | ]. split; reflexivity.
Qed.

End RecentPapersProperties.
(** ** Sample runs of the models of the library functions *)

Example validate_arxiv_id_samples :
  map validate_arxiv_id
      ["2301.00001"; "2301.0001"; "2301.00001v2"; "hep-th/9901001";
       "cs.AI/0001001"; "2301.00001" ++ nl;
       "2301.000001"; "2301.00001v"; "cs.ai/0001001"; nl ++ "2301.00001";
       "2301.00001" ++ nl ++ nl; ""]
  = [true; true; true; true; true; true;
     false; false; false; false; false; false].
Proof. reflexivity. Qed.

Example findall_words_samples :
  findall_words "deep learning for nlp2 and graphs"
  = ["deep"; "learning"; "graphs"]
  /\ findall_words "abcd1 efgh_ ijkl-mnop qrs tuvwx" = ["ijkl"; "mnop"; "tuvwx"].
Proof. split; reflexivity. Qed.

Example csv_reader_samples :
  csv_reader ("a,b" ++ str1 CR ++ nl ++ "c,d" ++ str1 CR ++ nl)
  = [["a"; "b"]; ["c"; "d"]]
  /\ csv_reader (str1 DQUOTE ++ "a" ++ str1 DQUOTE ++ str1 DQUOTE ++ ",b"
                 ++ str1 DQUOTE ++ ",c" ++ nl ++ nl ++ "x,")
     = [["a" ++ str1 DQUOTE ++ ",b"; "c"]; []; ["x"; ""]].
Proof. split; reflexivity. Qed.

Example top_authors_sample :
  top_authors_of
    [mkPaper "1" "" ["A"; "B"] "" "" [] None "";
     mkPaper "2" "" ["B"; "C"] "" "" [] None ""]
  = [("B", 2); ("A", 1); ("C", 1)].
Proof. reflexivity. Qed.
